(** * Verification of the OAuth2 and webhook core of rblxopencloud

    Shallow embedding of [src/rblxopencloud/webhook.py] and
    [src/rblxopencloud/oauth2.py].  Python strings are lists of [ascii]
    (code points 0..255), [bytes] values are lists of [Byte.byte], parsed
    JSON documents are the inductive [json], and every Python exception the
    code can raise is a constructor of [exn].  Fallible code returns
    [result]. *)

From Stdlib Require Import List Bool ZArith NArith QArith Lia Lqa.
From Stdlib Require Import Ascii String.
From Stdlib Require Strings.Byte.
From Stdlib Require Import DecimalN.
From Stdlib Require Import Qpower Qround Qabs.
From Stdlib Require DecimalFacts.
Import ListNotations.

Set Warnings "-notation-for-abbreviation -register-all".
Open Scope list_scope.

(* ------------------------------------------------------------------ *)
(** ** Python values *)

(** Python text: a list of characters. *)
Notation pystr := (list ascii).

(** A string literal of the source, as Python text. *)
Definition lit (s : string) : pystr := list_ascii_of_string s.

(** Documents produced by [json.loads] (numbers are integers). *)
Inductive json : Type :=
| JNull
| JBool (b : bool)
| JNum (z : Z)
| JStr (s : pystr)
| JArr (l : list json)
| JObj (fields : list (pystr * json)).

(** The exceptions raised by the modelled code.  [HandlerRaised n] is the
    [n]-th exception a user callback may raise. *)
Inductive exn : Type :=
| KeyError (k : json)
| IndexError
| TypeError
| ValueError
| AttributeError
| JSONDecodeError
| OverflowError
| OSError
| InvalidKey (msg : json)
| InvalidCode (msg : json)
| ServiceUnavailable (msg : json)
| InsufficientScope (scope : json) (msg : json)
| rblx_opencloudException (msg : json)
| UnknownEventType (msg : json)
| UndefinedEventType (msg : json)
| HandlerRaised (n : nat).

(** A computation that returns a value or raises. *)
Inductive result (A : Type) : Type :=
| Ok (a : A)
| Err (e : exn).
Arguments Ok {A} a.
Arguments Err {A} e.

Definition bind {A B} (m : result A) (k : A -> result B) : result B :=
  match m with Ok a => k a | Err e => Err e end.

Notation "x <- m ;; k" := (bind m (fun x => k))
  (at level 61, m at next level, right associativity).

(** Boolean equality of characters and of texts. *)
Definition ascii_eqb (a b : ascii) : bool := Ascii.eqb a b.

Fixpoint str_eqb (s t : pystr) : bool :=
  match s, t with
  | [], [] => true
  | a :: s', b :: t' => ascii_eqb a b && str_eqb s' t'
  | _, _ => false
  end.

(** Dictionary lookup on the key/value pairs of a JSON object. *)
Fixpoint assoc (k : pystr) (fs : list (pystr * json)) : option json :=
  match fs with
  | [] => None
  | (k', v) :: fs' => if str_eqb k k' then Some v else assoc k fs'
  end.

(** [d[k]] for a string key [k]. *)
Definition py_getitem (d : json) (k : pystr) : result json :=
  match d with
  | JObj fs =>
      match assoc k fs with
      | Some v => Ok v
      | None => Err (KeyError (JStr k))
      end
  | _ => Err TypeError
  end.

(** [d.get(k)]: [None] when the key is absent; only dictionaries have
    [get]. *)
Definition py_get (d : json) (k : pystr) : result (option json) :=
  match d with
  | JObj fs => Ok (assoc k fs)
  | _ => Err AttributeError
  end.

(** [d.get(k, default)]. *)
Definition py_get_default (d : json) (k : pystr) (default : json) : result json :=
  o <- py_get d k ;;
  Ok (match o with Some v => v | None => default end).

(** Python truthiness of a JSON value. *)
Definition json_truthy (v : json) : bool :=
  match v with
  | JNull => false
  | JBool b => b
  | JNum z => negb (Z.eqb z 0)
  | JStr s => negb (str_eqb s [])
  | JArr l => match l with [] => false | _ => true end
  | JObj fs => match fs with [] => false | _ => true end
  end.

(** Truthiness of an optional value ([None] is falsy). *)
Definition opt_truthy (o : option json) : bool :=
  match o with Some v => json_truthy v | None => false end.

(** [l[i]] on a Python list, for a non-negative index. *)
Definition py_index {A} (l : list A) (i : nat) : result A :=
  match nth_error l i with Some a => Ok a | None => Err IndexError end.

(* ------------------------------------------------------------------ *)
(** ** [str.split] *)

(** [s.split(sep)] for a one-character separator: every occurrence
    splits, empty pieces are kept, the result is never empty. *)
Fixpoint py_split (sep : ascii) (s : pystr) : list pystr :=
  match s with
  | [] => [[]]
  | c :: r =>
      if ascii_eqb c sep then [] :: py_split sep r
      else match py_split sep r with
           | p :: ps => (c :: p) :: ps
           | [] => [[c]]
           end
  end.

(** [s.split(sep, maxsplit=1)]. *)
Fixpoint py_split1 (sep : ascii) (s : pystr) : list pystr :=
  match s with
  | [] => [[]]
  | c :: r =>
      if ascii_eqb c sep then [[]; r]
      else match py_split1 sep r with
           | p :: ps => (c :: p) :: ps
           | [] => [[c]]
           end
  end.

(** Helpers to speak about texts. *)
Definition nosep (sep : ascii) (s : pystr) : bool :=
  forallb (fun c => negb (ascii_eqb c sep)) s.

(** The prefix of a text before the first separator. *)
Fixpoint take_until (sep : ascii) (s : pystr) : pystr :=
  match s with
  | [] => []
  | c :: r => if ascii_eqb c sep then [] else c :: take_until sep r
  end.

Definition is_digit_char (c : ascii) : bool :=
  existsb (ascii_eqb c) (lit "0123456789").


(* ------------------------------------------------------------------ *)
(** ** [str(int)] and [int(str)] *)

(** Decimal digits of a [Decimal.uint], most significant first. *)
Fixpoint uint_digits (u : Decimal.uint) : pystr :=
  match u with
  | Decimal.Nil => []
  | Decimal.D0 u => "0"%char :: uint_digits u
  | Decimal.D1 u => "1"%char :: uint_digits u
  | Decimal.D2 u => "2"%char :: uint_digits u
  | Decimal.D3 u => "3"%char :: uint_digits u
  | Decimal.D4 u => "4"%char :: uint_digits u
  | Decimal.D5 u => "5"%char :: uint_digits u
  | Decimal.D6 u => "6"%char :: uint_digits u
  | Decimal.D7 u => "7"%char :: uint_digits u
  | Decimal.D8 u => "8"%char :: uint_digits u
  | Decimal.D9 u => "9"%char :: uint_digits u
  end.

(** [str(z)] for a Python [int].  CPython also refuses to format an [int]
    of more than 4300 digits; that limit is not modelled here, the ids
    and status codes the code formats being far shorter in practice. *)
Definition py_str_int (z : Z) : pystr :=
  match z with
  | Zneg p => "-"%char :: uint_digits (N.to_uint (Npos p))
  | _ => uint_digits (N.to_uint (Z.to_N z))
  end.

(** The decimal digit a character stands for, as a [Decimal.uint]
    constructor. *)
Definition digit_ctor (c : ascii) : option (Decimal.uint -> Decimal.uint) :=
  if ascii_eqb c "0" then Some Decimal.D0
  else if ascii_eqb c "1" then Some Decimal.D1
  else if ascii_eqb c "2" then Some Decimal.D2
  else if ascii_eqb c "3" then Some Decimal.D3
  else if ascii_eqb c "4" then Some Decimal.D4
  else if ascii_eqb c "5" then Some Decimal.D5
  else if ascii_eqb c "6" then Some Decimal.D6
  else if ascii_eqb c "7" then Some Decimal.D7
  else if ascii_eqb c "8" then Some Decimal.D8
  else if ascii_eqb c "9" then Some Decimal.D9
  else None.

Fixpoint uint_of_digits (s : pystr) : option Decimal.uint :=
  match s with
  | [] => Some Decimal.Nil
  | c :: r =>
      match digit_ctor c with
      | Some d => option_map d (uint_of_digits r)
      | None => None
      end
  end.

(** Underscores of an [int] literal: one at a time, between digits. *)
Fixpoint underscores_ok (prev_us : bool) (s : pystr) : bool :=
  match s with
  | [] => negb prev_us
  | c :: r =>
      if ascii_eqb c "_" then negb prev_us && underscores_ok true r
      else underscores_ok false r
  end.

Definition is_py_space (c : ascii) : bool :=
  let n := nat_of_ascii c in
  ((9 <=? n) && (n <=? 13))%nat || ((28 <=? n) && (n <=? 32))%nat
  || (n =? 133)%nat || (n =? 160)%nat.

Definition no_space (s : pystr) : bool := forallb (fun c => negb (is_py_space c)) s.

Fixpoint lstrip_space (s : pystr) : pystr :=
  match s with
  | c :: r => if is_py_space c then lstrip_space r else s
  | [] => []
  end.

Definition strip_space (s : pystr) : pystr :=
  rev (lstrip_space (rev (lstrip_space s))).

(** The default [sys.get_int_max_str_digits()] of CPython. *)
Definition int_max_str_digits : nat := 4300.

(** Unsigned magnitude of an [int] literal; more than
    [int_max_str_digits] digits raise [ValueError]. *)
Definition py_int_magnitude (s : pystr) : result N :=
  match s with
  | [] => Err ValueError
  | c :: _ =>
      if ascii_eqb c "_" then Err ValueError
      else if underscores_ok false s then
        let ds := filter (fun c => negb (ascii_eqb c "_")) s in
        if (int_max_str_digits <? List.length ds)%nat then Err ValueError
        else
          match uint_of_digits ds with
          | Some u => Ok (N.of_uint u)
          | None => Err ValueError
          end
      else Err ValueError
  end.

(** [int(s)] for a text [s], base 10. *)
Definition py_int (s : pystr) : result Z :=
  match strip_space s with
  | c :: r =>
      if ascii_eqb c "-" then n <- py_int_magnitude r ;; Ok (- Z.of_N n)%Z
      else if ascii_eqb c "+" then n <- py_int_magnitude r ;; Ok (Z.of_N n)
      else n <- py_int_magnitude (c :: r) ;; Ok (Z.of_N n)
  | [] => Err ValueError
  end.

(* ------------------------------------------------------------------ *)
(** ** Bytes, [str.encode], base64 and [urllib.parse.quote_plus] *)

Notation bytes := (list Byte.byte).

Definition byte_of_N (n : N) : Byte.byte := Ascii.byte_of_ascii (ascii_of_N n).
Definition N_of_byte (b : Byte.byte) : N := Byte.to_N b.

(** [s.encode()]: UTF-8 of code points 0..255. *)
Definition utf8_char (c : ascii) : bytes :=
  let n := N_of_ascii c in
  if (n <? 128)%N then [byte_of_N n]
  else [byte_of_N (N.lor 192 (N.shiftr n 6)); byte_of_N (N.lor 128 (N.land n 63))].

Definition encode (s : pystr) : bytes := flat_map utf8_char s.

(** [bytes.decode()] of ASCII bytes. *)
Definition decode_ascii (b : bytes) : pystr := map Ascii.ascii_of_byte b.

Definition b64_table : pystr :=
  lit "ABCDEFGHIJKLMNOPQRSTUVWXYZabcdefghijklmnopqrstuvwxyz0123456789+/".
Definition b64url_table : pystr :=
  lit "ABCDEFGHIJKLMNOPQRSTUVWXYZabcdefghijklmnopqrstuvwxyz0123456789-_".

Definition b64_char (tbl : pystr) (n : N) : ascii :=
  nth (N.to_nat (N.modulo n 64)) tbl "A"%char.

(** Base64 over an alphabet, with [=] padding: three input bytes give
    four output characters. *)
Fixpoint b64_encode_with (tbl : pystr) (bs : bytes) : pystr :=
  match bs with
  | b0 :: b1 :: b2 :: r =>
      let n := (N_of_byte b0 * 65536 + N_of_byte b1 * 256 + N_of_byte b2)%N in
      b64_char tbl (n / 262144) :: b64_char tbl (n / 4096) ::
      b64_char tbl (n / 64) :: b64_char tbl n :: b64_encode_with tbl r
  | [b0; b1] =>
      let n := (N_of_byte b0 * 65536 + N_of_byte b1 * 256)%N in
      [b64_char tbl (n / 262144); b64_char tbl (n / 4096);
       b64_char tbl (n / 64); "="%char]
  | [b0] =>
      let n := (N_of_byte b0 * 65536)%N in
      [b64_char tbl (n / 262144); b64_char tbl (n / 4096); "="%char; "="%char]
  | [] => []
  end.

(** [base64.b64encode(b).decode()]. *)
Definition b64encode (bs : bytes) : pystr := b64_encode_with b64_table bs.
(** [base64.urlsafe_b64encode(b).decode()]. *)
Definition urlsafe_b64encode (bs : bytes) : pystr := b64_encode_with b64url_table bs.

Definition hex_digit (n : N) : ascii := nth (N.to_nat n) (lit "0123456789ABCDEF") "0"%char.

(** Characters [quote] never escapes. *)
Definition always_safe (c : ascii) : bool :=
  let n := nat_of_ascii c in
  ((65 <=? n) && (n <=? 90))%nat || ((97 <=? n) && (n <=? 122))%nat
  || ((48 <=? n) && (n <=? 57))%nat
  || ascii_eqb c "_" || ascii_eqb c "." || ascii_eqb c "-" || ascii_eqb c "~".

Definition quote_byte (b : Byte.byte) : pystr :=
  let c := Ascii.ascii_of_byte b in
  if always_safe c then [c]
  else if ascii_eqb c " " then ["+"%char]
  else let n := N_of_byte b in ["%"%char; hex_digit (n / 16); hex_digit (N.modulo n 16)].

(** [urllib.parse.quote_plus(s)] of a text. *)
Definition quote_plus (s : pystr) : pystr := flat_map quote_byte (encode s).

(** Values of the query dictionary of [generate_uri]. *)
Inductive pyval : Type :=
| PNone
| PStr (s : pystr)
| PInt (z : Z).

(** [str(v)] *)
Definition pyval_str (v : pyval) : pystr :=
  match v with
  | PNone => lit "None"
  | PStr s => s
  | PInt z => py_str_int z
  end.

Fixpoint join (sep : pystr) (l : list pystr) : pystr :=
  match l with
  | [] => []
  | [x] => x
  | x :: r => x ++ sep ++ join sep r
  end.

(** [urllib.parse.urlencode(d)] of a dictionary with text keys. *)
Definition urlencode (d : list (pystr * pyval)) : pystr :=
  join (lit "&") (map (fun kv => quote_plus (fst kv) ++ "="%char :: quote_plus (pyval_str (snd kv))) d).

(** Strict order on [float] clock readings. *)
Definition Qltb (x y : Q) : bool := negb (Qle_bool y x).

(* ------------------------------------------------------------------ *)
(** ** [float] arithmetic *)

(** A Python [float] computed by the code: a finite double, given by its
    exact rational value, or an infinity. *)
Inductive pyfloat : Type :=
| Fin (x : Q)
| PInf
| NInf.

Definition pow2 (e : Z) : Q := Qpower (inject_Z 2) e.

(** [floor(log2 a)] for [a > 0]. *)
Definition ilog2_Q (a : Q) : Z :=
  let k := (Z.log2 (Qnum a) - Z.log2 (Zpos (Qden a)))%Z in
  if Qle_bool (pow2 k) a then k else (k - 1)%Z.

(** The exponent [e] of the spacing [2^e] of the doubles around [a > 0]:
    53-bit significands, subnormals below 2^-1022, largest binade
    [2^1023, 2^1024). *)
Definition ulp_exp (a : Q) : Z := Z.min 971 (Z.max (-1074) (ilog2_Q a - 52)).

(** The multiple of [2^e] nearest to [a >= 0], ties to even. *)
Definition round_mult (a : Q) (e : Z) : Z :=
  let y := (a / pow2 e)%Q in
  let q := Qfloor y in
  let fr := (y - inject_Z q)%Q in
  if Qltb (1 # 2) fr || (Qeq_bool fr (1 # 2) && Z.odd q) then (q + 1)%Z else q.

(** IEEE 754 binary64 round-to-nearest-even of the exact value [x]; past
    the largest double the result is an infinity. *)
Definition round_double (x : Q) : pyfloat :=
  let a := Qabs x in
  if Qeq_bool a 0 then Fin 0 else
  let e := ulp_exp a in
  let r := (inject_Z (round_mult a e) * pow2 e)%Q in
  if Qle_bool (pow2 1024) r then (if Qle_bool 0 x then PInf else NInf)
  else Fin (Qred (if Qle_bool 0 x then r else - r)).

(** The conversion of an [int] operand of [float - int] ([PyLong_AsDouble]):
    an [int] that rounds past the largest double raises [OverflowError]
    ("int too large to convert to float"). *)
Definition float_of_int (n : Z) : result Q :=
  match round_double (inject_Z n) with
  | Fin x => Ok x
  | _ => Err OverflowError
  end.

(** [a - b] of two finite floats: the rounded difference, an infinity on
    overflow. *)
Definition float_sub (a b : Q) : pyfloat := round_double (a - b).

(** [f > c] for a float [f] and a constant [c]. *)
Definition float_gt (f : pyfloat) (c : Q) : bool :=
  match f with Fin x => Qltb c x | PInf => true | NInf => false end.

(* ------------------------------------------------------------------ *)
(** ** Objects of other modules of the package *)

(** Modelled from the spec: [User] of [user.py] (not in src/), the user
    reference {id, api key} with the profile attributes [oauth2.py]
    assigns after construction. *)
Record User : Type := mkUser {
  user_id : json;
  user_api_key : option pystr;
  username : option json;
  display_name : option json;
  headshot_uri : option json;
  created_at : option Q }.

Definition User_new (id : json) (api_key : option pystr) : User :=
  mkUser id api_key None None None None.

(** Modelled from the spec: [Group] of [group.py] (not in src/), a group
    reference {id, api key}. *)
Record Group : Type := mkGroup { group_id : json; group_api_key : option pystr }.

Inductive Owner : Type :=
| OwnerUser (u : User)
| OwnerGroup (g : Group).

(** Modelled from the spec: [Experience] of [experience.py] (not in src/),
    an experience reference {id, api key} with an optional owner. *)
Record Experience : Type := mkExperience {
  experience_id : json;
  experience_api_key : option pystr;
  experience_owner : option Owner }.

Definition Experience_new (id : json) (api_key : option pystr) : Experience :=
  mkExperience id api_key None.

(** [for x in v] over a JSON value: lists give their items, strings their
    characters, dictionaries their keys. *)
Definition py_iter (v : json) : result (list json) :=
  match v with
  | JArr l => Ok l
  | JStr s => Ok (map (fun c => JStr [c]) s)
  | JObj fs => Ok (map (fun kv => JStr (fst kv)) fs)
  | _ => Err TypeError
  end.

Fixpoint map_result {A B} (f : A -> result B) (l : list A) : result (list B) :=
  match l with
  | [] => Ok []
  | a :: r => b <- f a ;; bs <- map_result f r ;; Ok (b :: bs)
  end.

(* ------------------------------------------------------------------ *)
(** ** [webhook.py] *)

Module WebhookModel.

(** The library functions the module calls. *)
Record webhook_lib : Type := {
  (** [json.loads]; [None] when the bytes are not a JSON document. *)
  json_loads : bytes -> option json;
  (** [hmac.new(key, msg, sha256).digest()]. *)
  hmac_sha256 : bytes -> bytes -> bytes;
  (** [datetime.fromisoformat]; [None] when it raises [ValueError]. *)
  fromisoformat : pystr -> option Q }.

Inductive NotificationKind : Type :=
| Generic
| Test (user : User)
| RightToErasureRequest (user_id : json) (experiences : list Experience).

(** [Notification] and its subclasses (the [webhook] back reference is
    the processing [Webhook] itself and is left out). *)
Record Notification : Type := mkNotification {
  notification_id : json;
  timestamp : Q;
  kind : NotificationKind }.

(** A registered Python callable: [name] is its [__name__]; it may be
    called as an event handler ([function(notification=...)]) or as the
    error handler ([on_error(notification, error)]); [Some e] means the
    call raised [e]. *)
Record Callable : Type := mkCallable {
  cname : pystr;
  call_event : Notification -> option exn;
  call_error : Notification -> exn -> option exn }.

Inductive secret_arg : Type :=
| SecretBytes (b : bytes)
| SecretStr (s : pystr).

Record Webhook : Type := mkWebhook {
  secret : option bytes;
  api_key : option pystr;
  events : list (pystr * Callable);
  on_error : option Callable }.

(** [Webhook.__init__] *)
Definition Webhook_new (s : option secret_arg) (k : option pystr) : Webhook :=
  mkWebhook
    (match s with
     | Some (SecretBytes b) => Some b
     | Some (SecretStr t) => Some (encode t)
     | None => None
     end) k [] None.

Definition EVENT_TYPES : list (pystr * pystr) :=
  [(lit "SampleNotification", lit "on_test");
   (lit "RightToErasureRequest", lit "on_right_to_erasure_request")].

Fixpoint str_assoc (k : pystr) (l : list (pystr * pystr)) : option pystr :=
  match l with
  | [] => None
  | (k', v) :: r => if str_eqb k k' then Some v else str_assoc k r
  end.

Fixpoint events_get (k : pystr) (l : list (pystr * Callable)) : option Callable :=
  match l with
  | [] => None
  | (k', v) :: r => if str_eqb k k' then Some v else events_get k r
  end.

(** [Webhook.event]: the decorator registering a handler. *)
Definition event (w : Webhook) (f : Callable) : result Webhook :=
  if str_eqb (cname f) (lit "on_error") then
    Ok (mkWebhook (secret w) (api_key w) (events w) (Some f))
  else if existsb (fun kv => str_eqb (cname f) (snd kv)) EVENT_TYPES then
    Ok (mkWebhook (secret w) (api_key w) ((cname f, f) :: events w) (on_error w))
  else Err ValueError.

(** Truthiness of [Optional[bytes]] and of an optional text. *)
Definition bytes_truthy (o : option bytes) : bool :=
  match o with Some (_ :: _) => true | _ => false end.
Definition hdr_truthy (o : option pystr) : bool :=
  match o with Some (_ :: _) => true | _ => false end.

Section Webhook_code.
Variable L : webhook_lib.

(** [Notification.__init__] *)
Definition Notification_init (body : json) : result Notification :=
  nid <- py_getitem body (lit "NotificationId") ;;
  et <- py_getitem body (lit "EventTime") ;;
  match et with
  | JStr s =>
      let iso := firstn 26 (hd [] (py_split "Z" s) ++ lit "000000") in
      match fromisoformat L iso with
      | Some ts => Ok (mkNotification nid ts Generic)
      | None => Err ValueError
      end
  | _ => Err AttributeError
  end.

(** [TestNotification.__init__] *)
Definition TestNotification_init (body : json) (k : option pystr) : result Notification :=
  n <- Notification_init body ;;
  ev <- py_getitem body (lit "EventPayload") ;;
  uid <- py_getitem ev (lit "UserId") ;;
  Ok (mkNotification (notification_id n) (timestamp n) (Test (User_new uid k))).

(** [RightToErasureRequestNotification.__init__] *)
Definition RightToErasureRequestNotification_init (body : json) (k : option pystr)
  : result Notification :=
  n <- Notification_init body ;;
  ev <- py_getitem body (lit "EventPayload") ;;
  uid <- py_getitem ev (lit "UserId") ;;
  gids <- py_getitem ev (lit "GameIds") ;;
  ids <- py_iter gids ;;
  Ok (mkNotification (notification_id n) (timestamp n)
        (RightToErasureRequest uid
           (map (fun i => Experience_new i k) ids))).

(** What [process_notification] calls, in order. *)
Inductive call : Type :=
| CalledHandler (name : pystr) (n : Notification)
| CalledOnError (n : Notification) (e : exn).

(** [EVENT_TYPES.get(v)]: unhashable values raise [TypeError]. *)
Definition event_types_get (v : json) : result (option pystr) :=
  match v with
  | JStr s => Ok (str_assoc s EVENT_TYPES)
  | JArr _ | JObj _ => Err TypeError
  | _ => Ok None
  end.

(** The [if event_type == ...] reassignment of [notification]. *)
Definition typed_notification (w : Webhook) (body : json) (n0 : Notification) (ev : pystr)
  : result Notification :=
  if str_eqb ev (lit "on_test") then TestNotification_init body (api_key w)
  else if str_eqb ev (lit "on_right_to_erasure_request")
  then RightToErasureRequestNotification_init body (api_key w)
  else Ok n0.

(** The messages of [UnknownEventType] (the f-string formats the [None]
    that [EVENT_TYPES.get] returned) and of [UndefinedEventType]. *)
Definition undefined_msg (ev : pystr) : json :=
  JStr ("'"%char :: ev ++ lit "' is not a defined event.").

Definition unknown_msg : json := JStr (lit "Unkown webhook event type 'None'").

(** The [try] block of [process_notification], from the generic
    notification [n0]: the calls made, the value of [notification] when
    the block ends, and the exception it raised, if any. *)
Definition dispatch_try (w : Webhook) (body : json) (n0 : Notification)
  : list call * Notification * option exn :=
  match py_getitem body (lit "EventType") with
  | Err e => ([], n0, Some e)
  | Ok et =>
    match event_types_get et with
    | Err e => ([], n0, Some e)
    | Ok None =>
        ([], n0, Some (UnknownEventType unknown_msg))
    | Ok (Some ev) =>
      match typed_notification w body n0 ev with
      | Err e => ([], n0, Some e)
      | Ok n =>
        match events_get ev (events w) with
        | None =>
            ([], n, Some (UndefinedEventType (undefined_msg ev)))
        | Some f => ([CalledHandler ev n], n, call_event f n)
        end
      end
    end
  end.

(** From [body = json.loads(body)] to [return "", 204]. *)
Definition dispatch (w : Webhook) (raw : bytes) : list call * result (pystr * Z) :=
  match json_loads L raw with
  | None => ([], Err JSONDecodeError)
  | Some body =>
    match Notification_init body with
    | Err e => ([], Err e)
    | Ok n0 =>
      let '(tr, n, oe) := dispatch_try w body n0 in
      match oe with
      | None => (tr, Ok ([], 204%Z))
      | Some e =>
        match on_error w with
        | Some h =>
            (tr ++ [CalledOnError n e],
             match call_error h n e with
             | None => Ok ([], 204%Z)
             | Some e' => Err e'
             end)
        | None => (tr, Err e)
        end
      end
    end
  end.

Definition invalid_signature : pystr * Z := (lit "Invalid signature", 401%Z).

(** The signature check, run when a secret is configured: [Some r] is the
    early return [r]; [None] falls through. *)
Definition signature_check (key : bytes) (raw : bytes) (hdr : option pystr)
  : result (option (pystr * Z)) :=
  if negb (hdr_truthy hdr) then Ok (Some invalid_signature) else
  let split_header := py_split "," (match hdr with Some h => h | None => [] end) in
  if (List.length split_header <? 2)%nat then Ok (Some invalid_signature) else
  p0 <- py_index split_header 0 ;;
  t <- py_index (py_split "=" p0) 1 ;;
  let digest := hmac_sha256 L key (encode t ++ [Byte.x2e] ++ raw) in
  p1 <- py_index split_header 1 ;;
  provided <- py_index (py_split1 "=" p1) 1 ;;
  if str_eqb (b64encode digest) provided then Ok None
  else Ok (Some invalid_signature).

(** The replay-window check, run when a header is present; [now] is the
    double [time.time()] returns.  [time.time() - int(..)] converts the
    [int] to a double, which may raise [OverflowError], and rounds the
    difference; [0 < d > 600] is [0 < d and d > 600]. *)
Definition replay_check (hdr : option pystr) (now : Q) : result (option (pystr * Z)) :=
  if hdr_truthy hdr then
    let split_header := py_split "," (match hdr with Some h => h | None => [] end) in
    p0 <- py_index split_header 0 ;;
    f <- py_index (py_split "=" p0) 1 ;;
    t <- py_int f ;;
    ft <- float_of_int t ;;
    let d := float_sub now ft in
    if float_gt d 0 && float_gt d 600 then Ok (Some invalid_signature) else Ok None
  else Ok None.

(** The [if validate_signature:] block. *)
Definition verify (w : Webhook) (raw : bytes) (hdr : option pystr)
  (validate_signature : bool) (now : Q) : result (option (pystr * Z)) :=
  if validate_signature then
    r <- (if bytes_truthy (secret w) then
            signature_check (match secret w with Some k => k | None => [] end) raw hdr
          else Ok None) ;;
    match r with
    | Some rej => Ok (Some rej)
    | None => replay_check hdr now
    end
  else Ok None.

(** [Webhook.process_notification(body, secret_header, validate_signature)]
    at clock reading [now]. *)
Definition process_notification (w : Webhook) (raw : bytes) (hdr : option pystr)
  (validate_signature : bool) (now : Q) : list call * result (pystr * Z) :=
  match verify w raw hdr validate_signature now with
  | Err e => ([], Err e)
  | Ok (Some r) => ([], Ok r)
  | Ok None => dispatch w raw
  end.


End Webhook_code.
End WebhookModel.

(* ------------------------------------------------------------------ *)
(** ** [oauth2.py] *)

Module OAuth2Model.

(** The outcome of [jwt.decode(token, cert, algorithms=['ES256'],
    audience=aud)]. *)
Inductive jwt_outcome : Type :=
| JwtClaims (claims : json)
| JwtPyJWTError
| JwtAttributeError.

(** The exceptions [datetime.datetime.fromtimestamp] raises for a time it
    cannot represent. *)
Inductive ts_error : Type :=
| TsValueError
| TsOverflowError
| TsOSError.

Definition ts_exn (e : ts_error) : exn :=
  match e with
  | TsValueError => ValueError
  | TsOverflowError => OverflowError
  | TsOSError => OSError
  end.

(** The library functions the module calls; [Key] is the type of the
    public keys [load_der_public_key] returns. *)
Record oauth_lib (Key : Type) : Type := {
  (** [hashlib.sha256(b).digest()] *)
  sha256 : bytes -> bytes;
  (** [load_der_public_key(EllipticCurvePublicNumbers(x, y, SECP256R1())...)]
      of one entry of the certs document; it may raise. *)
  load_cert : json -> result Key;
  (** [jwt.decode(token, key, algorithms=['ES256'], audience=aud)] *)
  jwt_decode : json -> Key -> pystr -> jwt_outcome;
  (** [datetime.datetime.fromtimestamp(n)], as seconds since
      0001-01-01T00:00 local time, or the exception it raises for a time
      outside the platform's range or past year 9999. *)
  fromtimestamp_of : Z -> Q + ts_error;
  (** [str(v)] of a list or dictionary. *)
  str_container : json -> pystr }.
Arguments sha256 {Key}. Arguments load_cert {Key}. Arguments jwt_decode {Key}.
Arguments fromtimestamp_of {Key}. Arguments str_container {Key}.

(** [datetime.datetime.fromtimestamp(n)] *)
Definition fromtimestamp {Key} (L : oauth_lib Key) (n : Z) : result Q :=
  match fromtimestamp_of L n with
  | inl dt => Ok dt
  | inr e => Err (ts_exn e)
  end.

(** A response of [request_session]: status code and the document
    [response.json()] decodes ([None] when the body is not JSON). *)
Record Response : Type := mkResponse {
  status_code : Z;
  body_json : option json }.

(** [response.ok]: [raise_for_status] raises for 400 <= status < 600. *)
Definition ok (r : Response) : bool :=
  negb ((400 <=? status_code r) && (status_code r <? 600))%Z.

(** [response.json()] *)
Definition response_json (r : Response) : result json :=
  match body_json r with Some j => Ok j | None => Err JSONDecodeError end.

(** [datetime.datetime.max] as seconds since 0001-01-01T00:00. *)
Definition datetime_bound : Q := inject_Z (3652059 * 86400).

(** [dt + datetime.timedelta(v)]: the first argument of [timedelta] is a
    number of days; out of the datetime range it raises [OverflowError]. *)
Definition add_timedelta (dt : Q) (v : json) : result Q :=
  n <- (match v with
        | JNum z => Ok z
        | JBool b => Ok (if b then 1%Z else 0%Z)
        | _ => Err TypeError
        end) ;;
  let r := (dt + inject_Z (n * 86400))%Q in
  if Qle_bool 0 r && Qltb r datetime_bound then Ok r else Err OverflowError.

(** A Python [int] argument: [bool] is an [int] subclass. *)
Definition as_py_int (v : json) : result Z :=
  match v with
  | JNum z => Ok z
  | JBool b => Ok (if b then 1%Z else 0%Z)
  | _ => Err TypeError
  end.

(** [s.split(" ")] of a value that must be a [str]. *)
Definition split_space (v : json) : result (list pystr) :=
  match v with
  | JStr s => Ok (py_split " " s)
  | _ => Err AttributeError
  end.

(** [a or b] of two [d.get(..)] results, Python [None] being [JNull]. *)
Definition or_get (a b : option json) : json :=
  if opt_truthy a then match a with Some v => v | None => JNull end
  else match b with Some v => v | None => JNull end.

Definition get_or_none (o : option json) : json :=
  match o with Some v => v | None => JNull end.

Definition json_is_str (v : json) (s : pystr) : bool :=
  match v with JStr t => str_eqb t s | _ => false end.

Section OAuth2_code.
Variable Key : Type.
Variable L : oauth_lib Key.

(** [f"{v}"] *)
Definition py_format (v : json) : pystr :=
  match v with
  | JStr s => s
  | JNum z => py_str_int z
  | JNull => lit "None"
  | JBool true => lit "True"
  | JBool false => lit "False"
  | _ => str_container L v
  end.

Record OAuth2App : Type := mkOAuth2App {
  id : Z;
  redirect_uri : pystr;
  secret : pystr;
  openid_certs_cache_seconds : Z;
  openid_certs_cache : option (list Key);
  openid_certs_cache_updated : option Q }.

(** [OAuth2App.__init__] *)
Definition OAuth2App_new (i : Z) (s : pystr) (r : pystr) (ttl : Z) : OAuth2App :=
  mkOAuth2App i r s ttl None None.

Definition set_cache (app : OAuth2App) (c : option (list Key)) (u : option Q) : OAuth2App :=
  mkOAuth2App (id app) (redirect_uri app) (secret app)
    (openid_certs_cache_seconds app) c u.

Record AccessToken : Type := mkAccessToken {
  token : json;
  refresh_token_of : json;
  scope : list pystr;
  expires_at : Q;
  user : option User }.

(** The user built from a claims dictionary: the [if id_token:] block of
    [AccessToken.__init__] and the end of [fetch_userinfo] are the same code. *)
Definition user_from_claims (tok : json) (idt : json) : result User :=
  gid <- py_get idt (lit "id") ;;
  gsub <- py_get idt (lit "sub") ;;
  un <- py_get idt (lit "preferred_username") ;;
  nick <- py_get idt (lit "nickname") ;;
  pic <- py_get idt (lit "picture") ;;
  ca <- py_get idt (lit "created_at") ;;
  created <- (if opt_truthy ca then
                v <- py_getitem idt (lit "created_at") ;;
                n <- as_py_int v ;; dt <- fromtimestamp L n ;; Ok (Some dt)
              else Ok None) ;;
  Ok (mkUser (or_get gid gsub) (Some (lit "Bearer " ++ py_format tok))
        (Some (get_or_none un)) (Some (get_or_none nick)) (Some (get_or_none pic))
        created).

(** [AccessToken.__init__(app, payload, id_token)] at [datetime.now()]
    equal to [dtnow]. *)
Definition AccessToken_init (payload : json) (id_token : option json) (dtnow : Q)
  : result AccessToken :=
  tok <- py_getitem payload (lit "access_token") ;;
  rt <- py_getitem payload (lit "refresh_token") ;;
  sc <- py_getitem payload (lit "scope") ;;
  scl <- split_space sc ;;
  ei <- py_getitem payload (lit "expires_in") ;;
  exp <- add_timedelta dtnow ei ;;
  u <- (if opt_truthy id_token then
          v <- user_from_claims tok (get_or_none id_token) ;; Ok (Some v)
        else Ok None) ;;
  Ok (mkAccessToken tok rt scl exp u).

(** The key-loading loop: [self.__openid_certs_cache.append(...)] for each
    entry; on an exception the keys already appended stay in the cache. *)
Fixpoint load_certs (acc : list Key) (cs : list json) : list Key * option exn :=
  match cs with
  | [] => (acc, None)
  | c :: r =>
      match load_cert L c with
      | Ok k => load_certs (acc ++ [k]) r
      | Err e => (acc, Some e)
      end
  end.

(** The [for cert in self.__openid_certs_cache] loop: the first key that
    decodes the token wins. *)
Fixpoint decode_id_token (tok : json) (aud : pystr) (ks : list Key) : result (option json) :=
  match ks with
  | [] => Ok None
  | k :: r =>
      match jwt_decode L tok k aud with
      | JwtClaims c => Ok (Some c)
      | JwtAttributeError =>
          Err (rblx_opencloudException
                 (JStr (lit "jwt conflicts with PyJWT. Please uninstall jwt to fix this issue.")))
      | JwtPyJWTError => decode_id_token tok aud r
      end
  end.

Definition cache_truthy (c : option (list Key)) : bool :=
  match c with Some (_ :: _) => true | _ => false end.

(** [not self.__openid_certs_cache or time.time() - updated > ttl]. *)
Definition needs_fetch (app : OAuth2App) (now : Q) : result bool :=
  if negb (cache_truthy (openid_certs_cache app)) then Ok true
  else match openid_certs_cache_updated app with
       | Some u => Ok (Qltb (inject_Z (openid_certs_cache_seconds app)) (now - u))
       | None => Err TypeError
       end.

(** The certs refresh: [certs] is what the GET of the certs endpoint
    returns.  Result: the new state and the outcome of the step. *)
Definition refresh_certs (app : OAuth2App) (certs : Response) (now : Q)
  : OAuth2App * option exn :=
  if negb (ok certs) then
    (app, Some (ServiceUnavailable (JStr (lit "Failed to retrieve OpenID certs."))))
  else
    let app0 := set_cache app (Some []) (openid_certs_cache_updated app) in
    match (cj <- response_json certs ;; ks <- py_getitem cj (lit "keys") ;; py_iter ks) with
    | Err e => (app0, Some e)
    | Ok cs =>
        match load_certs [] cs with
        | (acc, Some e) => (set_cache app (Some acc) (openid_certs_cache_updated app), Some e)
        | (acc, None) => (set_cache app (Some acc) (Some now), None)
        end
    end.

(** The [if response.json().get("id_token"):] block of [exchange_code]:
    the new state, the number of certs fetches made, and the decoded
    claims ([None] when no key verifies the token). *)
Definition id_token_block (app : OAuth2App) (j : json) (certs : Response) (now : Q)
  : OAuth2App * nat * result (option json) :=
  match needs_fetch app now with
  | Err e => (app, 0%nat, Err e)
  | Ok fetch =>
    let '(app1, nf, oe) :=
      if fetch then let '(a, oe) := refresh_certs app certs now in (a, 1%nat, oe)
      else (app, 0%nat, None) in
    match oe with
    | Some e => (app1, nf, Err e)
    | None =>
        (app1, nf,
         tok <- py_getitem j (lit "id_token") ;;
         decode_id_token tok (py_str_int (id app1))
           (match openid_certs_cache app1 with Some ks => ks | None => [] end))
    end
  end.

(** The status dispatch ending [exchange_code]. *)
Definition exchange_status (resp : Response) (id_token : option json) (dtnow : Q)
  : result AccessToken :=
  if ok resp then j <- response_json resp ;; AccessToken_init j id_token dtnow
  else if (status_code resp =? 400)%Z then
    j <- response_json resp ;;
    m <- py_get_default j (lit "error_description")
           (JStr (lit "The client id, client secret, or redirect uri is invalid.")) ;;
    Err (InvalidKey m)
  else if (status_code resp =? 401)%Z then
    j <- response_json resp ;;
    m <- py_get_default j (lit "error_description")
           (JStr (lit "The code is invalid, or has been used.")) ;;
    Err (InvalidCode m)
  else if (500 <=? status_code resp)%Z then
    Err (ServiceUnavailable (JStr (lit "The service is unavailable or has encountered an error.")))
  else Err (rblx_opencloudException (JStr (lit "Unexpected HTTP " ++ py_str_int (status_code resp)))).

(** [OAuth2App.exchange_code(code, code_verifier)]: [resp] is the token
    endpoint's response to the POST, [certs] what the certs endpoint would
    return, [now] the [time.time()] readings, [dtnow] [datetime.now()].
    Result: the new state, the number of certs fetches, the outcome. *)
Definition exchange_code (app : OAuth2App) (code : pystr) (code_verifier : option pystr)
  (resp : Response) (certs : Response) (now dtnow : Q)
  : OAuth2App * nat * result AccessToken :=
  match (j <- response_json resp ;; g <- py_get j (lit "id_token") ;; Ok (j, g)) with
  | Err e => (app, 0%nat, Err e)
  | Ok (j, g) =>
    let '(app1, nf, rid) :=
      if opt_truthy g then id_token_block app j certs now else (app, 0%nat, Ok None) in
    match rid with
    | Err e => (app1, nf, Err e)
    | Ok id_token => (app1, nf, exchange_status resp id_token dtnow)
    end
  end.

(** [OAuth2App.refresh_token(refresh_token)] *)
Definition refresh_token (app : OAuth2App) (rt : pystr) (resp : Response) (dtnow : Q)
  : result AccessToken :=
  if ok resp then j <- response_json resp ;; AccessToken_init j None dtnow
  else if (status_code resp =? 400)%Z then
    j <- response_json resp ;;
    m <- py_get_default j (lit "error_description")
           (JStr (lit "The code, client id, client secret, or redirect uri is invalid.")) ;;
    Err (InvalidKey m)
  else if (500 <=? status_code resp)%Z then
    Err (ServiceUnavailable (JStr (lit "The service is unavailable or has encountered an error.")))
  else Err (rblx_opencloudException (JStr (lit "Unexpected HTTP " ++ py_str_int (status_code resp)))).

(** [OAuth2App.revoke_token(token)] *)
Definition revoke_token (app : OAuth2App) (t : pystr) (resp : Response) : result unit :=
  if ok resp then Ok tt
  else if (status_code resp =? 400)%Z then
    Err (InvalidKey (JStr (lit "The code, client id, client secret, or redirect uri is invalid.")))
  else if (500 <=? status_code resp)%Z then
    Err (ServiceUnavailable (JStr (lit "The service is unavailable or has encountered an error.")))
  else Err (rblx_opencloudException (JStr (lit "Unexpected HTTP " ++ py_str_int (status_code resp)))).

(** The [scope] argument of [generate_uri]: a list of strings, or any
    other value passed through unchanged. *)
Inductive scope_arg : Type :=
| ScopeList (l : list pystr)
| ScopeValue (v : pyval).

Definition str_truthy (o : option pystr) : bool :=
  match o with Some (_ :: _) => true | _ => false end.

(** The PKCE challenge:
    [base64.urlsafe_b64encode(hashlib.sha256(v.encode()).digest()).replace(b"=", b"").decode()]. *)
Definition code_challenge (v : pystr) : pystr :=
  filter (fun c => negb (ascii_eqb c "=")) (urlsafe_b64encode (sha256 L (encode v))).

(** The [params] dictionary of [generate_uri], in insertion order. *)
Definition generate_uri_params (app : OAuth2App) (sc : scope_arg) (state : option pystr)
  (generate_code : bool) (code_verifier : option pystr) : list (pystr * pyval) :=
  [(lit "client_id", PInt (id app));
   (lit "scope", match sc with ScopeList l => PStr (join (lit " ") l) | ScopeValue v => v end);
   (lit "state", match state with Some s => PStr s | None => PNone end);
   (lit "redirect_uri", PStr (redirect_uri app));
   (lit "response_type", PStr (if generate_code then lit "code" else lit "none"));
   (lit "code_challenge",
     if str_truthy code_verifier
     then PStr (code_challenge (match code_verifier with Some v => v | None => [] end))
     else PNone);
   (lit "code_challenge_method", if str_truthy code_verifier then PStr (lit "S256") else PNone)].

Definition is_none (v : pyval) : bool := match v with PNone => true | _ => false end.

(** [{key: value for key, value in params.items() if value is not None}] *)
Definition present_params (ps : list (pystr * pyval)) : list (pystr * pyval) :=
  filter (fun kv => negb (is_none (snd kv))) ps.

Definition authorize_endpoint : pystr := lit "https://apis.roblox.com/oauth/v1/authorize?".

(** [OAuth2App.generate_uri(scope, state, generate_code, code_verifier)] *)
Definition generate_uri (app : OAuth2App) (sc : scope_arg) (state : option pystr)
  (generate_code : bool) (code_verifier : option pystr) : pystr :=
  authorize_endpoint
  ++ urlencode (present_params (generate_uri_params app sc state generate_code code_verifier)).

(** Modelled from the spec: [send_request] of the package [__init__]
    (not in src/), the transport collaborator
    [send_request(method, path, ...) -> (status_code, parsed_body, headers)];
    [server] is the status and parsed body the endpoint answers with. *)
Definition send_request (server : Z * json) (expected_status : list Z) : result (Z * json) :=
  Ok server.

(** The shared [if status == 401:] block of the [PartialAccessToken]
    fetches, which always raises; [prefix] and [suffix] frame the scope in
    the message. *)
Definition unauthorized (data : json) (prefix suffix : pystr) : exn :=
  match py_getitem data (lit "error") with
  | Err e => e
  | Ok err =>
      if json_is_str err (lit "insufficient_scope") then
        match py_getitem data (lit "scope") with
        | Err e => e
        | Ok sc => InsufficientScope sc (JStr (prefix ++ py_format sc ++ suffix))
        end
      else InvalidKey (JStr (lit "The key has expired, been revoked or is invalid"))
  end.

(** [PartialAccessToken(app, token).fetch_userinfo()]; [server] is the
    userinfo endpoint's answer. *)
Definition fetch_userinfo (tok : json) (server : Z * json) : result User :=
  sd <- send_request server [200%Z; 401%Z] ;;
  let '(status, data) := sd in
  if (status =? 401)%Z then Err (unauthorized data (lit "Access token missing required scope:'") (lit "'"))
  else user_from_claims tok data.

Record Resources : Type := mkResources {
  experiences : list Experience;
  accounts : list Owner }.

(** The owner of each experience of a [universe] grant. *)
Definition experience_of (owner : json) (k : option pystr) (eid : json) : result Experience :=
  t <- py_getitem owner (lit "type") ;;
  if json_is_str t (lit "User") then
    oid <- py_getitem owner (lit "id") ;;
    Ok (mkExperience eid k (Some (OwnerUser (User_new oid k))))
  else if json_is_str t (lit "Group") then
    oid <- py_getitem owner (lit "id") ;;
    Ok (mkExperience eid k (Some (OwnerGroup (mkGroup oid k))))
  else Ok (Experience_new eid k).

(** One [creator] id: ["U"] is the owner, ["U<id>"] a user, ["G<id>"] a
    group, anything else is skipped. *)
Definition account_of (owner : json) (k : option pystr) (cid : json) : result (option Owner) :=
  if json_is_str cid (lit "U") then
    oid <- py_getitem owner (lit "id") ;; Ok (Some (OwnerUser (User_new oid k)))
  else match cid with
       | JStr (c :: r) =>
           if ascii_eqb c "U" then Ok (Some (OwnerUser (User_new (JStr r) k)))
           else if ascii_eqb c "G" then Ok (Some (OwnerGroup (mkGroup (JStr r) k)))
           else Ok None
       | JStr [] => Ok None
       | _ => Err AttributeError
       end.

Fixpoint somes {A} (l : list (option A)) : list A :=
  match l with
  | [] => []
  | Some a :: r => a :: somes r
  | None :: r => somes r
  end.

(** The body of [for resource in data["resource_infos"]]. *)
Definition resource_entries (k : option pystr) (resource : json)
  : result (list Experience * list Owner) :=
  owner <- py_getitem resource (lit "owner") ;;
  res <- py_getitem resource (lit "resources") ;;
  u <- py_get res (lit "universe") ;;
  exps <- (if opt_truthy u then
             uni <- py_getitem res (lit "universe") ;;
             ids <- py_getitem uni (lit "ids") ;;
             idl <- py_iter ids ;;
             map_result (experience_of owner k) idl
           else Ok []) ;;
  c <- py_get res (lit "creator") ;;
  accs <- (if opt_truthy c then
             cre <- py_getitem res (lit "creator") ;;
             ids <- py_getitem cre (lit "ids") ;;
             idl <- py_iter ids ;;
             l <- map_result (account_of owner k) idl ;; Ok (somes l)
           else Ok []) ;;
  Ok (exps, accs).

(** [PartialAccessToken(app, token).fetch_resources()] *)
Definition fetch_resources (tok : json) (server : Z * json) : result Resources :=
  sd <- send_request server [200%Z; 401%Z] ;;
  let '(status, data) := sd in
  if (status =? 401)%Z then
    Err (unauthorized data (lit "Access token missing required scope: '") (lit "'"))
  else
    infos <- py_getitem data (lit "resource_infos") ;;
    items <- py_iter infos ;;
    per <- map_result (resource_entries (Some (lit "Bearer " ++ py_format tok))) items ;;
    Ok (mkResources (flat_map fst per) (flat_map snd per)).

Record AccessTokenInfo : Type := mkAccessTokenInfo {
  active : json;
  info_id : json;
  client_id : Z;
  info_user_id : json;
  info_scope : list pystr;
  info_expires_at : Q;
  issued_at : Q }.

(** [int(v)] of a JSON value. *)
Definition int_of_json (v : json) : result Z :=
  match v with
  | JStr s => py_int s
  | _ => as_py_int v
  end.

(** [AccessTokenInfo.__init__] *)
Definition AccessTokenInfo_init (data : json) : result AccessTokenInfo :=
  a <- py_getitem data (lit "active") ;;
  jti <- py_getitem data (lit "jti") ;;
  cid <- py_getitem data (lit "client_id") ;;
  cidn <- int_of_json cid ;;
  sub <- py_getitem data (lit "sub") ;;
  sc <- py_getitem data (lit "scope") ;;
  scl <- split_space sc ;;
  e <- py_getitem data (lit "exp") ;;
  en <- as_py_int e ;;
  de <- fromtimestamp L en ;;
  i <- py_getitem data (lit "iat") ;;
  iN <- as_py_int i ;;
  di <- fromtimestamp L iN ;;
  Ok (mkAccessTokenInfo a jti cidn sub scl de di).

(** [PartialAccessToken(app, token).fetch_token_info()] *)
Definition fetch_token_info (tok : json) (server : Z * json) : result AccessTokenInfo :=
  sd <- send_request server [200%Z; 401%Z] ;;
  let '(status, data) := sd in
  if (status =? 401)%Z then
    Err (unauthorized data (lit "Access token missing required scope: '") [])
  else AccessTokenInfo_init data.

End OAuth2_code.
End OAuth2Model.

(* ------------------------------------------------------------------ *)
(** ** Concrete inputs *)

Module Samples.
Import WebhookModel.

Definition dq : ascii := ascii_of_nat 34.

(** JSON text of a document (compact form, as a sender writes it). *)
Fixpoint json_text (v : json) : pystr :=
  match v with
  | JNull => lit "null"
  | JBool b => if b then lit "true" else lit "false"
  | JNum z => py_str_int z
  | JStr s => dq :: s ++ [dq]
  | JArr l => "["%char :: join (lit ",") (map json_text l) ++ lit "]"
  | JObj fs =>
      "{"%char :: join (lit ",")
        (map (fun kv => dq :: fst kv ++ dq :: ":"%char :: json_text (snd kv)) fs) ++ lit "}"
  end.

(** A test notification as the platform sends it. *)
Definition sample_doc (event_type : pystr) : json :=
  JObj [(lit "NotificationId", JStr (lit "5a9c2e1f"));
        (lit "EventType", JStr event_type);
        (lit "EventPayload", JObj [(lit "UserId", JNum 42)]);
        (lit "EventTime", JStr (lit "2023-08-24T16:17:07.285512900Z"))].

Definition sample_raw (event_type : pystr) : bytes := encode (json_text (sample_doc event_type)).

Definition sample_datetime : Q := inject_Z 63827993827.

(** Library functions that behave as the real ones on the sample
    notifications: [json.loads] parses their text, [fromisoformat] parses
    the sample time; the hash stands in for HMAC-SHA256. *)
Definition sample_lib : webhook_lib := {|
  json_loads := fun b =>
    if str_eqb (decode_ascii b) (json_text (sample_doc (lit "SampleNotification")))
    then Some (sample_doc (lit "SampleNotification"))
    else if str_eqb (decode_ascii b) (json_text (sample_doc (lit "NoSuchEvent")))
    then Some (sample_doc (lit "NoSuchEvent"))
    else None;
  hmac_sha256 := fun k m => firstn 32 (k ++ m);
  fromisoformat := fun s =>
    if str_eqb s (lit "2023-08-24T16:17:07.285512") then Some sample_datetime else None |}.

Definition sample_secret : bytes := encode (lit "whsec_test").

(** An [on_test] handler that returns normally. *)
Definition on_test_ok : Callable :=
  mkCallable (lit "on_test") (fun _ => None) (fun _ _ => None).

(** An [on_error] handler that returns normally. *)
Definition on_error_ok : Callable :=
  mkCallable (lit "on_error") (fun _ => None) (fun _ _ => None).

Definition sample_webhook (evs : list (pystr * Callable)) (err : option Callable) : Webhook :=
  mkWebhook (Some sample_secret) None evs err.

End Samples.

Module OAuthSamples.
Import OAuth2Model.

(** Keys are numbered; the library stand-ins load every dictionary entry
    of the certs document, accept every token with the second key,
    convert times from 0 up to the end of year 9999 (UTC) and format
    containers as [[...]]. *)
Definition sample_lib : oauth_lib nat := {|
  sha256 := fun b => firstn 32 (b ++ repeat Byte.x00 32);
  load_cert := fun c => match c with JObj _ => Ok 1%nat | _ => Err (KeyError (JStr (lit "x"))) end;
  jwt_decode := fun _ k _ =>
    if Nat.eqb k 1 then JwtClaims (JObj [(lit "sub", JNum 7)]) else JwtPyJWTError;
  fromtimestamp_of := fun z =>
    if (0 <=? z)%Z && (z <? 253402300800)%Z then inl (inject_Z z) else inr TsValueError;
  str_container := fun _ => lit "[...]" |}.

Definition sample_app : OAuth2App nat := OAuth2App_new nat 1234 (lit "s3cr3t") (lit "https://example.com/cb") 3600.

(** A token endpoint answer with [status] and the usual payload. *)
Definition token_response (status : Z) (with_id_token : bool) : Response :=
  mkResponse status (Some (JObj
    ([(lit "access_token", JStr (lit "at")); (lit "refresh_token", JStr (lit "rt"));
      (lit "scope", JStr (lit "openid profile")); (lit "expires_in", JNum 900)]
     ++ if with_id_token then [(lit "id_token", JStr (lit "eyJ"))] else []))).

(** An error answer of the token or introspection endpoints. *)
Definition error_response (status : Z) (err : pystr) : Response :=
  mkResponse status (Some (JObj [(lit "error", JStr err); (lit "scope", JStr (lit "openid"))])).

Definition certs_response (keys : list json) : Response :=
  mkResponse 200 (Some (JObj [(lit "keys", JArr keys)])).

Definition sample_cert : json := JObj [(lit "x", JStr (lit "AQ")); (lit "y", JStr (lit "AQ"))].

End OAuthSamples.

(* ------------------------------------------------------------------ *)
(** ** [__repr__] methods and [generate_code_verifier] *)

Module MoreModel.
Import WebhookModel OAuth2Model.

Definition dq : ascii := ascii_of_nat 34.

Section Notification_repr.
(** [f"{v}"] of a JSON value, and [str(u)] of a [User] ([user.py]). *)
Variable format : json -> pystr.
Variable str_user : User -> pystr.

(** [Notification.__repr__] and the overrides of its subclasses: the one of
    [RightToErasureRequestNotification] reads [self.user], an attribute
    that class never sets. *)
Definition Notification_repr (n : Notification) : result pystr :=
  match kind n with
  | Generic =>
      Ok (lit "Notification(notification_id=" ++ dq :: format (notification_id n)
          ++ [dq; ")"%char])
  | Test u =>
      Ok (lit "TestNotification(notification_id=" ++ dq :: format (notification_id n)
          ++ dq :: lit ", user=" ++ str_user u ++ lit ")")
  | RightToErasureRequest _ _ => Err AttributeError
  end.
End Notification_repr.

Section Token_repr.
(** [f"{v}"] of a JSON value, [v[:15]] of a token that is not a [str],
    and [str(u)] of a [User]. *)
Variable format : json -> pystr.
Variable slice_other : json -> result json.
Variable str_user : User -> pystr.

(** [f"{self.token[:15]}"] *)
Definition token_slice (t : json) : result pystr :=
  match t with
  | JStr s => Ok (firstn 15 s)
  | v => x <- slice_other v ;; Ok (format x)
  end.

(** [PartialAccessToken.__repr__]: the backslash continuation keeps the
    indentation of the next source line. *)
Definition PartialAccessToken_repr (t : json) : result pystr :=
  s <- token_slice t ;;
  Ok (lit "<rblxopencloud.PartialAccessToken     token=" ++ dq :: s ++ lit "..." ++ [dq; ">"%char]).

(** [AccessToken.__repr__] *)
Definition AccessToken_repr (a : AccessToken) : result pystr :=
  s <- token_slice (token a) ;;
  Ok (lit "<rblxopencloud.AccessToken token=" ++ dq :: s ++ lit "..." ++ dq :: lit " user="
      ++ match user a with Some u => str_user u | None => lit "None" end ++ lit ")").
End Token_repr.

(** [f"{string.ascii_letters}{string.digits}-._~"] *)
Definition verifier_chars : pystr :=
  lit "abcdefghijklmnopqrstuvwxyzABCDEFGHIJKLMNOPQRSTUVWXYZ0123456789-._~".

(** [OAuth2App.generate_code_verifier(length)]: [draw i] is the number the
    [i]-th [secrets.choice] draws, [secrets.randbelow(len(seq))] being it
    reduced below the length of the alphabet; [range(None)] raises
    [TypeError] and [range(n)] is empty for [n <= 0]. *)
Definition generate_code_verifier (draw : nat -> nat) (length : option Z) : result pystr :=
  match length with
  | None => Err TypeError
  | Some n =>
      Ok (map (fun i => nth (draw i mod List.length verifier_chars) verifier_chars "a"%char)
              (seq 0 (Z.to_nat n)))
  end.

(** The api key an owner reference ([User] or [Group]) carries is [k]. *)
Definition owner_keyed (k : option pystr) (o : Owner) : Prop :=
  match o with OwnerUser u => user_api_key u = k | OwnerGroup g => group_api_key g = k end.

End MoreModel.

(* ------------------------------------------------------------------ *)
(** ** Further concrete inputs *)

Module MoreSamples.
Import WebhookModel.

Definition erasure_payload : json :=
  JObj [(lit "UserId", JNum 42); (lit "GameIds", JArr [JNum 111; JNum 222])].

(** A right-to-erasure notification as the platform sends it. *)
Definition erasure_doc : json :=
  JObj [(lit "NotificationId", JStr (lit "5a9c2e1f"));
        (lit "EventType", JStr (lit "RightToErasureRequest"));
        (lit "EventPayload", erasure_payload);
        (lit "EventTime", JStr (lit "2023-08-24T16:17:07.285512900Z"))].

Definition erasure_raw : bytes := encode (Samples.json_text erasure_doc).

(** The same notification without [GameIds]. *)
Definition erasure_doc_nogames : json :=
  JObj [(lit "NotificationId", JStr (lit "5a9c2e1f"));
        (lit "EventType", JStr (lit "RightToErasureRequest"));
        (lit "EventPayload", JObj [(lit "UserId", JNum 42)]);
        (lit "EventTime", JStr (lit "2023-08-24T16:17:07.285512900Z"))].

Definition erasure_raw_nogames : bytes := encode (Samples.json_text erasure_doc_nogames).

(** [Samples.sample_lib], whose [json.loads] also parses the two
    documents above. *)
Definition erasure_lib : webhook_lib := {|
  json_loads := fun b =>
    if str_eqb (decode_ascii b) (Samples.json_text erasure_doc) then Some erasure_doc
    else if str_eqb (decode_ascii b) (Samples.json_text erasure_doc_nogames)
    then Some erasure_doc_nogames
    else json_loads Samples.sample_lib b;
  hmac_sha256 := hmac_sha256 Samples.sample_lib;
  fromisoformat := fromisoformat Samples.sample_lib |}.

(** An [on_right_to_erasure_request] handler that returns normally. *)
Definition on_erasure_ok : Callable :=
  mkCallable (lit "on_right_to_erasure_request") (fun _ => None) (fun _ _ => None).

End MoreSamples.

(* ================================================================== *)
(** * Lemmas about the Python primitives *)

Module PyFacts.

Lemma ascii_eqb_refl' c : ascii_eqb c c = true.
Proof. apply Ascii.eqb_refl. Qed.

Lemma ascii_eqb_true a b : ascii_eqb a b = true <-> a = b.
Proof. apply Ascii.eqb_eq. Qed.

Lemma str_eqb_eq s t : str_eqb s t = true <-> s = t.
Proof.
  revert t; induction s as [|a s IH]; intros [|b t]; simpl; try (split; congruence).
  rewrite andb_true_iff, ascii_eqb_true, IH; split.
  - intros [-> ->]; reflexivity.
  - intros H; injection H; auto.
Qed.

Lemma str_eqb_refl s : str_eqb s s = true.
Proof. apply str_eqb_eq; reflexivity. Qed.

Lemma str_eqb_neq s t : s <> t -> str_eqb s t = false.
Proof. intros H; destruct (str_eqb s t) eqn:E; [apply str_eqb_eq in E; contradiction | reflexivity]. Qed.

Lemma py_split_nosep sep a : nosep sep a = true -> py_split sep a = [a].
Proof.
  induction a as [|c a IH]; simpl; [reflexivity|].
  intros H; apply andb_true_iff in H as [H1 H2].
  rewrite (negb_true_iff _) in H1; rewrite H1, IH by exact H2; reflexivity.
Qed.

Lemma py_split_app sep a b :
  nosep sep a = true -> py_split sep (a ++ sep :: b) = a :: py_split sep b.
Proof.
  induction a as [|c a IH]; simpl; intros H.
  - rewrite ascii_eqb_refl'; reflexivity.
  - apply andb_true_iff in H as [H1 H2].
    rewrite (negb_true_iff _) in H1; rewrite H1, IH by exact H2; reflexivity.
Qed.

Lemma py_split1_app sep a b :
  nosep sep a = true -> py_split1 sep (a ++ sep :: b) = [a; b].
Proof.
  induction a as [|c a IH]; simpl; intros H.
  - rewrite ascii_eqb_refl'; reflexivity.
  - apply andb_true_iff in H as [H1 H2].
    rewrite (negb_true_iff _) in H1; rewrite H1, IH by exact H2; reflexivity.
Qed.

Lemma py_split_head sep s : exists rest, py_split sep s = take_until sep s :: rest.
Proof.
  induction s as [|c s [rest IH]]; simpl.
  - exists []; reflexivity.
  - destruct (ascii_eqb c sep).
    + eexists; reflexivity.
    + rewrite IH; eexists; reflexivity.
Qed.

Lemma take_until_cases sep s :
  take_until sep s = s \/ (List.length (take_until sep s) < List.length s)%nat.
Proof.
  induction s as [|c s IH]; simpl; [left; reflexivity|].
  destruct (ascii_eqb c sep); simpl; [right; lia|].
  destruct IH as [-> | H]; [left; reflexivity | right; lia].
Qed.

(** A same-length text different from [s] never has [s] as its prefix
    before a separator. *)
Lemma take_until_altered sep s s' :
  List.length s' = List.length s -> s' <> s -> take_until sep s' <> s.
Proof.
  intros Hl Hne Heq; destruct (take_until_cases sep s') as [H | H].
  - rewrite H in Heq; contradiction.
  - rewrite Heq in H; lia.
Qed.

Lemma forallb_Forall_In (f : ascii -> bool) (A s : pystr) :
  forallb f A = true -> Forall (fun c => In c A) s -> forallb f s = true.
Proof.
  intros HA Hs; apply forallb_forall; intros c Hc.
  rewrite Forall_forall in Hs; rewrite forallb_forall in HA; auto.
Qed.

Lemma nth_In_or_default (tbl : pystr) (i : nat) (d : ascii) :
  In (nth i tbl d) (d :: tbl).
Proof.
  destruct (Nat.lt_ge_cases i (List.length tbl)) as [H | H].
  - right; apply nth_In; exact H.
  - left; rewrite nth_overflow by exact H; reflexivity.
Qed.

Lemma b64_char_in tbl n : In (b64_char tbl n) ("A"%char :: tbl).
Proof. apply nth_In_or_default. Qed.

(** Every character base64 emits is from the alphabet, ['A'] or ['=']. *)
Lemma b64_encode_with_chars tbl bs :
  Forall (fun c => In c ("="%char :: "A"%char :: tbl)) (b64_encode_with tbl bs).
Proof.
  remember (List.length bs) as n eqn:Hn.
  revert bs Hn; induction n as [n IH] using (well_founded_induction lt_wf); intros bs Hn.
  assert (Hc : forall m, In (b64_char tbl m) ("="%char :: "A"%char :: tbl))
    by (intros m; right; apply b64_char_in).
  destruct bs as [|b0 [|b1 [|b2 r]]]; simpl.
  - constructor.
  - repeat apply Forall_cons; try apply Forall_nil; try apply Hc; left; reflexivity.
  - repeat apply Forall_cons; try apply Forall_nil; try apply Hc; left; reflexivity.
  - repeat apply Forall_cons; try apply Hc.
    eapply IH; [|reflexivity]. subst n; simpl; lia.
Qed.

Lemma uint_digits_digits u : forallb is_digit_char (uint_digits u) = true.
Proof. induction u; simpl; auto. Qed.

Lemma uint_of_uint_digits u : uint_of_digits (uint_digits u) = Some u.
Proof. induction u; simpl; rewrite ?IHu; reflexivity. Qed.

Lemma digit_not_space c : is_digit_char c = true -> is_py_space c = false.
Proof.
  intros H; unfold is_digit_char in H; simpl in H.
  repeat (apply orb_true_iff in H as [H | H]; [apply ascii_eqb_true in H; subst; reflexivity|]).
  discriminate.
Qed.

Lemma digit_not c d : is_digit_char c = true -> is_digit_char d = false -> ascii_eqb c d = false.
Proof.
  intros Hc Hd; destruct (ascii_eqb c d) eqn:E; [|reflexivity].
  apply ascii_eqb_true in E; subst; congruence.
Qed.

Lemma lstrip_no_space s : no_space s = true -> lstrip_space s = s.
Proof.
  destruct s as [|c s]; simpl; [reflexivity|].
  intros H; apply andb_true_iff in H as [H _]; apply negb_true_iff in H; rewrite H; reflexivity.
Qed.

Lemma forallb_rev (f : ascii -> bool) s : forallb f (rev s) = forallb f s.
Proof.
  induction s as [|c s IH]; simpl; [reflexivity|].
  rewrite forallb_app, IH; simpl; rewrite andb_true_r, andb_comm; reflexivity.
Qed.

Lemma strip_no_space s : no_space s = true -> strip_space s = s.
Proof.
  intros H; unfold strip_space; rewrite (lstrip_no_space s H).
  rewrite lstrip_no_space by (unfold no_space; rewrite forallb_rev; exact H).
  apply rev_involutive.
Qed.

Lemma digits_no_space s : forallb is_digit_char s = true -> no_space s = true.
Proof.
  induction s as [|c s IH]; simpl; [reflexivity|].
  intros H; apply andb_true_iff in H as [H1 H2].
  rewrite digit_not_space by exact H1; simpl; auto.
Qed.

Lemma underscores_ok_digits s : forallb is_digit_char s = true -> underscores_ok false s = true.
Proof.
  induction s as [|c s IH]; simpl; [reflexivity|].
  intros H; apply andb_true_iff in H as [H1 H2].
  rewrite digit_not by (exact H1 || reflexivity); auto.
Qed.

Lemma filter_us_digits s :
  forallb is_digit_char s = true -> filter (fun c => negb (ascii_eqb c "_")) s = s.
Proof.
  induction s as [|c s IH]; simpl; [reflexivity|].
  intros H; apply andb_true_iff in H as [H1 H2].
  rewrite digit_not by (exact H1 || reflexivity); simpl; rewrite IH by exact H2; reflexivity.
Qed.

Lemma N_digits_nonempty n : uint_digits (N.to_uint n) <> [].
Proof.
  intros H; destruct (N.to_uint n) eqn:E; try discriminate.
  assert (n = 0%N) by (rewrite <- (DecimalN.Unsigned.of_to n), E; reflexivity).
  subst; discriminate.
Qed.

Lemma length_uint_digits u : List.length (uint_digits u) = Decimal.nb_digits u.
Proof. induction u; simpl; auto. Qed.

Lemma nb_double_le d :
  (Decimal.nb_digits (Decimal.Little.double d) <= S (Decimal.nb_digits d))%nat /\
  (Decimal.nb_digits (Decimal.Little.succ_double d) <= S (Decimal.nb_digits d))%nat.
Proof. induction d; simpl; lia. Qed.

Lemma nb_little_uint p : (Decimal.nb_digits (Pos.to_little_uint p) <= Pos.size_nat p)%nat.
Proof.
  induction p; simpl.
  - pose proof (proj2 (nb_double_le (Pos.to_little_uint p))); lia.
  - pose proof (proj1 (nb_double_le (Pos.to_little_uint p))); lia.
  - lia.
Qed.

Lemma size_nat_log2 p : Z.of_nat (Pos.size_nat p) = (Z.log2 (Zpos p) + 1)%Z.
Proof.
  induction p as [p IH|p IH|]; simpl Pos.size_nat.
  - rewrite Nat2Z.inj_succ, IH.
    change (Zpos p~1) with (2 * Zpos p + 1)%Z; rewrite Z.log2_succ_double by lia; lia.
  - rewrite Nat2Z.inj_succ, IH.
    change (Zpos p~0) with (2 * Zpos p)%Z; rewrite Z.log2_double by lia; lia.
  - reflexivity.
Qed.

(** A number below [2^k] has at most [k] decimal digits. *)
Lemma nb_N_to_uint n k :
  (1 <= k)%nat -> (Z.of_N n < 2 ^ Z.of_nat k)%Z -> (Decimal.nb_digits (N.to_uint n) <= k)%nat.
Proof.
  intros Hk; destruct n as [|p]; simpl; [lia|].
  intros H; unfold Pos.to_uint; rewrite DecimalFacts.nb_digits_rev.
  pose proof (nb_little_uint p).
  assert (Z.log2 (Zpos p) < Z.of_nat k)%Z by (apply Z.log2_lt_pow2; lia).
  pose proof (size_nat_log2 p); lia.
Qed.

Lemma N_digits_short n :
  (Z.of_N n < 2 ^ 4300)%Z -> (int_max_str_digits <? List.length (uint_digits (N.to_uint n)))%nat = false.
Proof.
  intros H; apply Nat.ltb_ge; rewrite length_uint_digits.
  apply nb_N_to_uint; [unfold int_max_str_digits; lia | exact H].
Qed.

Lemma py_int_magnitude_digits n :
  (Z.of_N n < 2 ^ 4300)%Z -> py_int_magnitude (uint_digits (N.to_uint n)) = Ok n.
Proof.
  intros Hn.
  pose proof (uint_digits_digits (N.to_uint n)) as Hd.
  pose proof (N_digits_nonempty n) as Hne.
  destruct (uint_digits (N.to_uint n)) as [|c r] eqn:E; [contradiction|].
  unfold py_int_magnitude.
  simpl in Hd; apply andb_true_iff in Hd as [Hc Hr].
  rewrite digit_not by (exact Hc || reflexivity).
  rewrite <- E, underscores_ok_digits, filter_us_digits, N_digits_short, uint_of_uint_digits
    by (exact Hn || (rewrite E; simpl; rewrite Hc, Hr; reflexivity)).
  rewrite DecimalN.Unsigned.of_to; reflexivity.
Qed.

(** [int(str(z)) == z] for [z] of at most 4300 digits. *)
Lemma py_int_str_int z : (Z.abs z < 2 ^ 4300)%Z -> py_int (py_str_int z) = Ok z.
Proof.
  intros Hz.
  unfold py_int, py_str_int; destruct z as [|p|p].
  - reflexivity.
  - pose proof (uint_digits_digits (N.to_uint (Z.to_N (Zpos p)))) as Hd.
    pose proof (py_int_magnitude_digits (Z.to_N (Zpos p)) Hz) as Hm.
    rewrite strip_no_space by (apply digits_no_space; exact Hd).
    destruct (uint_digits (N.to_uint (Z.to_N (Zpos p)))) as [|c r] eqn:E.
    + exfalso; apply (N_digits_nonempty _ E).
    + simpl in Hd; apply andb_true_iff in Hd as [Hc _].
      rewrite !digit_not by (exact Hc || reflexivity).
      rewrite Hm; reflexivity.
  - pose proof (uint_digits_digits (N.to_uint (Npos p))) as Hd.
    pose proof (py_int_magnitude_digits (Npos p) Hz) as Hm.
    rewrite strip_no_space
      by (unfold no_space; simpl; apply digits_no_space; exact Hd).
    simpl ascii_eqb; cbv iota; rewrite Hm; reflexivity.
Qed.
Lemma nosep_app sep a b : nosep sep (a ++ b) = nosep sep a && nosep sep b.
Proof. apply forallb_app. Qed.

Lemma digits_nosep sep s :
  is_digit_char sep = false -> forallb is_digit_char s = true -> nosep sep s = true.
Proof.
  intros Hs; induction s as [|c s IH]; simpl; [reflexivity|].
  intros H; apply andb_true_iff in H as [H1 H2].
  rewrite digit_not by assumption; simpl; auto.
Qed.

(** [str(z)] has no separator other than digits and ['-']. *)
Lemma py_str_int_nosep sep z :
  is_digit_char sep = false -> ascii_eqb "-" sep = false -> nosep sep (py_str_int z) = true.
Proof.
  intros H1 H2; destruct z as [|p|p]; unfold py_str_int.
  - apply digits_nosep; [exact H1 | apply uint_digits_digits].
  - apply digits_nosep; [exact H1 | apply uint_digits_digits].
  - unfold nosep; cbn [forallb]; rewrite H2; cbn [negb andb].
    apply digits_nosep; [exact H1 | apply uint_digits_digits].
Qed.

Lemma b64encode_nosep_comma bs : nosep "," (b64encode bs) = true.
Proof.
  apply (forallb_Forall_In _ ("="%char :: "A"%char :: b64_table)).
  - reflexivity.
  - apply b64_encode_with_chars.
Qed.
Lemma Qltb_false x y : (y <= x)%Q -> Qltb x y = false.
Proof. intros H; unfold Qltb; apply Qle_bool_iff in H; rewrite H; reflexivity. Qed.

Lemma Qltb_true x y : (x < y)%Q -> Qltb x y = true.
Proof.
  intros H; unfold Qltb; destruct (Qle_bool y x) eqn:E; [|reflexivity].
  apply Qle_bool_iff in E; exfalso; apply (Qlt_not_le _ _ H E).
Qed.

(** *** Doubles *)

Section FloatFacts.
Local Open Scope Q_scope.

Lemma pow2_pos e : 0 < pow2 e.
Proof. apply Qpower_0_lt; reflexivity. Qed.

Lemma pow2_plus a b : pow2 (a + b) == pow2 a * pow2 b.
Proof. apply Qpower_plus; discriminate. Qed.

Lemma pow2_le a b : (a <= b)%Z -> pow2 a <= pow2 b.
Proof. intros H; apply Qpower_le_compat_l; [exact H | discriminate]. Qed.

Lemma pow2_lt a b : (a < b)%Z -> pow2 a < pow2 b.
Proof. intros H; apply Qpower_lt_compat_l; [exact H | reflexivity]. Qed.

Lemma pow2_Z n : (0 <= n)%Z -> pow2 n == inject_Z (2 ^ n).
Proof. intros H; unfold pow2; rewrite Zpower_Qpower by exact H; reflexivity. Qed.

Lemma pow2_lt_inv a b : pow2 a < pow2 b -> (a < b)%Z.
Proof. intros H; apply (Qpower_lt_compat_l_inv (inject_Z 2)); [exact H | reflexivity]. Qed.

Lemma pow2_le_inv a b : pow2 a <= pow2 b -> (a <= b)%Z.
Proof. intros H; apply (Qpower_le_compat_l_inv (inject_Z 2)); [exact H | reflexivity]. Qed.

Lemma Q_num_den (a : Q) : a * inject_Z (Zpos (Qden a)) == inject_Z (Qnum a).
Proof. destruct a as [n d]; unfold Qeq; simpl; lia. Qed.

Lemma Zlog2_pow2 n : (0 < n)%Z ->
  pow2 (Z.log2 n) <= inject_Z n /\ inject_Z n < pow2 (Z.log2 n + 1).
Proof.
  intros Hn; destruct (Z.log2_spec n Hn) as [H1 H2].
  pose proof (Z.log2_nonneg n).
  rewrite !pow2_Z by lia; split; [rewrite <- Zle_Qle | rewrite <- Zlt_Qlt]; lia.
Qed.

Lemma ilog2_Q_spec a : 0 < a -> pow2 (ilog2_Q a) <= a /\ a < pow2 (ilog2_Q a + 1).
Proof.
  intros Ha.
  assert (Hn : (0 < Qnum a)%Z).
  { destruct a as [n d]; unfold Qlt in Ha; simpl in *; lia. }
  set (n := Qnum a) in *; set (d := Zpos (Qden a)).
  destruct (Zlog2_pow2 n Hn) as [Hn1 Hn2].
  destruct (Zlog2_pow2 d eq_refl) as [Hd1 Hd2].
  pose proof (Q_num_den a) as Hnd; fold n d in Hnd.
  set (k := (Z.log2 n - Z.log2 d)%Z).
  assert (Hdpos : 0 < inject_Z d) by reflexivity.
  assert (A : pow2 (k - 1) <= a).
  { apply (Qmult_le_r _ _ (inject_Z d) Hdpos); rewrite Hnd.
    apply Qle_trans with (pow2 (k - 1) * pow2 (Z.log2 d + 1)).
    - apply Qmult_le_l; [apply pow2_pos | apply Qlt_le_weak; exact Hd2].
    - rewrite <- pow2_plus; replace (k - 1 + (Z.log2 d + 1))%Z with (Z.log2 n) by (unfold k; lia).
      exact Hn1. }
  assert (B : a < pow2 (k + 1)).
  { apply (Qmult_lt_r _ _ (inject_Z d) Hdpos); rewrite Hnd.
    apply Qlt_le_trans with (pow2 (Z.log2 n + 1)); [exact Hn2|].
    apply Qle_trans with (pow2 (k + 1) * pow2 (Z.log2 d)).
    - rewrite <- pow2_plus; replace (k + 1 + Z.log2 d)%Z with (Z.log2 n + 1)%Z by (unfold k; lia).
      apply Qle_refl.
    - apply Qmult_le_l; [apply pow2_pos | exact Hd1]. }
  unfold ilog2_Q; fold n d k.
  destruct (Qle_bool (pow2 k) a) eqn:E.
  - apply Qle_bool_iff in E; split; assumption.
  - split; [exact A|].
    replace (k - 1 + 1)%Z with k by lia.
    apply Qnot_le_lt; intros C; apply Qle_bool_iff in C; congruence.
Qed.

(** The ulp exponent: the grid spacing [2^e] of the doubles around [a]. *)
Lemma ulp_exp_spec a : 0 < a ->
  (-1074 <= ulp_exp a <= 971)%Z /\
  (ulp_exp a = 971%Z \/ a < pow2 (ulp_exp a + 53)) /\
  (ulp_exp a = (-1074)%Z \/ pow2 (ulp_exp a + 52) <= a) /\
  (ulp_exp a <= Z.max (-1074) (ilog2_Q a - 52))%Z /\
  pow2 (ilog2_Q a) <= a /\ a < pow2 (ilog2_Q a + 1).
Proof.
  intros Ha; destruct (ilog2_Q_spec a Ha) as [H1 H2].
  unfold ulp_exp; set (l := ilog2_Q a) in *.
  split; [lia|]; split; [|split; [|split; [lia | split; assumption]]].
  - destruct (Z.leb_spec 971 (Z.max (-1074) (l - 52))); [left; lia | right].
    apply Qlt_le_trans with (pow2 (l + 1)); [exact H2 | apply pow2_le; lia].
  - destruct (Z.leb_spec (l - 52) (-1074)); [left; lia | right].
    apply Qle_trans with (pow2 l); [apply pow2_le; lia | exact H1].
Qed.

Lemma Qfloor_unique (x : Q) (z : Z) : inject_Z z <= x -> x < inject_Z z + 1 -> Qfloor x = z.
Proof.
  intros H1 H2; pose proof (Qfloor_le x); pose proof (Qlt_floor x).
  assert (A : (Qfloor x < z + 1)%Z).
  { rewrite Zlt_Qlt, inject_Z_plus. apply Qle_lt_trans with x; [assumption|exact H2]. }
  assert (B : (z < Qfloor x + 1)%Z).
  { rewrite Zlt_Qlt. apply Qle_lt_trans with x; [assumption|]. exact H0. }
  lia.
Qed.

Lemma round_mult_cases a e :
  let y := (a / pow2 e)%Q in
  let q := Qfloor y in
  inject_Z q <= y /\ y < inject_Z q + 1 /\
  (round_mult a e = q /\ (y - inject_Z q <= 1 # 2) \/
   round_mult a e = (q + 1)%Z /\ (1 # 2 <= y - inject_Z q)) /\
  (y - inject_Z q < 1 # 2 -> round_mult a e = q) /\
  (1 # 2 < y - inject_Z q -> round_mult a e = (q + 1)%Z) /\
  (Z.even q = true -> round_mult a e = q \/ 1 # 2 < y - inject_Z q).
Proof.
  intros y q.
  pose proof (Qfloor_le y) as F1; pose proof (Qlt_floor y) as F2; fold q in F1, F2.
  rewrite inject_Z_plus in F2.
  split; [exact F1|]; split; [exact F2|].
  unfold round_mult; fold y q.
  destruct (Qlt_le_dec (1 # 2) (y - inject_Z q)) as [Hg | Hl].
  - rewrite (Qltb_true _ _ Hg); cbn [orb].
    split; [right; split; [reflexivity | lra]|].
    split; [intros; lra|]; split; [reflexivity|]. intros; right; exact Hg.
  - rewrite (Qltb_false _ _ Hl); cbn [orb].
    destruct (Qeq_bool (y - inject_Z q) (1 # 2)) eqn:Eq; cbn [andb].
    + apply Qeq_bool_iff in Eq.
      split; [destruct (Z.odd q); [right; split; [reflexivity|lra] | left; split; [reflexivity|exact Hl]]|].
      split; [intros; lra|]; split; [intros; lra|].
      intros He; left; rewrite <- Z.negb_even, He; reflexivity.
    + split; [left; split; [reflexivity | exact Hl]|].
      split; [reflexivity|]; split; [intros; lra|]; intros; left; reflexivity.
Qed.

Lemma mult_pow2_le (m1 m2 e : Z) : (m1 <= m2)%Z -> inject_Z m1 * pow2 e <= inject_Z m2 * pow2 e.
Proof.
  intros H; apply Qmult_le_compat_r; [rewrite <- Zle_Qle; exact H|].
  apply Qlt_le_weak, pow2_pos.
Qed.

Lemma abs_pos_of x : Qeq_bool (Qabs x) 0 = false -> 0 < Qabs x.
Proof.
  intros E; pose proof (Qabs_nonneg x) as H0.
  destruct (Qlt_le_dec 0 (Qabs x)) as [H|H]; [exact H|].
  exfalso; assert (H1 : Qabs x == 0) by (apply Qle_antisym; assumption).
  apply Qeq_bool_iff in H1; congruence.
Qed.

Lemma round_mult_nonneg a e : 0 <= a -> (0 <= round_mult a e)%Z.
Proof.
  intros Ha; destruct (round_mult_cases a e) as (F1 & F2 & [[-> _] | [-> _]] & _).
  all: assert (0 <= Qfloor (a / pow2 e))%Z
         by (rewrite <- (Qfloor_Z 0); apply Qfloor_resp_le, Qle_shift_div_l;
             [apply pow2_pos | rewrite Qmult_0_l; exact Ha]).
  all: lia.
Qed.

Lemma Qred_le_600 r : r <= 600 -> Qltb 600 (Qred r) = false.
Proof. intros H; apply Qltb_false; rewrite Qred_correct; exact H. Qed.

(** The rounding of a value at most 600 + 2^-44 (the midpoint between 600
    and the next double) is at most 600. *)
Lemma round_le_600 x : x <= 600 + pow2 (-44) -> float_gt (round_double x) 600 = false.
Proof.
  intros Hx; unfold round_double.
  destruct (Qeq_bool (Qabs x) 0) eqn:Ez; [reflexivity|].
  pose proof (abs_pos_of x Ez) as Ha.
  set (a := Qabs x) in *; set (e := ulp_exp a); set (m := round_mult a e).
  pose proof (round_mult_nonneg a e (Qlt_le_weak _ _ Ha)) as Hm0; fold m in Hm0.
  assert (Hr0 : 0 <= inject_Z m * pow2 e)
    by (apply Qmult_le_0_compat; [change 0 with (inject_Z 0); rewrite <- Zle_Qle; exact Hm0 | apply Qlt_le_weak, pow2_pos]).
  destruct (Qle_bool 0 x) eqn:Es.
  - apply Qle_bool_iff in Es.
    assert (Hax : a == x) by (apply Qabs_pos; exact Es).
    assert (Hr : inject_Z m * pow2 e <= 600).
    { destruct (ulp_exp_spec a Ha) as (E1 & E2 & E3 & E4 & L1 & L2); fold e in E1, E2, E3, E4.
      assert (HL : (ilog2_Q a < 10)%Z).
      { apply pow2_lt_inv; apply Qle_lt_trans with a; [exact L1|].
        rewrite Hax; apply Qle_lt_trans with (600 + pow2 (-44)); [exact Hx|].
        unfold Qlt; vm_compute; reflexivity. }
      assert (He : (e <= -43)%Z) by lia.
      destruct E2 as [E2 | E2]; [lia|].
      destruct (round_mult_cases a e) as (F1 & F2 & _ & F4 & F5 & F6); fold m in F4, F5, F6.
      set (y := a / pow2 e) in *; set (q := Qfloor y) in *.
      destruct (Z.leb_spec e (-44)) as [He' | He'].
      - assert (Hy : y < pow2 53).
        { apply Qlt_shift_div_r; [apply pow2_pos|].
          rewrite <- pow2_plus, Z.add_comm; exact E2. }
        assert (Hq : (q < 2 ^ 53)%Z).
        { rewrite Zlt_Qlt, <- pow2_Z by lia; apply Qle_lt_trans with y; assumption. }
        assert (Hm : (m <= 2 ^ 53)%Z).
        { destruct (round_mult_cases a e) as (_ & _ & [[Hc _] | [Hc _]] & _); fold m y q in Hc; lia. }
        apply Qle_trans with (inject_Z (2 ^ 53) * pow2 e); [apply mult_pow2_le; exact Hm|].
        rewrite <- pow2_Z, <- pow2_plus by lia.
        apply Qle_trans with (pow2 9); [apply pow2_le; lia|].
        unfold Qle; vm_compute; discriminate.
      - assert (e = (-43)%Z) by lia; clear He He'.
        assert (Hy : y <= inject_Z 5277655813324800 + (1 # 2)).
        { unfold y; rewrite H; apply Qle_shift_div_r; [apply pow2_pos|].
          rewrite Hax; apply Qle_trans with (600 + pow2 (-44)); [exact Hx|].
          unfold Qle; vm_compute; discriminate. }
        assert (Hq : (q <= 5277655813324800)%Z).
        { assert (inject_Z q < inject_Z (5277655813324800 + 1)) by
            (rewrite inject_Z_plus; apply Qle_lt_trans with y; [exact F1|];
             apply Qle_lt_trans with (inject_Z 5277655813324800 + (1 # 2)); [exact Hy|];
             apply Qplus_lt_r; reflexivity).
          rewrite <- Zlt_Qlt in H0; lia. }
        assert (Hm : (m <= 5277655813324800)%Z).
        { destruct (Z.eq_dec q 5277655813324800) as [Eq | Nq].
          - destruct (F6 ltac:(rewrite Eq; reflexivity)) as [Hm | Hf]; [lia|].
            exfalso; rewrite Eq in Hf; lra.
          - destruct (round_mult_cases a e) as (_ & _ & [[H1 _] | [H1 _]] & _);
              fold m y q in H1; lia. }
        apply Qle_trans with (inject_Z 5277655813324800 * pow2 e); [apply mult_pow2_le; exact Hm|].
        rewrite H; unfold Qle; vm_compute; discriminate. }
    assert (Hov : Qle_bool (pow2 1024) (inject_Z m * pow2 e) = false).
    { apply not_true_iff_false; intros C; apply Qle_bool_iff in C.
      assert (pow2 1024 <= 600) by (apply Qle_trans with (inject_Z m * pow2 e); assumption).
      revert H; unfold Qle; vm_compute; intros H; apply H; reflexivity. }
    rewrite Hov; cbn [float_gt]; apply Qred_le_600; exact Hr.
  - destruct (Qle_bool (pow2 1024) (inject_Z m * pow2 e)); [reflexivity|].
    cbn [float_gt]; apply Qred_le_600; lra.
Qed.




Lemma Qred_inject_Z n : Qred (inject_Z n) = inject_Z n.
Proof.
  unfold Qred, inject_Z.
  pose proof (Z.ggcd_gcd n 1) as Hg; pose proof (Z.ggcd_correct_divisors n 1) as Hd.
  destruct (Z.ggcd n 1) as [g [u v]]; simpl in *.
  rewrite Z.gcd_1_r in Hg; subst g; destruct Hd as [H1 H2].
  rewrite Z.mul_1_l in H1, H2; subst; reflexivity.
Qed.

(** [float(n)] is exact below 2^53. *)
Lemma float_of_int_exact n : (Z.abs n < 2 ^ 53)%Z -> float_of_int n = Ok (inject_Z n).
Proof.
  intros Hn; unfold float_of_int, round_double.
  change (Qabs (inject_Z n)) with (inject_Z (Z.abs n)).
  destruct (Z.eq_dec n 0) as [-> | Hn0]; [reflexivity|].
  assert (Ha : 0 < inject_Z (Z.abs n)) by (change 0 with (inject_Z 0); rewrite <- Zlt_Qlt; lia).
  assert (Ez : Qeq_bool (inject_Z (Z.abs n)) 0 = false).
  { apply not_true_iff_false; intros C; apply Qeq_bool_iff in C; rewrite C in Ha; lra. }
  rewrite Ez.
  set (a := inject_Z (Z.abs n)) in *; set (e := ulp_exp a); set (m := round_mult a e).
  destruct (ulp_exp_spec a Ha) as (E1 & E2 & E3 & E4 & L1 & L2); fold e in E1, E2, E3, E4.
  assert (HL : (ilog2_Q a < 53)%Z).
  { apply pow2_lt_inv; apply Qle_lt_trans with a; [exact L1|].
    unfold a; rewrite pow2_Z by lia; rewrite <- Zlt_Qlt; exact Hn. }
  assert (He : (e <= 0)%Z) by lia.
  assert (Hy : a / pow2 e == inject_Z (Z.abs n * 2 ^ (- e))).
  { rewrite inject_Z_mult, <- pow2_Z by lia; unfold Qdiv, pow2; rewrite <- Qpower_opp; reflexivity. }
  assert (Hq : Qfloor (a / pow2 e) = (Z.abs n * 2 ^ (- e))%Z) by (rewrite Hy; apply Qfloor_Z).
  destruct (round_mult_cases a e) as (_ & _ & _ & F4 & _ & _); fold m in F4.
  rewrite Hq in F4.
  assert (Hm : m = (Z.abs n * 2 ^ (- e))%Z) by (apply F4; rewrite Hy; lra).
  assert (Hr : inject_Z m * pow2 e == a).
  { rewrite Hm, inject_Z_mult, <- pow2_Z by lia.
    rewrite <- Qmult_assoc, <- pow2_plus; replace (- e + e)%Z with 0%Z by lia.
    unfold a; simpl; ring. }
  assert (Hov : Qle_bool (pow2 1024) (inject_Z m * pow2 e) = false).
  { apply not_true_iff_false; intros C; apply Qle_bool_iff in C; rewrite Hr in C.
    assert (pow2 1024 < pow2 53).
    { apply Qle_lt_trans with a; [exact C|]; unfold a; rewrite pow2_Z by lia; rewrite <- Zlt_Qlt; exact Hn. }
    apply pow2_lt_inv in H; lia. }
  rewrite Hov; f_equal.
  transitivity (Qred (inject_Z n)); [apply Qred_complete | apply Qred_inject_Z].
  destruct (Qle_bool 0 (inject_Z n)) eqn:Es; rewrite Hr; unfold a.
  - apply Qle_bool_iff in Es; change 0 with (inject_Z 0) in Es; rewrite <- Zle_Qle in Es.
    rewrite Z.abs_eq by lia; reflexivity.
  - assert (n < 0)%Z.
    { destruct (Z.ltb_spec n 0); [assumption|].
      exfalso; assert (Qle_bool 0 (inject_Z n) = true) by (apply Qle_bool_iff; change 0 with (inject_Z 0);
        rewrite <- Zle_Qle; lia); congruence. }
    rewrite Z.abs_neq by lia; rewrite inject_Z_opp; ring.
Qed.


End FloatFacts.

End PyFacts.

(* ================================================================== *)
(** * The webhook *)

Module WebhookFacts.
Import WebhookModel PyFacts.




Lemma timestamp_field (T : pystr) :
  nosep "=" T = true -> py_split "=" (lit "t=" ++ T) = [lit "t"; T].
Proof.
  intros HT; change (lit "t=" ++ T) with (lit "t" ++ "="%char :: T).
  rewrite py_split_app by reflexivity; rewrite py_split_nosep by exact HT; reflexivity.
Qed.

Lemma signature_field (sig : pystr) : py_split1 "=" (lit "v1=" ++ sig) = [lit "v1"; sig].
Proof.
  change (lit "v1=" ++ sig) with (lit "v1" ++ "="%char :: sig).
  apply py_split1_app; reflexivity.
Qed.


Lemma replay_check_passes (h : pystr) (t : Z) (now : Q) (rest : list pystr) :
  py_split "," h = (lit "t=" ++ py_str_int t) :: rest -> (Z.abs t < 2 ^ 53)%Z ->
  (now - inject_Z t <= 600 + pow2 (-44))%Q -> replay_check (Some h) now = Ok None.
Proof.
  intros Hs Hb Ht; unfold replay_check.
  assert (Hh : hdr_truthy (Some h) = true).
  { destruct h; [discriminate | reflexivity]. }
  rewrite Hh, Hs; cbn [py_index nth_error bind].
  rewrite timestamp_field by (apply py_str_int_nosep; reflexivity).
  cbn [py_index nth_error bind]; rewrite py_int_str_int by lia; cbn [bind].
  rewrite float_of_int_exact by exact Hb; cbn [bind]; unfold float_sub.
  rewrite (round_le_600 _ Ht), andb_false_r; reflexivity.
Qed.

Lemma le_600_window (now : Q) (t : Z) :
  (now - inject_Z t <= 600)%Q -> (now - inject_Z t <= 600 + pow2 (-44))%Q.
Proof. intros H; pose proof (pow2_pos (-44)); lra. Qed.






Lemma signature_rejection_returned L w key raw hdr now r :
  secret w = Some key -> key <> [] -> signature_check L key raw hdr = Ok (Some r) ->
  process_notification L w raw hdr true now = ([], Ok r).
Proof.
  intros HS Hk Hc; unfold process_notification, verify; rewrite HS.
  destruct key as [|b key]; [contradiction|]; cbn [bytes_truthy].
  rewrite Hc; reflexivity.
Qed.

(** C2. With a (non-empty) secret configured and validation on, the
    result is [("Invalid signature", 401)] when the header is missing
    ([None] or empty), when it has fewer than two comma-separated parts,
    when the HMAC reconstructed from the [t] field differs from the
    provided [v1] value, and in particular for [t={t},v1={sig'}] with
    [sig'] a same-length alteration of the correct signature. *)
Theorem C2_invalid_signature_rejected (L : webhook_lib) (w : Webhook) (key raw : bytes)
  (now : Q) :
  secret w = Some key -> key <> [] ->
  (forall hdr, hdr_truthy hdr = false ->
     process_notification L w raw hdr true now = ([], Ok invalid_signature))
  /\ (forall h, (List.length (py_split "," h) < 2)%nat ->
     process_notification L w raw (Some h) true now = ([], Ok invalid_signature))
  /\ (forall h p0 p1 t provided,
     nth_error (py_split "," h) 0 = Some p0 -> nth_error (py_split "," h) 1 = Some p1 ->
     nth_error (py_split "=" p0) 1 = Some t -> nth_error (py_split1 "=" p1) 1 = Some provided ->
     b64encode (hmac_sha256 L key (encode t ++ [Byte.x2e] ++ raw)) <> provided ->
     process_notification L w raw (Some h) true now = ([], Ok invalid_signature))
  /\ (forall (t : Z) (sig' : pystr),
     let sig := b64encode (hmac_sha256 L key (encode (py_str_int t) ++ [Byte.x2e] ++ raw)) in
     List.length sig' = List.length sig -> sig' <> sig ->
     process_notification L w raw (Some (lit "t=" ++ py_str_int t ++ lit ",v1=" ++ sig')) true now
     = ([], Ok invalid_signature)).
Proof.
  intros HS Hk.
  assert (Mis : forall h p0 p1 t provided,
     nth_error (py_split "," h) 0 = Some p0 -> nth_error (py_split "," h) 1 = Some p1 ->
     nth_error (py_split "=" p0) 1 = Some t -> nth_error (py_split1 "=" p1) 1 = Some provided ->
     b64encode (hmac_sha256 L key (encode t ++ [Byte.x2e] ++ raw)) <> provided ->
     process_notification L w raw (Some h) true now = ([], Ok invalid_signature)).
  { intros h p0 p1 t provided H0 H1 Ht Hp Hne.
    apply (signature_rejection_returned L w key); [exact HS | exact Hk |].
    unfold signature_check.
    assert (Hh : hdr_truthy (Some h) = true).
    { destruct h; [simpl in H1; discriminate | reflexivity]. }
    rewrite Hh; cbn [negb].
    assert (Hl : (List.length (py_split "," h) <? 2)%nat = false).
    { apply Nat.ltb_ge; destruct (py_split "," h) as [|a [|b r]]; simpl in *;
        try discriminate; lia. }
    rewrite Hl; unfold py_index; rewrite H0; cbn [bind]; rewrite Ht; cbn [bind].
    rewrite H1; cbn [bind]; rewrite Hp; cbn [bind].
    rewrite str_eqb_neq by exact Hne; reflexivity. }
  split; [|split; [|split]].
  - intros hdr Hh; apply (signature_rejection_returned L w key); [exact HS | exact Hk |].
    unfold signature_check; rewrite Hh; reflexivity.
  - intros h Hl; apply (signature_rejection_returned L w key); [exact HS | exact Hk |].
    unfold signature_check.
    apply Nat.ltb_lt in Hl; rewrite Hl.
    destruct (hdr_truthy (Some h)); reflexivity.
  - exact Mis.
  - intros t sig' sig Hlen Hne.
    destruct (py_split_head "," sig') as [rest Hrest].
    assert (Hs : py_split "," (lit "t=" ++ py_str_int t ++ lit ",v1=" ++ sig')
                 = (lit "t=" ++ py_str_int t) :: (lit "v1=" ++ take_until "," sig') :: rest).
    { change (lit "t=" ++ py_str_int t ++ lit ",v1=" ++ sig') with
        ((lit "t=" ++ py_str_int t) ++ ","%char :: (lit "v1=" ++ sig')).
      rewrite py_split_app
        by (rewrite nosep_app, py_str_int_nosep by reflexivity; reflexivity).
      change (lit "v1=" ++ sig') with ("v"%char :: "1"%char :: "="%char :: sig').
      cbn [py_split ascii_eqb Ascii.eqb Bool.eqb andb].
      rewrite Hrest; reflexivity. }
    eapply (Mis _ _ _ (py_str_int t) (take_until "," sig')).
    + rewrite Hs; reflexivity.
    + rewrite Hs; reflexivity.
    + rewrite timestamp_field by (apply py_str_int_nosep; reflexivity); reflexivity.
    + rewrite signature_field; reflexivity.
    + intros Heq; symmetry in Heq; revert Heq; apply take_until_altered; assumption.
Qed.

Lemma C2_invalid_signature_rejected_witness :
  secret (Samples.sample_webhook [] None) = Some Samples.sample_secret /\
  Samples.sample_secret <> [] /\
  process_notification Samples.sample_lib (Samples.sample_webhook [] None)
    (Samples.sample_raw (lit "SampleNotification")) None true (inject_Z 1700000000)
  = ([], Ok invalid_signature).
Proof.
  split; [reflexivity|]; split; [discriminate|].
  destruct (C2_invalid_signature_rejected Samples.sample_lib (Samples.sample_webhook [] None)
           Samples.sample_secret (Samples.sample_raw (lit "SampleNotification"))
           (inject_Z 1700000000) eq_refl) as [H _]; [discriminate|].
  apply H; reflexivity.
Defined.



(** A header [t=-10**400,v1=x] with no secret configured raises
    [OverflowError]. *)
Lemma replay_overflow_example :
  process_notification Samples.sample_lib
    (mkWebhook None None [(lit "on_test", Samples.on_test_ok)] None)
    (Samples.sample_raw (lit "SampleNotification"))
    (Some (lit "t=-1" ++ repeat "0"%char 400 ++ lit ",v1=x")) true (inject_Z 1700000000)
  = ([], Err OverflowError).
Proof. vm_compute; reflexivity. Qed.

Lemma dispatch_unfold L w raw hdr v now j n0 :
  verify L w raw hdr v now = Ok None -> json_loads L raw = Some j ->
  Notification_init L j = Ok n0 ->
  process_notification L w raw hdr v now =
  (let '(tr, n, oe) := dispatch_try L w j n0 in
   match oe with
   | None => (tr, Ok ([], 204%Z))
   | Some e =>
       match on_error w with
       | Some h => (tr ++ [CalledOnError n e],
                    match call_error h n e with None => Ok ([], 204%Z) | Some e' => Err e' end)
       | None => (tr, Err e)
       end
   end).
Proof.
  intros Hv Hj Hn; unfold process_notification; rewrite Hv; unfold dispatch; rewrite Hj, Hn.
  reflexivity.
Qed.
Lemma event_types_get_str s : event_types_get (JStr s) = Ok (str_assoc s EVENT_TYPES).
Proof. reflexivity. Qed.

Lemma unknown_outcome L w raw hdr v now j n0 s :
  verify L w raw hdr v now = Ok None -> json_loads L raw = Some j ->
  Notification_init L j = Ok n0 -> py_getitem j (lit "EventType") = Ok (JStr s) ->
  str_assoc s EVENT_TYPES = None ->
  process_notification L w raw hdr v now =
  match on_error w with
  | Some h => ([CalledOnError n0 (UnknownEventType unknown_msg)],
               match call_error h n0 (UnknownEventType unknown_msg) with
               | None => Ok ([], 204%Z) | Some e' => Err e' end)
  | None => ([], Err (UnknownEventType unknown_msg))
  end.
Proof.
  intros Hv Hj Hn He Hs; rewrite (dispatch_unfold L w raw hdr v now j n0 Hv Hj Hn).
  unfold dispatch_try; rewrite He, event_types_get_str, Hs; reflexivity.
Qed.

Lemma undefined_outcome L w raw hdr v now j n0 s ev n :
  verify L w raw hdr v now = Ok None -> json_loads L raw = Some j ->
  Notification_init L j = Ok n0 -> py_getitem j (lit "EventType") = Ok (JStr s) ->
  str_assoc s EVENT_TYPES = Some ev -> typed_notification L w j n0 ev = Ok n ->
  events_get ev (events w) = None ->
  process_notification L w raw hdr v now =
  match on_error w with
  | Some h => ([CalledOnError n (UndefinedEventType (undefined_msg ev))],
               match call_error h n (UndefinedEventType (undefined_msg ev)) with
               | None => Ok ([], 204%Z) | Some e' => Err e' end)
  | None => ([], Err (UndefinedEventType (undefined_msg ev)))
  end.
Proof.
  intros Hv Hj Hn He Hs Ht Hf; rewrite (dispatch_unfold L w raw hdr v now j n0 Hv Hj Hn).
  unfold dispatch_try; rewrite He, event_types_get_str, Hs, Ht, Hf; reflexivity.
Qed.

(** C7. On a body that passed verification and parses as a notification
    ([json.loads] and [Notification.__init__] succeed):
    - EventType ["SampleNotification"] with payload [UserId] [uid] and a
      registered [on_test] handler calls it with a [TestNotification] whose
      user is [User(uid, api_key)], and answers [("", 204)] when the
      handler returns normally;
    - a recognized EventType whose notification builds but has no handler
      raises [UndefinedEventType] when no error handler is registered;
    - an EventType string outside [EVENT_TYPES] raises [UnknownEventType]
      when no error handler is registered;
    - the two error conditions never give the same outcome, with or
      without an error handler. *)
Theorem C7_event_dispatch (L : webhook_lib) (w : Webhook) (hdr : option pystr) (v : bool)
  (now : Q) :
  (forall raw j n0 ev uid f,
     verify L w raw hdr v now = Ok None -> json_loads L raw = Some j ->
     Notification_init L j = Ok n0 ->
     py_getitem j (lit "EventType") = Ok (JStr (lit "SampleNotification")) ->
     py_getitem j (lit "EventPayload") = Ok ev -> py_getitem ev (lit "UserId") = Ok uid ->
     events_get (lit "on_test") (events w) = Some f ->
     exists n, kind n = Test (User_new uid (api_key w))
       /\ notification_id n = notification_id n0
       /\ fst (process_notification L w raw hdr v now) =
          CalledHandler (lit "on_test") n
            :: (match call_event f n, on_error w with
                | Some e, Some _ => [CalledOnError n e]
                | _, _ => []
                end)
       /\ (call_event f n = None -> snd (process_notification L w raw hdr v now) = Ok ([], 204%Z)))
  /\ (forall raw j n0 s ev n,
     verify L w raw hdr v now = Ok None -> json_loads L raw = Some j ->
     Notification_init L j = Ok n0 -> py_getitem j (lit "EventType") = Ok (JStr s) ->
     str_assoc s EVENT_TYPES = Some ev -> typed_notification L w j n0 ev = Ok n ->
     events_get ev (events w) = None -> on_error w = None ->
     process_notification L w raw hdr v now = ([], Err (UndefinedEventType (undefined_msg ev))))
  /\ (forall raw j n0 s,
     verify L w raw hdr v now = Ok None -> json_loads L raw = Some j ->
     Notification_init L j = Ok n0 -> py_getitem j (lit "EventType") = Ok (JStr s) ->
     str_assoc s EVENT_TYPES = None -> on_error w = None ->
     process_notification L w raw hdr v now = ([], Err (UnknownEventType unknown_msg)))
  /\ (forall raw1 j1 n1 s1 raw2 j2 n2 s2 ev n,
     verify L w raw1 hdr v now = Ok None -> json_loads L raw1 = Some j1 ->
     Notification_init L j1 = Ok n1 -> py_getitem j1 (lit "EventType") = Ok (JStr s1) ->
     str_assoc s1 EVENT_TYPES = None ->
     verify L w raw2 hdr v now = Ok None -> json_loads L raw2 = Some j2 ->
     Notification_init L j2 = Ok n2 -> py_getitem j2 (lit "EventType") = Ok (JStr s2) ->
     str_assoc s2 EVENT_TYPES = Some ev -> typed_notification L w j2 n2 ev = Ok n ->
     events_get ev (events w) = None ->
     process_notification L w raw1 hdr v now <> process_notification L w raw2 hdr v now).
Proof.
  split; [|split; [|split]].
  - intros raw j n0 ev uid f Hv Hj Hn He Hp Hu Hf.
    assert (Ht : typed_notification L w j n0 (lit "on_test")
                 = Ok (mkNotification (notification_id n0) (timestamp n0)
                         (Test (User_new uid (api_key w))))).
    { unfold typed_notification; rewrite str_eqb_refl.
      unfold TestNotification_init; rewrite Hn; cbn [bind]; rewrite Hp; cbn [bind].
      rewrite Hu; reflexivity. }
    exists (mkNotification (notification_id n0) (timestamp n0) (Test (User_new uid (api_key w)))).
    split; [reflexivity|]; split; [reflexivity|].
    rewrite (dispatch_unfold L w raw hdr v now j n0 Hv Hj Hn).
    unfold dispatch_try; rewrite He, event_types_get_str; cbn [str_assoc EVENT_TYPES].
    rewrite str_eqb_refl, Ht, Hf.
    split.
    + destruct (call_event f _); [destruct (on_error w)|]; reflexivity.
    + intros Hc; rewrite Hc; reflexivity.
  - intros raw j n0 s ev n Hv Hj Hn He Hs Ht Hf Ho.
    rewrite (undefined_outcome L w raw hdr v now j n0 s ev n Hv Hj Hn He Hs Ht Hf), Ho.
    reflexivity.
  - intros raw j n0 s Hv Hj Hn He Hs Ho.
    rewrite (unknown_outcome L w raw hdr v now j n0 s Hv Hj Hn He Hs), Ho; reflexivity.
  - intros raw1 j1 n1 s1 raw2 j2 n2 s2 ev n Hv1 Hj1 Hn1 He1 Hs1 Hv2 Hj2 Hn2 He2 Hs2 Ht Hf.
    rewrite (unknown_outcome L w raw1 hdr v now j1 n1 s1 Hv1 Hj1 Hn1 He1 Hs1).
    rewrite (undefined_outcome L w raw2 hdr v now j2 n2 s2 ev n Hv2 Hj2 Hn2 He2 Hs2 Ht Hf).
    destruct (on_error w); discriminate.
Qed.
Lemma C7_event_dispatch_witness :
  let raw := Samples.sample_raw (lit "SampleNotification") in
  let w := Samples.sample_webhook [(lit "on_test", Samples.on_test_ok)] None in
  verify Samples.sample_lib w raw None false 0 = Ok None /\
  exists n, kind n = Test (User_new (JNum 42) None) /\
    process_notification Samples.sample_lib w raw None false 0
    = ([CalledHandler (lit "on_test") n], Ok ([], 204%Z)).
Proof.
  split; [reflexivity|].
  destruct (C7_event_dispatch Samples.sample_lib
              (Samples.sample_webhook [(lit "on_test", Samples.on_test_ok)] None) None false 0)
    as [Ha _].
  destruct (Ha (Samples.sample_raw (lit "SampleNotification"))
              (Samples.sample_doc (lit "SampleNotification"))
              (mkNotification (JStr (lit "5a9c2e1f")) Samples.sample_datetime Generic)
              (JObj [(lit "UserId", JNum 42)]) (JNum 42) Samples.on_test_ok
              eq_refl eq_refl eq_refl eq_refl eq_refl eq_refl eq_refl)
    as [n [Hk [_ [Hf Hs]]]].
  exists n; split; [exact Hk|].
  rewrite (surjective_pairing (process_notification _ _ _ _ _ _)), Hf, Hs by reflexivity.
  reflexivity.
Defined.
End WebhookFacts.

(* ================================================================== *)
(** * [oauth2.py]: token endpoint, OpenID certs cache, authorization URI *)

Module OAuth2Facts.
Import OAuth2Model PyFacts.

Lemma ok_iff r : ok r = true <-> (status_code r < 400 \/ 600 <= status_code r)%Z.
Proof.
  unfold ok; destruct (Z.leb_spec 400 (status_code r)), (Z.ltb_spec (status_code r) 600);
    simpl; split; intros Hx; try reflexivity; try discriminate; try (exfalso; lia); lia.
Qed.

Lemma ok_false r : (400 <= status_code r < 600)%Z -> ok r = false.
Proof.
  intros H; unfold ok.
  rewrite (proj2 (Z.leb_le _ _)), (proj2 (Z.ltb_lt _ _)) by lia; reflexivity.
Qed.

Lemma py_get_obj j k g : py_get j k = Ok g -> exists fs, j = JObj fs.
Proof. destruct j; try discriminate; eauto. Qed.

(** The token constructor raises nothing but Python's own errors. *)
Lemma AccessToken_init_not_client Key L j i d m :
  AccessToken_init Key L j i d <> Err (InvalidKey m) /\
  AccessToken_init Key L j i d <> Err (InvalidCode m).
Proof.
  unfold AccessToken_init, user_from_claims, add_timedelta, split_space, py_getitem, py_get,
    as_py_int, fromtimestamp, ts_exn, bind.
  repeat (match goal with
          | |- context [match ?x with _ => _ end] =>
              lazymatch x with context [match _ with _ => _ end] => fail | _ => destruct x end
          end; simpl);
    split; discriminate.
Qed.

(** Once the response is parsed and the id-token block is done,
    [exchange_code] ends in its status dispatch. *)
Lemma exchange_code_unfold Key L app code cv resp certs now dtnow j g app1 nf idt :
  response_json resp = Ok j -> py_get j (lit "id_token") = Ok g ->
  (if opt_truthy g then id_token_block Key L app j certs now else (app, 0%nat, Ok None))
    = (app1, nf, Ok idt) ->
  exchange_code Key L app code cv resp certs now dtnow
  = (app1, nf, exchange_status Key L resp idt dtnow).
Proof.
  intros Hj Hg Hb; unfold exchange_code.
  rewrite Hj; cbn [bind]; rewrite Hg; cbn [bind]; rewrite Hb; reflexivity.
Qed.

Lemma exchange_code_truthy Key L app code cv resp certs now dtnow j g a n r :
  response_json resp = Ok j -> py_get j (lit "id_token") = Ok g -> opt_truthy g = true ->
  id_token_block Key L app j certs now = (a, n, r) ->
  exists r', exchange_code Key L app code cv resp certs now dtnow = (a, n, r').
Proof.
  intros Hj Hg Ht Hb; unfold exchange_code.
  rewrite Hj; cbn [bind]; rewrite Hg; cbn [bind]; rewrite Ht, Hb.
  destruct r; eexists; reflexivity.
Qed.

(** C4: once the response is parsed (a JSON dictionary) and the id-token
    block has not raised, [exchange_code] maps the status of the token
    endpoint as follows: [response.ok] (below 400 or from 600 on, so
    also 1xx, 3xx and 6xx) builds the [AccessToken]; exactly 400 raises
    [InvalidKey]; exactly 401 raises [InvalidCode]; 500..599 raises
    [ServiceUnavailable]; 402..499 raises the generic exception
    ["Unexpected HTTP <status>"]. *)
Theorem C4_exchange_code_status (Key : Type) (L : oauth_lib Key) (app : OAuth2App Key)
  (code : pystr) (cv : option pystr) (resp certs : Response) (now dtnow : Q)
  (j : json) (g : option json) (app1 : OAuth2App Key) (nf : nat) (idt : option json) :
  response_json resp = Ok j -> py_get j (lit "id_token") = Ok g ->
  (if opt_truthy g then id_token_block Key L app j certs now else (app, 0%nat, Ok None))
    = (app1, nf, Ok idt) ->
  exchange_code Key L app code cv resp certs now dtnow
    = (app1, nf, exchange_status Key L resp idt dtnow) /\
  ((status_code resp < 400 \/ 600 <= status_code resp)%Z ->
     exchange_status Key L resp idt dtnow = AccessToken_init Key L j idt dtnow) /\
  ((exists m, exchange_status Key L resp idt dtnow = Err (InvalidKey m))
     <-> status_code resp = 400%Z) /\
  ((exists m, exchange_status Key L resp idt dtnow = Err (InvalidCode m))
     <-> status_code resp = 401%Z) /\
  ((500 <= status_code resp < 600)%Z ->
     exchange_status Key L resp idt dtnow
     = Err (ServiceUnavailable (JStr (lit "The service is unavailable or has encountered an error.")))) /\
  ((402 <= status_code resp < 500)%Z ->
     exchange_status Key L resp idt dtnow
     = Err (rblx_opencloudException (JStr (lit "Unexpected HTTP " ++ py_str_int (status_code resp))))).
Proof.
  intros Hj Hg Hb.
  split; [eapply exchange_code_unfold; eassumption|].
  destruct (py_get_obj _ _ _ Hg) as [fs ->].
  unfold exchange_status.
  split; [|split; [|split; [|split]]].
  - intros Hs; apply ok_iff in Hs; rewrite Hs, Hj; reflexivity.
  - split.
    + intros [m Hm]; destruct (ok resp) eqn:Hok.
      * rewrite Hj in Hm; cbn [bind] in Hm.
        exfalso; exact (proj1 (AccessToken_init_not_client Key L _ _ _ m) Hm).
      * destruct (Z.eqb_spec (status_code resp) 400); [assumption|].
        destruct (status_code resp =? 401)%Z; [rewrite Hj in Hm; discriminate|].
        destruct (500 <=? status_code resp)%Z; discriminate.
    + intros Hs; rewrite ok_false by lia; rewrite Hs, Hj; eexists; reflexivity.
  - split.
    + intros [m Hm]; destruct (ok resp) eqn:Hok.
      * rewrite Hj in Hm; cbn [bind] in Hm.
        exfalso; exact (proj2 (AccessToken_init_not_client Key L _ _ _ m) Hm).
      * destruct (status_code resp =? 400)%Z; [rewrite Hj in Hm; discriminate|].
        destruct (Z.eqb_spec (status_code resp) 401); [assumption|].
        destruct (500 <=? status_code resp)%Z; discriminate.
    + intros Hs; rewrite ok_false by lia; rewrite Hs, Hj; eexists; reflexivity.
  - intros Hs; rewrite ok_false by lia.
    rewrite (proj2 (Z.eqb_neq _ 400)), (proj2 (Z.eqb_neq _ 401)), (proj2 (Z.leb_le 500 _))
      by lia; reflexivity.
  - intros Hs; rewrite ok_false by lia.
    rewrite (proj2 (Z.eqb_neq _ 400)), (proj2 (Z.eqb_neq _ 401)), (proj2 (Z.leb_gt 500 _))
      by lia; reflexivity.
Qed.

Lemma C4_exchange_code_status_witness :
  exists m, snd (exchange_code nat OAuthSamples.sample_lib OAuthSamples.sample_app (lit "c") None
                   (OAuthSamples.error_response 400 (lit "invalid_request"))
                   (OAuthSamples.certs_response []) 0 0) = Err (InvalidKey m).
Proof.
  destruct (C4_exchange_code_status nat OAuthSamples.sample_lib OAuthSamples.sample_app
              (lit "c") None (OAuthSamples.error_response 400 (lit "invalid_request"))
              (OAuthSamples.certs_response []) 0 0 _ _ _ _ _ eq_refl eq_refl eq_refl)
    as [He [_ [[_ Hk] _]]].
  rewrite He; simpl snd; apply Hk; reflexivity.
Defined.

(** C4 (the claimed 2xx/other split fails): a 302 answer carrying a
    token payload is [response.ok] and yields an [AccessToken], not the
    generic exception. *)
Lemma C4_counterexample :
  status_code (OAuthSamples.token_response 302 false) = 302%Z /\
  exists tok, snd (exchange_code nat OAuthSamples.sample_lib OAuthSamples.sample_app (lit "c") None
                     (OAuthSamples.token_response 302 false)
                     (OAuthSamples.certs_response []) 0 0) = Ok tok.
Proof. split; [reflexivity|]. eexists; vm_compute; reflexivity. Qed.

(** C5: [refresh_token]: when [response.ok] holds it parses the body and
    builds an [AccessToken] without identity from it (from the dictionary
    itself when the body is one); [InvalidKey] is raised only for 400, and
    for 400 with a dictionary body it is raised; no status raises
    [InvalidCode] (there is no 401 branch); whatever the body, 500..599
    raises [ServiceUnavailable] and 401..499 raise the generic
    ["Unexpected HTTP <status>"]. *)
Theorem C5_refresh_token_status (Key : Type) (L : oauth_lib Key) (app : OAuth2App Key)
  (rt : pystr) (resp : Response) (dtnow : Q) :
  ((status_code resp < 400 \/ 600 <= status_code resp)%Z ->
     refresh_token Key L app rt resp dtnow
     = (j <- response_json resp ;; AccessToken_init Key L j None dtnow) /\
     (forall fs, response_json resp = Ok (JObj fs) ->
        refresh_token Key L app rt resp dtnow = AccessToken_init Key L (JObj fs) None dtnow)) /\
  ((exists m, refresh_token Key L app rt resp dtnow = Err (InvalidKey m)) ->
     status_code resp = 400%Z) /\
  (forall fs, response_json resp = Ok (JObj fs) -> status_code resp = 400%Z ->
     exists m, refresh_token Key L app rt resp dtnow = Err (InvalidKey m)) /\
  (forall m, refresh_token Key L app rt resp dtnow <> Err (InvalidCode m)) /\
  ((500 <= status_code resp < 600)%Z ->
     refresh_token Key L app rt resp dtnow
     = Err (ServiceUnavailable (JStr (lit "The service is unavailable or has encountered an error.")))) /\
  ((401 <= status_code resp < 500)%Z ->
     refresh_token Key L app rt resp dtnow
     = Err (rblx_opencloudException (JStr (lit "Unexpected HTTP " ++ py_str_int (status_code resp))))).
Proof.
  unfold refresh_token.
  split; [|split; [|split; [|split; [|split]]]].
  - intros Hs; apply ok_iff in Hs; rewrite Hs; split; [reflexivity|].
    intros fs Hj; rewrite Hj; reflexivity.
  - intros [m Hm]; destruct (ok resp) eqn:Hok.
    + unfold response_json in Hm; destruct (body_json resp) as [j|]; cbn [bind] in Hm;
        [|discriminate].
      exfalso; exact (proj1 (AccessToken_init_not_client Key L _ _ _ m) Hm).
    + destruct (Z.eqb_spec (status_code resp) 400); [assumption|].
      destruct (500 <=? status_code resp)%Z; discriminate.
  - intros fs Hj Hs; rewrite ok_false by lia; rewrite Hs, Hj; eexists; reflexivity.
  - intros m Hm; destruct (ok resp) eqn:Hok.
    + unfold response_json in Hm; destruct (body_json resp) as [j|]; cbn [bind] in Hm;
        [|discriminate].
      exact (proj2 (AccessToken_init_not_client Key L _ _ _ m) Hm).
    + destruct (status_code resp =? 400)%Z.
      * unfold response_json in Hm; destruct (body_json resp) as [j|]; cbn [bind] in Hm;
        [|discriminate].
        unfold py_get_default, py_get in Hm; destruct j; discriminate.
      * destruct (500 <=? status_code resp)%Z; discriminate.
  - intros Hs; rewrite ok_false by lia.
    rewrite (proj2 (Z.eqb_neq _ 400)), (proj2 (Z.leb_le 500 _)) by lia; reflexivity.
  - intros Hs; rewrite ok_false by lia.
    rewrite (proj2 (Z.eqb_neq _ 400)), (proj2 (Z.leb_gt 500 _)) by lia; reflexivity.
Qed.

Lemma C5_refresh_token_status_witness :
  refresh_token nat OAuthSamples.sample_lib OAuthSamples.sample_app (lit "rt")
    (mkResponse 503 None) 0
  = Err (ServiceUnavailable (JStr (lit "The service is unavailable or has encountered an error."))).
Proof.
  destruct (C5_refresh_token_status nat OAuthSamples.sample_lib OAuthSamples.sample_app (lit "rt")
              (mkResponse 503 None) 0)
    as [_ [_ [_ [_ [H _]]]]].
  apply H; simpl; lia.
Defined.

(** C5 (the mapping is not the one of [exchange_code]): a 401 answer to
    the refresh raises the generic ["Unexpected HTTP 401"], not
    [InvalidCode]. *)
Lemma C5_counterexample :
  refresh_token nat OAuthSamples.sample_lib OAuthSamples.sample_app (lit "rt")
    (OAuthSamples.error_response 401 (lit "invalid_grant")) 0
  = Err (rblx_opencloudException (JStr (lit "Unexpected HTTP 401"))).
Proof. vm_compute; reflexivity. Qed.

Lemma needs_fetch_fresh Key (app : OAuth2App Key) now ks u :
  openid_certs_cache Key app = Some ks -> ks <> [] ->
  openid_certs_cache_updated Key app = Some u ->
  (now - u <= inject_Z (openid_certs_cache_seconds Key app))%Q ->
  needs_fetch Key app now = Ok false.
Proof.
  intros Hc Hne Hu Ht; unfold needs_fetch; rewrite Hc.
  destruct ks as [|k ks]; [contradiction|]; simpl.
  rewrite Hu, Qltb_false by exact Ht; reflexivity.
Qed.

Lemma needs_fetch_stale Key (app : OAuth2App Key) now :
  (cache_truthy Key (openid_certs_cache Key app) = false \/
   exists u, openid_certs_cache_updated Key app = Some u /\
             (inject_Z (openid_certs_cache_seconds Key app) < now - u)%Q) ->
  needs_fetch Key app now = Ok true.
Proof.
  intros [H | [u [Hu Ht]]]; unfold needs_fetch; [rewrite H; reflexivity|].
  destruct (cache_truthy Key (openid_certs_cache Key app)); simpl; [|reflexivity].
  rewrite Hu, Qltb_true by exact Ht; reflexivity.
Qed.

Lemma refresh_certs_ok Key L app certs now cj kv cs ks :
  ok certs = true -> response_json certs = Ok cj -> py_getitem cj (lit "keys") = Ok kv ->
  py_iter kv = Ok cs -> load_certs Key L [] cs = (ks, None) ->
  refresh_certs Key L app certs now = (set_cache Key app (Some ks) (Some now), None).
Proof.
  intros Hok Hcj Hkv Hcs Hl; unfold refresh_certs; rewrite Hok; cbn [negb].
  rewrite Hcj; cbn [bind]; rewrite Hkv; cbn [bind]; rewrite Hcs, Hl; reflexivity.
Qed.

Lemma id_token_block_fresh Key L (app : OAuth2App Key) j certs now ks u :
  openid_certs_cache Key app = Some ks -> ks <> [] ->
  openid_certs_cache_updated Key app = Some u ->
  (now - u <= inject_Z (openid_certs_cache_seconds Key app))%Q ->
  id_token_block Key L app j certs now
  = (app, 0%nat, tok <- py_getitem j (lit "id_token") ;;
                 decode_id_token Key L tok (py_str_int (id Key app)) ks).
Proof.
  intros Hc Hne Hu Ht; unfold id_token_block.
  rewrite (needs_fetch_fresh Key app now ks u Hc Hne Hu Ht); cbn beta iota zeta.
  rewrite Hc; reflexivity.
Qed.

Lemma id_token_block_fetch Key L (app : OAuth2App Key) j certs now a :
  needs_fetch Key app now = Ok true -> refresh_certs Key L app certs now = (a, None) ->
  exists r, id_token_block Key L app j certs now = (a, 1%nat, r).
Proof.
  intros Hn Hr; unfold id_token_block; rewrite Hn; cbn beta iota zeta.
  rewrite Hr; eexists; reflexivity.
Qed.

(** C6: the OpenID certs cache of one [OAuth2App].
    (1) A non-empty cache at most [openid_certs_cache_seconds] old is
    used as it is: no fetch, state unchanged.
    (2) An absent or empty cache, or one older than the time to live,
    is fetched once, whatever the fetch yields: a failed fetch (not
    [response.ok]) raises [ServiceUnavailable] and leaves the state as it
    was; an ok answer whose JSON, ["keys"] entry or key list cannot be
    read raises that error and leaves an empty cache with the old fetch
    time; a key that fails to load raises its error and leaves the keys
    loaded before it, with the old fetch time; a fetch whose keys all
    load replaces the cache with exactly those keys and records [now].
    (3) Two [exchange_code] calls carrying an id token, the first
    needing a fetch that yields at least one key and the second within
    the time to live of it, make one fetch in all and keep those keys. *)
Theorem C6_openid_certs_cache (Key : Type) (L : oauth_lib Key) :
  (forall (app : OAuth2App Key) j certs now ks u,
     openid_certs_cache Key app = Some ks -> ks <> [] ->
     openid_certs_cache_updated Key app = Some u ->
     (now - u <= inject_Z (openid_certs_cache_seconds Key app))%Q ->
     id_token_block Key L app j certs now
     = (app, 0%nat, tok <- py_getitem j (lit "id_token") ;;
                    decode_id_token Key L tok (py_str_int (id Key app)) ks)) /\
  (forall (app : OAuth2App Key) j certs now,
     (cache_truthy Key (openid_certs_cache Key app) = false \/
      exists u, openid_certs_cache_updated Key app = Some u /\
                (inject_Z (openid_certs_cache_seconds Key app) < now - u)%Q) ->
     (exists a r, id_token_block Key L app j certs now = (a, 1%nat, r)) /\
     (ok certs = false ->
        id_token_block Key L app j certs now
        = (app, 1%nat, Err (ServiceUnavailable (JStr (lit "Failed to retrieve OpenID certs."))))) /\
     (forall e, ok certs = true ->
        (cj <- response_json certs ;; kv <- py_getitem cj (lit "keys") ;; py_iter kv) = Err e ->
        id_token_block Key L app j certs now
        = (set_cache Key app (Some []) (openid_certs_cache_updated Key app), 1%nat, Err e)) /\
     (forall cj kv cs acc e,
        ok certs = true -> response_json certs = Ok cj -> py_getitem cj (lit "keys") = Ok kv ->
        py_iter kv = Ok cs -> load_certs Key L [] cs = (acc, Some e) ->
        id_token_block Key L app j certs now
        = (set_cache Key app (Some acc) (openid_certs_cache_updated Key app), 1%nat, Err e)) /\
     (forall cj kv cs ks,
        ok certs = true -> response_json certs = Ok cj -> py_getitem cj (lit "keys") = Ok kv ->
        py_iter kv = Ok cs -> load_certs Key L [] cs = (ks, None) ->
        exists r, id_token_block Key L app j certs now
                  = (set_cache Key app (Some ks) (Some now), 1%nat, r))) /\
  (forall (app : OAuth2App Key) code1 cv1 resp1 certs1 now1 dt1 code2 cv2 resp2 certs2 now2 dt2
          j1 g1 j2 g2 cj kv cs ks,
     needs_fetch Key app now1 = Ok true ->
     response_json resp1 = Ok j1 -> py_get j1 (lit "id_token") = Ok g1 -> opt_truthy g1 = true ->
     response_json resp2 = Ok j2 -> py_get j2 (lit "id_token") = Ok g2 -> opt_truthy g2 = true ->
     ok certs1 = true -> response_json certs1 = Ok cj -> py_getitem cj (lit "keys") = Ok kv ->
     py_iter kv = Ok cs -> load_certs Key L [] cs = (ks, None) -> ks <> [] ->
     (now2 - now1 <= inject_Z (openid_certs_cache_seconds Key app))%Q ->
     let '(app1, nf1, _) := exchange_code Key L app code1 cv1 resp1 certs1 now1 dt1 in
     let '(app2, nf2, _) := exchange_code Key L app1 code2 cv2 resp2 certs2 now2 dt2 in
     (nf1 + nf2 = 1)%nat /\ app2 = app1 /\ openid_certs_cache Key app2 = Some ks).
Proof.
  split; [|split].
  - intros app j certs now ks u Hc Hne Hu Ht; eapply id_token_block_fresh; eassumption.
  - intros app j certs now Hst.
    pose proof (needs_fetch_stale Key app now Hst) as Hn.
    split; [|split; [|split; [|split]]].
    + unfold id_token_block; rewrite Hn; cbn beta iota zeta.
      destruct (refresh_certs Key L app certs now) as [a [e|]]; eexists; eexists; reflexivity.
    + intros Hok; unfold id_token_block; rewrite Hn.
      cbn beta iota zeta; unfold refresh_certs; rewrite Hok; reflexivity.
    + intros e Hok He; unfold id_token_block; rewrite Hn.
      cbn beta iota zeta; unfold refresh_certs; rewrite Hok; cbn [negb]; rewrite He; reflexivity.
    + intros cj kv cs acc e Hok Hcj Hkv Hcs Hl; unfold id_token_block; rewrite Hn.
      cbn beta iota zeta; unfold refresh_certs; rewrite Hok; cbn [negb].
      rewrite Hcj; cbn [bind]; rewrite Hkv; cbn [bind]; rewrite Hcs, Hl; reflexivity.
    + intros cj kv cs ks Hok Hcj Hkv Hcs Hl.
      apply id_token_block_fetch; [apply needs_fetch_stale; exact Hst|].
      eapply refresh_certs_ok; eassumption.
  - intros app code1 cv1 resp1 certs1 now1 dt1 code2 cv2 resp2 certs2 now2 dt2
      j1 g1 j2 g2 cj kv cs ks Hn Hj1 Hg1 Ht1 Hj2 Hg2 Ht2 Hok Hcj Hkv Hcs Hl Hne Hw.
    destruct (id_token_block_fetch Key L app j1 certs1 now1 _ Hn
                (refresh_certs_ok Key L app certs1 now1 cj kv cs ks Hok Hcj Hkv Hcs Hl))
      as [r1 E1].
    destruct (exchange_code_truthy Key L app code1 cv1 resp1 certs1 now1 dt1 _ _ _ _ _
                Hj1 Hg1 Ht1 E1) as [r1' X1].
    rewrite X1.
    set (app1 := set_cache Key app (Some ks) (Some now1)).
    pose proof (id_token_block_fresh Key L app1 j2 certs2 now2 ks now1
                  eq_refl Hne eq_refl Hw) as E2.
    destruct (exchange_code_truthy Key L app1 code2 cv2 resp2 certs2 now2 dt2 _ _ _ _ _
                Hj2 Hg2 Ht2 E2) as [r2' X2].
    rewrite X2; cbn beta iota zeta; split; [|split]; reflexivity.
Qed.

Lemma C6_openid_certs_cache_witness :
  let '(app1, nf1, _) :=
    exchange_code nat OAuthSamples.sample_lib OAuthSamples.sample_app (lit "c1") None
      (OAuthSamples.token_response 200 true)
      (OAuthSamples.certs_response [OAuthSamples.sample_cert]) 0 0 in
  let '(app2, nf2, _) :=
    exchange_code nat OAuthSamples.sample_lib app1 (lit "c2") None
      (OAuthSamples.token_response 200 true)
      (OAuthSamples.certs_response [OAuthSamples.sample_cert]) 10 10 in
  (nf1 + nf2 = 1)%nat /\ app2 = app1 /\ openid_certs_cache nat app2 = Some [1%nat].
Proof.
  destruct (C6_openid_certs_cache nat OAuthSamples.sample_lib) as [_ [_ H]].
  exact (H OAuthSamples.sample_app (lit "c1") None (OAuthSamples.token_response 200 true)
           (OAuthSamples.certs_response [OAuthSamples.sample_cert]) 0 0
           (lit "c2") None (OAuthSamples.token_response 200 true)
           (OAuthSamples.certs_response [OAuthSamples.sample_cert]) 10 10
           _ _ _ _ _ _ _ [1%nat]
           eq_refl eq_refl eq_refl eq_refl eq_refl eq_refl eq_refl eq_refl eq_refl eq_refl
           eq_refl eq_refl ltac:(discriminate) ltac:(unfold Qle; simpl; lia)).
Defined.

(** C6 (an empty key set is not cached): the [not cache] test treats an
    empty key list like no cache, so when the certs endpoint answers
    [{"keys": []}] two verifications at the same instant fetch twice. *)
Lemma C6_counterexample :
  let '(app1, nf1, _) :=
    exchange_code nat OAuthSamples.sample_lib OAuthSamples.sample_app (lit "c1") None
      (OAuthSamples.token_response 200 true) (OAuthSamples.certs_response []) 0 0 in
  let '(_, nf2, _) :=
    exchange_code nat OAuthSamples.sample_lib app1 (lit "c2") None
      (OAuthSamples.token_response 200 true) (OAuthSamples.certs_response []) 0 0 in
  (nf1 + nf2 = 2)%nat.
Proof. vm_compute; reflexivity. Qed.

Lemma b64_char_not_pad tbl n :
  nosep "=" ("A"%char :: tbl) = true -> ascii_eqb (b64_char tbl n) "=" = false.
Proof.
  intros H; unfold nosep in H; rewrite forallb_forall in H.
  apply negb_true_iff, H, b64_char_in.
Qed.

(** Base64 output is its padding-free part followed by ['='] padding. *)
Lemma b64_encode_unpadded tbl bs :
  nosep "=" ("A"%char :: tbl) = true ->
  exists pad, b64_encode_with tbl bs
              = filter (fun c => negb (ascii_eqb c "=")) (b64_encode_with tbl bs) ++ pad
           /\ forallb (fun c => ascii_eqb c "=") pad = true.
Proof.
  intros Ht.
  remember (List.length bs) as n eqn:Hn.
  revert bs Hn; induction n as [n IH] using (well_founded_induction lt_wf); intros bs Hn.
  destruct bs as [|b0 [|b1 [|b2 r]]]; simpl.
  - exists []; split; reflexivity.
  - rewrite !b64_char_not_pad by exact Ht; simpl.
    exists ["="%char; "="%char]; split; reflexivity.
  - rewrite !b64_char_not_pad by exact Ht; simpl.
    exists ["="%char]; split; reflexivity.
  - destruct (IH (List.length r)) with (bs := r) as [pad [Hp Hpad]];
      [subst n; simpl; lia | reflexivity |].
    exists pad; split; [|exact Hpad].
    rewrite !b64_char_not_pad by exact Ht; simpl.
    rewrite Hp at 1; reflexivity.
Qed.

Lemma quote_plus_cons c s : quote_plus (c :: s) = quote_plus [c] ++ quote_plus s.
Proof. unfold quote_plus, encode; simpl; rewrite flat_map_app, app_nil_r; reflexivity. Qed.

Lemma quote_plus_b64url_char c : In c ("A"%char :: b64url_table) -> quote_plus [c] = [c].
Proof.
  unfold b64url_table, lit; simpl.
  intros H; repeat (destruct H as [<- | H]; [reflexivity|]); contradiction.
Qed.

(** [quote_plus] leaves base64url text as it is. *)
Lemma quote_plus_b64url s :
  Forall (fun c => In c ("A"%char :: b64url_table)) s -> quote_plus s = s.
Proof.
  induction 1 as [|c s Hc _ IH]; [reflexivity|].
  rewrite quote_plus_cons, quote_plus_b64url_char by exact Hc; rewrite IH; reflexivity.
Qed.

Lemma code_challenge_chars Key L v :
  Forall (fun c => In c ("A"%char :: b64url_table)) (code_challenge Key L v).
Proof.
  apply Forall_forall; intros c Hc; unfold code_challenge in Hc.
  apply filter_In in Hc as [Hin Hne].
  pose proof (b64_encode_with_chars b64url_table (sha256 L (encode v))) as HF.
  rewrite Forall_forall in HF; destruct (HF c Hin) as [<- | H]; [discriminate Hne | exact H].
Qed.

Lemma join_cons sep a r : r <> [] -> join sep (a :: r) = a ++ sep ++ join sep r.
Proof. destruct r; [contradiction | reflexivity]. Qed.

Lemma join_app2 sep l x y :
  l <> [] -> join sep (l ++ [x; y]) = join sep l ++ sep ++ x ++ sep ++ y.
Proof.
  induction l as [|a [|b l] IH]; intros H; [contradiction | reflexivity |].
  change ((a :: b :: l) ++ [x; y]) with (a :: ((b :: l) ++ [x; y])).
  rewrite join_cons by (simpl; discriminate).
  rewrite IH by discriminate.
  rewrite (join_cons sep a (b :: l)) by discriminate.
  rewrite <- !app_assoc; reflexivity.
Qed.

(** The query of [generate_uri] with a truthy verifier: the five first
    entries, then the two PKCE entries. *)
Lemma generate_uri_params_pkce Key L app sc state gc c0 v' :
  generate_uri_params Key L app sc state gc (Some (c0 :: v'))
  = firstn 5 (generate_uri_params Key L app sc state gc None)
    ++ [(lit "code_challenge", PStr (code_challenge Key L (c0 :: v')));
        (lit "code_challenge_method", PStr (lit "S256"))].
Proof. reflexivity. Qed.

Lemma present_params_app l1 l2 :
  present_params (l1 ++ l2) = present_params l1 ++ present_params l2.
Proof. apply filter_app. Qed.

(** A key whose value in the query list is [None] is not in the
    filtered query. *)
Lemma present_params_none (ps : list (pystr * pyval)) k x :
  (forall y, In (k, y) ps -> y = PNone) -> ~ In (k, x) (present_params ps).
Proof.
  intros H Hin; apply filter_In in Hin as [Hin Hv].
  rewrite (H x Hin) in Hv; discriminate.
Qed.

Lemma urlencode_pkce l k1 s1 k2 s2 :
  present_params l <> [] ->
  urlencode (present_params l ++ present_params [(k1, PStr s1); (k2, PStr s2)])
  = urlencode (present_params l) ++ lit "&" ++ (quote_plus k1 ++ "="%char :: quote_plus s1)
    ++ lit "&" ++ (quote_plus k2 ++ "="%char :: quote_plus s2).
Proof.
  intros H; change (present_params [(k1, PStr s1); (k2, PStr s2)])
    with [(k1, PStr s1); (k2, PStr s2)].
  unfold urlencode; rewrite map_app; apply join_app2.
  destruct (present_params l); [contradiction | discriminate].
Qed.

(** C8: [generate_uri] and PKCE.  With a non-empty verifier [v] the query
    holds [code_challenge] (the base64url text of SHA-256 of
    [v.encode()] without its ['='] padding) and
    [code_challenge_method=S256], and the URI ends with them; with the
    verifier [None] or [""] neither key is in the query; no query value
    is ever [None], and without a state there is no [state] key. *)
Theorem C8_generate_uri_pkce (Key : Type) (L : oauth_lib Key) (app : OAuth2App Key)
  (sc : scope_arg) (state : option pystr) (gc : bool) :
  (forall v, v <> [] ->
     In (lit "code_challenge", PStr (code_challenge Key L v))
        (present_params (generate_uri_params Key L app sc state gc (Some v))) /\
     In (lit "code_challenge_method", PStr (lit "S256"))
        (present_params (generate_uri_params Key L app sc state gc (Some v))) /\
     (exists pad, urlsafe_b64encode (sha256 L (encode v)) = code_challenge Key L v ++ pad /\
                  forallb (fun c => ascii_eqb c "=") pad = true /\
                  nosep "=" (code_challenge Key L v) = true) /\
     exists q, generate_uri Key L app sc state gc (Some v)
               = authorize_endpoint ++ q ++ lit "&code_challenge=" ++ code_challenge Key L v
                 ++ lit "&code_challenge_method=S256") /\
  (forall cv, (cv = None \/ cv = Some []) -> forall x,
     ~ In (lit "code_challenge", x) (present_params (generate_uri_params Key L app sc state gc cv)) /\
     ~ In (lit "code_challenge_method", x)
         (present_params (generate_uri_params Key L app sc state gc cv))) /\
  (forall cv k x,
     In (k, x) (present_params (generate_uri_params Key L app sc state gc cv)) -> x <> PNone) /\
  (state = None -> forall cv x,
     ~ In (lit "state", x) (present_params (generate_uri_params Key L app sc state gc cv))).
Proof.
  split; [|split; [|split]].
  - intros [|c0 v'] Hv; [contradiction|].
    rewrite generate_uri_params_pkce, present_params_app.
    split; [apply in_or_app; right; left; reflexivity|].
    split; [apply in_or_app; right; right; left; reflexivity|].
    split.
    + destruct (b64_encode_unpadded b64url_table (sha256 L (encode (c0 :: v'))) eq_refl)
        as [pad [Hp Hpad]].
      exists pad; split; [exact Hp|]; split; [exact Hpad|].
      unfold nosep, code_challenge; apply forallb_forall; intros c Hc.
      apply filter_In in Hc as [_ Hc]; exact Hc.
    + unfold generate_uri; rewrite generate_uri_params_pkce, present_params_app.
      rewrite urlencode_pkce by discriminate.
      eexists; f_equal; f_equal.
      rewrite (quote_plus_b64url (code_challenge Key L (c0 :: v'))) by apply code_challenge_chars.
      reflexivity.
  - intros cv Hcv x; split; apply present_params_none; intros y Hy;
      destruct Hcv as [-> | ->]; simpl in Hy;
      repeat (destruct Hy as [Hy | Hy]; [injection Hy; intros; subst; try reflexivity;
                                          cbv in *; congruence |]);
      contradiction.
  - intros cv k x Hin ->; apply filter_In in Hin as [_ Hv]; discriminate.
  - intros -> cv x; apply present_params_none; intros y Hy; simpl in Hy;
      repeat (destruct Hy as [Hy | Hy]; [injection Hy; intros; subst; try reflexivity;
                                          cbv in *; congruence |]);
      contradiction.
Qed.

Lemma C8_generate_uri_pkce_witness :
  In (lit "code_challenge", PStr (code_challenge nat OAuthSamples.sample_lib (lit "verifier")))
     (present_params (generate_uri_params nat OAuthSamples.sample_lib OAuthSamples.sample_app
                        (ScopeList [lit "openid"]) None true (Some (lit "verifier")))).
Proof.
  destruct (C8_generate_uri_pkce nat OAuthSamples.sample_lib OAuthSamples.sample_app
              (ScopeList [lit "openid"]) None true) as [H _].
  apply (H (lit "verifier")); discriminate.
Defined.

(** C8 (the empty verifier): [""] is a [str] but falsy, so
    [generate_uri(..., code_verifier="")] emits neither [code_challenge]
    nor [code_challenge_method]. *)
Lemma C8_counterexample :
  generate_uri nat OAuthSamples.sample_lib OAuthSamples.sample_app
    (ScopeList [lit "openid"; lit "profile"]) None true (Some [])
  = lit "https://apis.roblox.com/oauth/v1/authorize?client_id=1234&scope=openid+profile&redirect_uri=https%3A%2F%2Fexample.com%2Fcb&response_type=code".
Proof. vm_compute; reflexivity. Qed.

Lemma unauthorized_scope Key L data err sc prefix suffix :
  py_getitem data (lit "error") = Ok err -> json_is_str err (lit "insufficient_scope") = true ->
  py_getitem data (lit "scope") = Ok sc ->
  unauthorized Key L data prefix suffix
  = InsufficientScope sc (JStr (prefix ++ py_format Key L sc ++ suffix)).
Proof. intros He Hs Hsc; unfold unauthorized; rewrite He, Hs, Hsc; reflexivity. Qed.

Lemma unauthorized_other Key L data err prefix suffix :
  py_getitem data (lit "error") = Ok err -> json_is_str err (lit "insufficient_scope") = false ->
  unauthorized Key L data prefix suffix
  = InvalidKey (JStr (lit "The key has expired, been revoked or is invalid")).
Proof. intros He Hs; unfold unauthorized; rewrite He, Hs; reflexivity. Qed.

(** A 401 answer whose body is a dictionary makes the status dispatch of
    [exchange_code] raise [InvalidCode]. *)
Lemma exchange_status_401 Key L resp idt dtnow fs :
  status_code resp = 401%Z -> response_json resp = Ok (JObj fs) ->
  exists m, exchange_status Key L resp idt dtnow = Err (InvalidCode m).
Proof.
  intros Hs Hj; unfold exchange_status; rewrite ok_false by lia; rewrite Hs, Hj.
  cbn [Z.eqb Pos.eqb bind py_get_default py_get]; eexists; reflexivity.
Qed.

(** C9: a 401 answer of the [PartialAccessToken] fetches
    ([fetch_token_info], [fetch_resources], [fetch_userinfo]) whose body
    has [error == "insufficient_scope"] raises [InsufficientScope]
    carrying [data["scope"]]; any other [error] value raises
    [InvalidKey].  The token endpoint operations do not follow the rule:
    every 401 answer makes [refresh_token] and [revoke_token] raise the
    generic ["Unexpected HTTP 401"]; a 401 answer with a dictionary body
    makes [exchange_code] raise [InvalidCode] when the body has no truthy
    [id_token], and otherwise either the error of the id-token block
    (certs fetch and token decoding) it runs first or, when that block
    succeeds, [InvalidCode]. *)
Theorem C9_insufficient_scope (Key : Type) (L : oauth_lib Key) :
  (forall tok data err, py_getitem data (lit "error") = Ok err ->
   (forall sc, json_is_str err (lit "insufficient_scope") = true ->
     py_getitem data (lit "scope") = Ok sc ->
     fetch_token_info Key L tok (401%Z, data)
       = Err (InsufficientScope sc
                (JStr (lit "Access token missing required scope: '" ++ py_format Key L sc))) /\
     fetch_resources Key L tok (401%Z, data)
       = Err (InsufficientScope sc
                (JStr (lit "Access token missing required scope: '" ++ py_format Key L sc ++ lit "'"))) /\
     fetch_userinfo Key L tok (401%Z, data)
       = Err (InsufficientScope sc
                (JStr (lit "Access token missing required scope:'" ++ py_format Key L sc ++ lit "'")))) /\
   (json_is_str err (lit "insufficient_scope") = false ->
     fetch_token_info Key L tok (401%Z, data)
       = Err (InvalidKey (JStr (lit "The key has expired, been revoked or is invalid"))) /\
     fetch_resources Key L tok (401%Z, data)
       = Err (InvalidKey (JStr (lit "The key has expired, been revoked or is invalid"))) /\
     fetch_userinfo Key L tok (401%Z, data)
       = Err (InvalidKey (JStr (lit "The key has expired, been revoked or is invalid"))))) /\
  (forall app rt t resp dtnow, status_code resp = 401%Z ->
     refresh_token Key L app rt resp dtnow
       = Err (rblx_opencloudException (JStr (lit "Unexpected HTTP 401"))) /\
     revoke_token Key app t resp
       = Err (rblx_opencloudException (JStr (lit "Unexpected HTTP 401")))) /\
  (forall app code cv resp certs now dtnow fs g,
     status_code resp = 401%Z -> response_json resp = Ok (JObj fs) ->
     py_get (JObj fs) (lit "id_token") = Ok g ->
     (opt_truthy g = false ->
        exists m, snd (exchange_code Key L app code cv resp certs now dtnow) = Err (InvalidCode m)) /\
     (opt_truthy g = true ->
        (forall a n e, id_token_block Key L app (JObj fs) certs now = (a, n, Err e) ->
           snd (exchange_code Key L app code cv resp certs now dtnow) = Err e) /\
        (forall a n idt, id_token_block Key L app (JObj fs) certs now = (a, n, Ok idt) ->
           exists m, snd (exchange_code Key L app code cv resp certs now dtnow)
                     = Err (InvalidCode m)))).
Proof.
  split; [|split].
  - intros tok data err He; split.
    + intros sc Hs Hsc.
      unfold fetch_token_info, fetch_resources, fetch_userinfo, send_request; cbn [bind Z.eqb].
      rewrite !(unauthorized_scope Key L data err sc) by assumption.
      rewrite app_nil_r; split; [|split]; reflexivity.
    + intros Hs.
      unfold fetch_token_info, fetch_resources, fetch_userinfo, send_request; cbn [bind Z.eqb].
      rewrite !(unauthorized_other Key L data err) by assumption.
      split; [|split]; reflexivity.
  - intros app rt t resp dtnow Hs; unfold refresh_token, revoke_token.
    rewrite ok_false by lia; rewrite Hs; split; reflexivity.
  - intros app code cv resp certs now dtnow fs g Hs Hj Hg; split.
    + intros Hf.
      rewrite (exchange_code_unfold Key L app code cv resp certs now dtnow (JObj fs) g app 0%nat None
                 Hj Hg) by (rewrite Hf; reflexivity).
      exact (exchange_status_401 Key L resp None dtnow fs Hs Hj).
    + intros Ht; split.
      * intros a n e Hb; unfold exchange_code; rewrite Hj; cbn [bind]; rewrite Hg; cbn [bind].
        rewrite Ht, Hb; reflexivity.
      * intros a n idt Hb.
        rewrite (exchange_code_unfold Key L app code cv resp certs now dtnow (JObj fs) g a n idt
                   Hj Hg) by (rewrite Ht; exact Hb).
        exact (exchange_status_401 Key L resp idt dtnow fs Hs Hj).
Qed.

Lemma C9_insufficient_scope_witness :
  fetch_resources nat OAuthSamples.sample_lib (JStr (lit "at"))
    (401%Z, JObj [(lit "error", JStr (lit "insufficient_scope"));
                  (lit "scope", JStr (lit "universe-messaging-service:publish"))])
  = Err (InsufficientScope (JStr (lit "universe-messaging-service:publish"))
           (JStr (lit "Access token missing required scope: 'universe-messaging-service:publish'"))).
Proof.
  destruct (C9_insufficient_scope nat OAuthSamples.sample_lib) as [H _].
  destruct (H (JStr (lit "at"))
              (JObj [(lit "error", JStr (lit "insufficient_scope"));
                     (lit "scope", JStr (lit "universe-messaging-service:publish"))])
              (JStr (lit "insufficient_scope")) eq_refl) as [H1 _].
  exact (proj1 (proj2 (H1 (JStr (lit "universe-messaging-service:publish")) eq_refl eq_refl))).
Defined.

(** C9 (not all network operations share the rule): the token endpoint
    operations ignore [insufficient_scope] bodies.  A 401 answer
    [{"error": "insufficient_scope", "scope": "openid"}] makes
    [exchange_code] raise [InvalidCode], and [refresh_token] and
    [revoke_token] raise the generic ["Unexpected HTTP 401"]. *)
Lemma C9_counterexample :
  snd (exchange_code nat OAuthSamples.sample_lib OAuthSamples.sample_app (lit "c") None
         (OAuthSamples.error_response 401 (lit "insufficient_scope"))
         (OAuthSamples.certs_response []) 0 0)
  = Err (InvalidCode (JStr (lit "The code is invalid, or has been used."))) /\
  refresh_token nat OAuthSamples.sample_lib OAuthSamples.sample_app (lit "rt")
    (OAuthSamples.error_response 401 (lit "insufficient_scope")) 0
  = Err (rblx_opencloudException (JStr (lit "Unexpected HTTP 401"))) /\
  revoke_token nat OAuthSamples.sample_app (lit "at")
    (OAuthSamples.error_response 401 (lit "insufficient_scope"))
  = Err (rblx_opencloudException (JStr (lit "Unexpected HTTP 401"))).
Proof. split; [|split]; vm_compute; reflexivity. Qed.

Lemma add_timedelta_ok dt v r :
  add_timedelta dt v = Ok r -> exists n, as_py_int v = Ok n /\ r = (dt + inject_Z (n * 86400))%Q.
Proof.
  unfold add_timedelta, as_py_int, bind; intros H.
  destruct v as [| b | z | s | l | fs]; try discriminate;
    [destruct b|]; eexists; split; try reflexivity;
    match type of H with context [if ?c then _ else _] => destruct c end;
    congruence.
Qed.

Lemma AccessToken_init_expires Key L j i d tok :
  AccessToken_init Key L j i d = Ok tok ->
  exists ei n, py_getitem j (lit "expires_in") = Ok ei /\ as_py_int ei = Ok n /\
               expires_at tok = (d + inject_Z (n * 86400))%Q.
Proof.
  unfold AccessToken_init, bind; intros H.
  destruct (py_getitem j (lit "access_token")); [|discriminate].
  destruct (py_getitem j (lit "refresh_token")); [|discriminate].
  destruct (py_getitem j (lit "scope")); [|discriminate].
  destruct (split_space _); [|discriminate].
  destruct (py_getitem j (lit "expires_in")) as [ei|]; [|discriminate].
  destruct (add_timedelta d ei) as [r|] eqn:Ha; [|discriminate].
  destruct (add_timedelta_ok _ _ _ Ha) as [n [Hn ->]].
  exists ei, n; split; [reflexivity|]; split; [exact Hn|].
  destruct (if opt_truthy i then _ else _) as [u|]; [|discriminate].
  injection H as <-; reflexivity.
Qed.

Lemma bind_err_not_ok {A B} (m : result A) (k : A -> exn) (b : B) :
  (x <- m ;; Err (k x)) <> Ok b.
Proof. destruct m; discriminate. Qed.

Lemma exchange_code_ok Key L app code cv resp certs now dtnow app1 nf tok :
  exchange_code Key L app code cv resp certs now dtnow = (app1, nf, Ok tok) ->
  exists j idt, response_json resp = Ok j /\ AccessToken_init Key L j idt dtnow = Ok tok.
Proof.
  unfold exchange_code; intros H.
  destruct (response_json resp) as [j|] eqn:Hj; cbn [bind] in H; [|discriminate].
  destruct (py_get j (lit "id_token")) as [g|]; cbn [bind] in H; [|discriminate].
  destruct (if opt_truthy g then _ else _) as [[a n] [idt|]]; [|discriminate].
  injection H as _ _ H; exists j, idt; split; [reflexivity|].
  unfold exchange_status in H; rewrite Hj in H; cbn [bind] in H.
  destruct (ok resp); [exact H|].
  destruct (status_code resp =? 400)%Z; [contradiction (bind_err_not_ok _ _ _ H)|].
  destruct (status_code resp =? 401)%Z; [contradiction (bind_err_not_ok _ _ _ H)|].
  destruct (500 <=? status_code resp)%Z; discriminate.
Qed.

Lemma refresh_token_ok Key L app rt resp dtnow tok :
  refresh_token Key L app rt resp dtnow = Ok tok ->
  exists j, response_json resp = Ok j /\ AccessToken_init Key L j None dtnow = Ok tok.
Proof.
  unfold refresh_token; intros H.
  destruct (response_json resp) as [j|] eqn:Hj; cbn [bind] in H.
  - exists j; split; [reflexivity|].
    destruct (ok resp); [exact H|].
    destruct (status_code resp =? 400)%Z; [contradiction (bind_err_not_ok _ _ _ H)|].
    destruct (500 <=? status_code resp)%Z; discriminate.
  - destruct (ok resp); [discriminate|].
    destruct (status_code resp =? 400)%Z; [discriminate|].
    destruct (500 <=? status_code resp)%Z; discriminate.
Qed.

Lemma days_not_seconds (d : Q) (n : Z) :
  n <> 0%Z -> ~ (d + inject_Z (n * 86400) == d + inject_Z n)%Q.
Proof.
  intros Hn H; rewrite Qplus_inj_l, inject_Z_injective in H; lia.
Qed.

(** C10: the [expires_at] of the token an [exchange_code] or a
    [refresh_token] returns is [datetime.now()] plus [expires_in] days
    (86400 seconds each), which differs from now plus [expires_in]
    seconds whenever [expires_in] is not 0. *)
Theorem C10_expires_in_days (Key : Type) (L : oauth_lib Key) :
  (forall app code cv resp certs now dtnow app1 nf tok,
     exchange_code Key L app code cv resp certs now dtnow = (app1, nf, Ok tok) ->
     exists j ei n, response_json resp = Ok j /\ py_getitem j (lit "expires_in") = Ok ei /\
       as_py_int ei = Ok n /\ expires_at tok = (dtnow + inject_Z (n * 86400))%Q /\
       (n <> 0%Z -> ~ (expires_at tok == dtnow + inject_Z n)%Q)) /\
  (forall app rt resp dtnow tok,
     refresh_token Key L app rt resp dtnow = Ok tok ->
     exists j ei n, response_json resp = Ok j /\ py_getitem j (lit "expires_in") = Ok ei /\
       as_py_int ei = Ok n /\ expires_at tok = (dtnow + inject_Z (n * 86400))%Q /\
       (n <> 0%Z -> ~ (expires_at tok == dtnow + inject_Z n)%Q)).
Proof.
  split.
  - intros app code cv resp certs now dtnow app1 nf tok H.
    destruct (exchange_code_ok _ _ _ _ _ _ _ _ _ _ _ _ H) as [j [idt [Hj Ht]]].
    destruct (AccessToken_init_expires _ _ _ _ _ _ Ht) as [ei [n [Hei [Hn He]]]].
    exists j, ei, n; repeat split; try assumption.
    rewrite He; apply days_not_seconds.
  - intros app rt resp dtnow tok H.
    destruct (refresh_token_ok _ _ _ _ _ _ _ H) as [j [Hj Ht]].
    destruct (AccessToken_init_expires _ _ _ _ _ _ Ht) as [ei [n [Hei [Hn He]]]].
    exists j, ei, n; repeat split; try assumption.
    rewrite He; apply days_not_seconds.
Qed.

Lemma C10_expires_in_days_witness :
  refresh_token nat OAuthSamples.sample_lib OAuthSamples.sample_app (lit "rt")
    (OAuthSamples.token_response 200 false) 0
  = Ok (mkAccessToken (JStr (lit "at")) (JStr (lit "rt")) [lit "openid"; lit "profile"]
          (0 + inject_Z (900 * 86400))%Q None) /\
  (0 + inject_Z (900 * 86400) == 77760000)%Q /\
  ~ (0 + inject_Z (900 * 86400) == 0 + inject_Z 900)%Q.
Proof.
  assert (H : refresh_token nat OAuthSamples.sample_lib OAuthSamples.sample_app (lit "rt")
                (OAuthSamples.token_response 200 false) 0
              = Ok (mkAccessToken (JStr (lit "at")) (JStr (lit "rt"))
                      [lit "openid"; lit "profile"] (0 + inject_Z (900 * 86400))%Q None))
    by (vm_compute; reflexivity).
  split; [exact H|]; split; [vm_compute; reflexivity|].
  destruct (C10_expires_in_days nat OAuthSamples.sample_lib) as [_ H2].
  destruct (H2 _ _ _ _ _ H) as [j [ei [n [Hj [Hei [Hn [He Hd]]]]]]].
  vm_compute in Hj; injection Hj as <-; vm_compute in Hei; injection Hei as <-.
  vm_compute in Hn; injection Hn as <-.
  apply Hd; discriminate.
Defined.

End OAuth2Facts.

(* ================================================================== *)
(** * Further properties of the webhook *)

Module WebhookMore.
Import WebhookModel PyFacts WebhookFacts MoreModel.

Lemma bind_ok_inv {A B} (m : result A) (k : A -> result B) (y : B) :
  (x <- m ;; k x) = Ok y -> exists a, m = Ok a /\ k a = Ok y.
Proof. destruct m as [a|e]; simpl; [eauto | discriminate]. Qed.

Lemma firstn_repeat' {A} (x : A) n m : firstn n (repeat x m) = repeat x (Nat.min n m).
Proof. revert m; induction n as [|n IH]; intros [|m]; simpl; try reflexivity; rewrite IH; reflexivity. Qed.

Lemma secret_empty_falsy (s : option secret_arg) k :
  (s = None \/ s = Some (SecretBytes []) \/ s = Some (SecretStr [])) ->
  bytes_truthy (secret (Webhook_new s k)) = false.
Proof. intros [-> | [-> | ->]]; reflexivity. Qed.

(** X1. Registering a handler named [on_test] or
    [on_right_to_erasure_request] makes it the handler found for that
    name (the latest registration wins), leaves the handlers of every
    other name, the secret, the api key and the error handler as they
    were. *)
Theorem X1_event_registers (w : Webhook) (f : Callable) :
  (cname f = lit "on_test" \/ cname f = lit "on_right_to_erasure_request") ->
  exists w', event w f = Ok w' /\
    events_get (cname f) (events w') = Some f /\
    (forall k, k <> cname f -> events_get k (events w') = events_get k (events w)) /\
    secret w' = secret w /\ api_key w' = api_key w /\ on_error w' = on_error w.
Proof.
  intros Hn.
  assert (H1 : str_eqb (cname f) (lit "on_error") = false)
    by (apply str_eqb_neq; destruct Hn as [H | H]; rewrite H; discriminate).
  assert (H2 : existsb (fun kv => str_eqb (cname f) (snd kv)) EVENT_TYPES = true)
    by (destruct Hn as [H | H]; rewrite H; reflexivity).
  unfold event; rewrite H1, H2.
  eexists; split; [reflexivity|]; simpl; rewrite str_eqb_refl.
  repeat split; intros k Hk; rewrite str_eqb_neq by exact Hk; reflexivity.
Qed.

Lemma X1_event_registers_witness :
  exists w', event (Samples.sample_webhook [] None) Samples.on_test_ok = Ok w' /\
    events_get (cname Samples.on_test_ok) (events w') = Some Samples.on_test_ok /\
    (forall k, k <> cname Samples.on_test_ok ->
       events_get k (events w') = events_get k (events (Samples.sample_webhook [] None))) /\
    secret w' = secret (Samples.sample_webhook [] None) /\
    api_key w' = api_key (Samples.sample_webhook [] None) /\
    on_error w' = on_error (Samples.sample_webhook [] None).
Proof. apply X1_event_registers; left; reflexivity. Defined.

(** X2. A function named [on_error] becomes the error handler and no
    event handler is added; a function with any name other than
    [on_error], [on_test] and [on_right_to_erasure_request] is refused
    with [ValueError]. *)
Theorem X2_event_on_error_or_invalid (w : Webhook) (f : Callable) :
  (cname f = lit "on_error" ->
     event w f = Ok (mkWebhook (secret w) (api_key w) (events w) (Some f))) /\
  (~ In (cname f) [lit "on_error"; lit "on_test"; lit "on_right_to_erasure_request"] ->
     event w f = Err ValueError).
Proof.
  split.
  - intros H; unfold event; rewrite H; reflexivity.
  - intros H; unfold event.
    assert (N1 : cname f <> lit "on_error")
      by (intros E; apply H; rewrite E; left; reflexivity).
    assert (N2 : cname f <> lit "on_test")
      by (intros E; apply H; rewrite E; right; left; reflexivity).
    assert (N3 : cname f <> lit "on_right_to_erasure_request")
      by (intros E; apply H; rewrite E; right; right; left; reflexivity).
    rewrite (str_eqb_neq _ _ N1); cbn [existsb EVENT_TYPES snd].
    rewrite (str_eqb_neq _ _ N2), (str_eqb_neq _ _ N3); reflexivity.
Qed.

Lemma X2_event_on_error_or_invalid_witness :
  let f := mkCallable (lit "on_message") (fun _ => None) (fun _ _ => None) in
  ~ In (cname f) [lit "on_error"; lit "on_test"; lit "on_right_to_erasure_request"] /\
  event (Samples.sample_webhook [] None) f = Err ValueError.
Proof.
  intros f; assert (H : ~ In (cname f) [lit "on_error"; lit "on_test"; lit "on_right_to_erasure_request"])
    by (simpl; intros [H | [H | [H | []]]]; discriminate).
  split; [exact H | apply (proj2 (X2_event_on_error_or_invalid _ f)); exact H].
Defined.

(** X3. A webhook created with no secret, [b""] or [""] never checks a
    signature: with validation on, only the replay check runs, so a
    header [t={t},<anything>] with [|t| < 2^53] and [now - t <= 600] is
    dispatched whatever follows the comma. *)
Theorem X3_empty_secret_unsigned (L : webhook_lib) (s : option secret_arg) (k : option pystr)
  (raw : bytes) (now : Q) :
  (s = None \/ s = Some (SecretBytes []) \/ s = Some (SecretStr [])) ->
  (forall hdr, process_notification L (Webhook_new s k) raw hdr true now =
     match replay_check hdr now with
     | Err e => ([], Err e)
     | Ok (Some r) => ([], Ok r)
     | Ok None => dispatch L (Webhook_new s k) raw
     end) /\
  (forall t rest, (Z.abs t < 2 ^ 53)%Z -> (now - inject_Z t <= 600)%Q ->
     process_notification L (Webhook_new s k) raw
       (Some (lit "t=" ++ py_str_int t ++ ","%char :: rest)) true now
     = dispatch L (Webhook_new s k) raw).
Proof.
  intros Hs; pose proof (secret_empty_falsy s k Hs) as Hf.
  assert (Hp : forall hdr, process_notification L (Webhook_new s k) raw hdr true now =
     match replay_check hdr now with
     | Err e => ([], Err e)
     | Ok (Some r) => ([], Ok r)
     | Ok None => dispatch L (Webhook_new s k) raw
     end).
  { intros hdr; unfold process_notification, verify; rewrite Hf; reflexivity. }
  split; [exact Hp|].
  intros t rest Hb Ht; rewrite Hp.
  rewrite (replay_check_passes _ t now (py_split "," rest));
    [reflexivity| |exact Hb|apply le_600_window, Ht].
  rewrite app_assoc, py_split_app; [reflexivity|].
  rewrite nosep_app; apply andb_true_iff; split; [reflexivity|].
  apply py_str_int_nosep; reflexivity.
Qed.

Lemma X3_empty_secret_unsigned_witness :
  process_notification Samples.sample_lib (Webhook_new (Some (SecretStr [])) None)
    (Samples.sample_raw (lit "SampleNotification"))
    (Some (lit "t=" ++ py_str_int 1700000000 ++ ","%char :: lit "v1=forged")) true
    (inject_Z 1700000000)
  = dispatch Samples.sample_lib (Webhook_new (Some (SecretStr [])) None)
      (Samples.sample_raw (lit "SampleNotification")).
Proof.
  apply (proj2 (X3_empty_secret_unsigned _ _ _ _ _ (or_intror (or_intror eq_refl))));
    [reflexivity | apply Qle_bool_iff; reflexivity].
Defined.

(** X4. A non-empty header whose first comma field has no [=] raises
    [IndexError] (it is not answered 401) when no secret is configured,
    and also with a secret when the header has a second comma field; with
    no secret, a first field whose text after [=] is not an integer
    raises [ValueError]. *)
Theorem X4_malformed_header_raises (L : webhook_lib) (w : Webhook) (raw : bytes)
  (h p0 : pystr) (rest : list pystr) (now : Q) :
  h <> [] -> py_split "," h = p0 :: rest ->
  (nosep "=" p0 = true -> (bytes_truthy (secret w) = false \/ rest <> []) ->
     process_notification L w raw (Some h) true now = ([], Err IndexError)) /\
  (forall f, bytes_truthy (secret w) = false -> nth_error (py_split "=" p0) 1 = Some f ->
     py_int f = Err ValueError ->
     process_notification L w raw (Some h) true now = ([], Err ValueError)).
Proof.
  intros Hh Hs.
  assert (Ht : hdr_truthy (Some h) = true) by (destruct h; [contradiction | reflexivity]).
  split.
  - intros Hp [Hf | Hr]; unfold process_notification, verify.
    + rewrite Hf; cbn [bind]; unfold replay_check; rewrite Ht, Hs; cbn [py_index nth_error bind].
      rewrite py_split_nosep by exact Hp; reflexivity.
    + destruct (bytes_truthy (secret w)) eqn:Hb.
      * unfold signature_check; rewrite Ht, Hs; cbn [negb].
        destruct rest as [|p1 rest]; [contradiction|]; cbn [List.length Nat.ltb Nat.leb].
        cbn [py_index nth_error bind]; rewrite py_split_nosep by exact Hp; reflexivity.
      * cbn [bind]; unfold replay_check; rewrite Ht, Hs; cbn [py_index nth_error bind].
        rewrite py_split_nosep by exact Hp; reflexivity.
  - intros f Hf H1 Hi; unfold process_notification, verify; rewrite Hf; cbn [bind].
    unfold replay_check; rewrite Ht, Hs; cbn [py_index nth_error bind].
    unfold py_index; rewrite H1; cbn [bind]; rewrite Hi; reflexivity.
Qed.

Lemma X4_malformed_header_raises_witness :
  process_notification Samples.sample_lib (Samples.sample_webhook [] None)
    (Samples.sample_raw (lit "SampleNotification")) (Some (lit "1700000000,v1=x")) true
    (inject_Z 1700000000)
  = ([], Err IndexError).
Proof.
  apply (proj1 (X4_malformed_header_raises _ _ _ (lit "1700000000,v1=x") (lit "1700000000") [lit "v1=x"] _
                  ltac:(cbv; discriminate) eq_refl) eq_refl).
  right; cbv; discriminate.
Defined.

(** X5. With an error handler that returns normally, processing a
    verified body answers [("", 204)] exactly when the body parses as JSON
    and [Notification.__init__] succeeds; a parse or [Notification]
    error is raised to the caller without calling any handler or the
    error handler. *)
Theorem X5_on_error_reach (L : webhook_lib) (w : Webhook) (raw : bytes) (h : Callable) :
  on_error w = Some h -> (forall n e, call_error h n e = None) ->
  (snd (dispatch L w raw) = Ok ([], 204%Z) <->
     exists body n0, json_loads L raw = Some body /\ Notification_init L body = Ok n0) /\
  (snd (dispatch L w raw) <> Ok ([], 204%Z) -> fst (dispatch L w raw) = []).
Proof.
  intros Hon Hc; unfold dispatch.
  destruct (json_loads L raw) as [body|].
  - destruct (Notification_init L body) as [n0|e] eqn:Hn.
    + destruct (dispatch_try L w body n0) as [[tr n] [e|]].
      * rewrite Hon, Hc; simpl; split; [split; [intros _; eauto | reflexivity]|].
        intros H; exfalso; apply H; reflexivity.
      * simpl; split; [split; [intros _; eauto | reflexivity]|].
        intros H; exfalso; apply H; reflexivity.
    + simpl; split; [split; [discriminate|] | reflexivity].
      intros (b & n1 & Hb & Hn1); injection Hb as <-; congruence.
  - simpl; split; [split; [discriminate|] | reflexivity].
    intros (b & n0 & Hb & _); discriminate.
Qed.

Lemma X5_on_error_reach_witness :
  snd (dispatch Samples.sample_lib (Samples.sample_webhook [] (Some Samples.on_error_ok))
         (Samples.sample_raw (lit "SampleNotification"))) = Ok ([], 204%Z)
  <-> exists body n0, json_loads Samples.sample_lib (Samples.sample_raw (lit "SampleNotification")) = Some body
       /\ Notification_init Samples.sample_lib body = Ok n0.
Proof.
  apply (proj1 (X5_on_error_reach Samples.sample_lib (Samples.sample_webhook [] (Some Samples.on_error_ok)) (Samples.sample_raw (lit "SampleNotification")) Samples.on_error_ok eq_refl (fun _ _ => eq_refl))).
Defined.

(** X6. A verified [RightToErasureRequest] with [GameIds] iterable as
    [ids] calls the registered [on_right_to_erasure_request] handler first,
    with a notification that keeps the id and timestamp, carries the
    [UserId], and has one [Experience] per element of [ids], in order,
    each with the webhook's api key; a handler returning normally gives
    [("", 204)] and no other call. *)
Theorem X6_erasure_dispatch (L : webhook_lib) (w : Webhook) (raw : bytes)
  (hdr : option pystr) (v : bool) (now : Q) (j : json) (n0 : Notification)
  (ev uid gids : json) (ids : list json) (f : Callable) :
  verify L w raw hdr v now = Ok None -> json_loads L raw = Some j ->
  Notification_init L j = Ok n0 ->
  py_getitem j (lit "EventType") = Ok (JStr (lit "RightToErasureRequest")) ->
  py_getitem j (lit "EventPayload") = Ok ev -> py_getitem ev (lit "UserId") = Ok uid ->
  py_getitem ev (lit "GameIds") = Ok gids -> py_iter gids = Ok ids ->
  events_get (lit "on_right_to_erasure_request") (events w) = Some f ->
  exists n rest,
    fst (process_notification L w raw hdr v now)
      = CalledHandler (lit "on_right_to_erasure_request") n :: rest /\
    notification_id n = notification_id n0 /\ timestamp n = timestamp n0 /\
    kind n = RightToErasureRequest uid (map (fun i => Experience_new i (api_key w)) ids) /\
    (call_event f n = None ->
       process_notification L w raw hdr v now
       = ([CalledHandler (lit "on_right_to_erasure_request") n], Ok ([], 204%Z))).
Proof.
  intros Hv Hj Hn He Hp Hu Hg Hi Hf.
  rewrite (dispatch_unfold L w raw hdr v now j n0 Hv Hj Hn).
  assert (Hs : str_assoc (lit "RightToErasureRequest") EVENT_TYPES
               = Some (lit "on_right_to_erasure_request")) by reflexivity.
  assert (Ht : str_eqb (lit "on_right_to_erasure_request") (lit "on_test") = false)
    by reflexivity.
  unfold dispatch_try; rewrite He, event_types_get_str, Hs.
  unfold typed_notification; rewrite Ht, str_eqb_refl.
  unfold RightToErasureRequestNotification_init; rewrite Hn; cbn [bind].
  rewrite Hp; cbn [bind]; rewrite Hu; cbn [bind]; rewrite Hg; cbn [bind]; rewrite Hi; cbn [bind].
  rewrite Hf.
  set (n := mkNotification (notification_id n0) (timestamp n0)
              (RightToErasureRequest uid (map (fun i => Experience_new i (api_key w)) ids))).
  exists n; destruct (call_event f n) as [e|] eqn:Hc.
  - destruct (on_error w); eexists;
      (split; [reflexivity | split; [reflexivity | split; [reflexivity | split; [reflexivity|]]]]);
      intros Hx; discriminate Hx.
  - exists []; split; [reflexivity | split; [reflexivity | split; [reflexivity | split; [reflexivity|]]]].
    intros _; reflexivity.
Qed.

Lemma X6_erasure_dispatch_witness :
  let w := Samples.sample_webhook [(lit "on_right_to_erasure_request", MoreSamples.on_erasure_ok)] None in
  let n := mkNotification (JStr (lit "5a9c2e1f")) Samples.sample_datetime
             (RightToErasureRequest (JNum 42)
                [Experience_new (JNum 111) None; Experience_new (JNum 222) None]) in
  exists n' rest,
    fst (process_notification MoreSamples.erasure_lib w MoreSamples.erasure_raw None false 0)
      = CalledHandler (lit "on_right_to_erasure_request") n' :: rest /\
    notification_id n' = notification_id n /\ timestamp n' = timestamp n /\
    kind n' = RightToErasureRequest (JNum 42)
                (map (fun i => Experience_new i (api_key w)) [JNum 111; JNum 222]) /\
    (call_event MoreSamples.on_erasure_ok n' = None ->
       process_notification MoreSamples.erasure_lib w MoreSamples.erasure_raw None false 0
       = ([CalledHandler (lit "on_right_to_erasure_request") n'], Ok ([], 204%Z))).
Proof.
  intros w n.
  apply (X6_erasure_dispatch MoreSamples.erasure_lib w MoreSamples.erasure_raw None false 0
           MoreSamples.erasure_doc (mkNotification (JStr (lit "5a9c2e1f")) Samples.sample_datetime Generic)
           MoreSamples.erasure_payload (JNum 42) (JArr [JNum 111; JNum 222]) [JNum 111; JNum 222]
           MoreSamples.on_erasure_ok); vm_compute; reflexivity.
Defined.

Lemma Notification_init_generic L body n :
  Notification_init L body = Ok n -> kind n = Generic.
Proof.
  unfold Notification_init; intros H.
  apply bind_ok_inv in H as (nid & _ & H); apply bind_ok_inv in H as (et & _ & H).
  destruct et; try discriminate.
  destruct (fromisoformat L _); [injection H as <-; reflexivity | discriminate].
Qed.

(** X7. When the EventType is recognized but building the typed
    notification fails (for instance [GameIds] or [UserId] missing),
    no event handler is called, even a registered one: the error goes to
    the error handler together with the generic [Notification], or is
    raised when there is none. *)
Theorem X7_typed_build_failure (L : webhook_lib) (w : Webhook) (raw : bytes)
  (hdr : option pystr) (v : bool) (now : Q) (j : json) (n0 : Notification)
  (s ev : pystr) (e : exn) :
  verify L w raw hdr v now = Ok None -> json_loads L raw = Some j ->
  Notification_init L j = Ok n0 -> py_getitem j (lit "EventType") = Ok (JStr s) ->
  str_assoc s EVENT_TYPES = Some ev -> typed_notification L w j n0 ev = Err e ->
  process_notification L w raw hdr v now =
  match on_error w with
  | Some h => ([CalledOnError n0 e],
               match call_error h n0 e with None => Ok ([], 204%Z) | Some e' => Err e' end)
  | None => ([], Err e)
  end.
Proof.
  intros Hv Hj Hn He Hs Ht; rewrite (dispatch_unfold L w raw hdr v now j n0 Hv Hj Hn).
  unfold dispatch_try; rewrite He, event_types_get_str, Hs, Ht; reflexivity.
Qed.

Lemma X7_typed_build_failure_witness :
  let w := Samples.sample_webhook [(lit "on_right_to_erasure_request", MoreSamples.on_erasure_ok)] None in
  process_notification MoreSamples.erasure_lib w MoreSamples.erasure_raw_nogames None false 0
  = ([], Err (KeyError (JStr (lit "GameIds")))).
Proof.
  intros w.
  apply (X7_typed_build_failure MoreSamples.erasure_lib w MoreSamples.erasure_raw_nogames None false 0
           MoreSamples.erasure_doc_nogames
           (mkNotification (JStr (lit "5a9c2e1f")) Samples.sample_datetime Generic)
           (lit "RightToErasureRequest") (lit "on_right_to_erasure_request")
           (KeyError (JStr (lit "GameIds")))); vm_compute; reflexivity.
Defined.

(** X8. The [repr] of a notification built by [Notification.__init__]
    is [Notification(notification_id="<id>")], that of a
    [TestNotification] is
    [TestNotification(notification_id="<id>", user=<user>)] with the user
    built from the payload's [UserId], and that of a
    [RightToErasureRequestNotification] always raises [AttributeError]. *)
Theorem X8_notification_repr (format : json -> pystr) (str_user : User -> pystr)
  (L : webhook_lib) :
  (forall body n, Notification_init L body = Ok n ->
     Notification_repr format str_user n
     = Ok (lit "Notification(notification_id=" ++ dq :: format (notification_id n)
           ++ [dq; ")"%char])) /\
  (forall body k n p uid, TestNotification_init L body k = Ok n ->
     py_getitem body (lit "EventPayload") = Ok p -> py_getitem p (lit "UserId") = Ok uid ->
     Notification_repr format str_user n
     = Ok (lit "TestNotification(notification_id=" ++ dq :: format (notification_id n)
           ++ dq :: lit ", user=" ++ str_user (User_new uid k) ++ lit ")")) /\
  (forall body k n, RightToErasureRequestNotification_init L body k = Ok n ->
     Notification_repr format str_user n = Err AttributeError).
Proof.
  split; [|split].
  - intros body n H; unfold Notification_repr; rewrite (Notification_init_generic L body n H).
    reflexivity.
  - intros body k n p uid H Hp Hu; unfold TestNotification_init in H.
    apply bind_ok_inv in H as (n0 & _ & H); rewrite Hp in H; cbn [bind] in H.
    rewrite Hu in H; cbn [bind] in H; injection H as <-.
    reflexivity.
  - intros body k n H; unfold RightToErasureRequestNotification_init in H.
    apply bind_ok_inv in H as (n0 & _ & H); apply bind_ok_inv in H as (ev & _ & H).
    apply bind_ok_inv in H as (uid & _ & H); apply bind_ok_inv in H as (g & _ & H).
    apply bind_ok_inv in H as (ids & _ & H); injection H as <-.
    reflexivity.
Qed.

Lemma X8_notification_repr_witness :
  exists n, RightToErasureRequestNotification_init MoreSamples.erasure_lib MoreSamples.erasure_doc None = Ok n /\
  Notification_repr Samples.json_text (fun u => Samples.json_text (user_id u)) n = Err AttributeError.
Proof.
  exists (mkNotification (JStr (lit "5a9c2e1f")) Samples.sample_datetime
            (RightToErasureRequest (JNum 42)
               [Experience_new (JNum 111) None; Experience_new (JNum 222) None])).
  split; [vm_compute; reflexivity|].
  apply (proj2 (proj2 (X8_notification_repr Samples.json_text (fun u => Samples.json_text (user_id u))
                         MoreSamples.erasure_lib)) MoreSamples.erasure_doc None).
  vm_compute; reflexivity.
Defined.

(** X9. [Notification.__init__] reads the [EventTime] text [s] as the
    part [d] of [s] before its first ['Z'], cut to 26 characters when
    longer (the digits past microseconds are dropped) and padded with
    ['0'] up to 26 characters, six at most, when shorter; a text
    [fromisoformat] refuses raises [ValueError]. *)
Theorem X9_event_time_text (L : webhook_lib) (body nid : json) (s : pystr) :
  py_getitem body (lit "NotificationId") = Ok nid ->
  py_getitem body (lit "EventTime") = Ok (JStr s) ->
  Notification_init L body =
  let d := take_until "Z" s in
  match fromisoformat L (if (26 <=? List.length d)%nat then firstn 26 d
                         else d ++ repeat "0"%char (Nat.min (26 - List.length d) 6)) with
  | Some ts => Ok (mkNotification nid ts Generic)
  | None => Err ValueError
  end.
Proof.
  intros Hi He; unfold Notification_init; rewrite Hi; cbn [bind]; rewrite He; cbn [bind].
  destruct (py_split_head "Z" s) as [rest Hs]; rewrite Hs; cbn [hd].
  cbv zeta; rewrite firstn_app.
  change (lit "000000") with (repeat "0"%char 6); rewrite firstn_repeat'.
  destruct (Nat.leb_spec 26 (List.length (take_until "Z" s))) as [Hl | Hl].
  - replace (26 - List.length (take_until "Z" s))%nat with 0%nat by lia.
    rewrite app_nil_r; reflexivity.
  - rewrite firstn_all2 by lia; reflexivity.
Qed.

Lemma X9_event_time_text_witness :
  Notification_init Samples.sample_lib (Samples.sample_doc (lit "SampleNotification"))
  = let d := take_until "Z" (lit "2023-08-24T16:17:07.285512900Z") in
    match fromisoformat Samples.sample_lib
            (if (26 <=? List.length d)%nat then firstn 26 d
             else d ++ repeat "0"%char (Nat.min (26 - List.length d) 6)) with
    | Some ts => Ok (mkNotification (JStr (lit "5a9c2e1f")) ts Generic)
    | None => Err ValueError
    end.
Proof. apply X9_event_time_text; reflexivity. Defined.

Lemma nosep_cons sep c s : nosep sep (c :: s) = negb (ascii_eqb c sep) && nosep sep s.
Proof. reflexivity. Qed.

Lemma labelled_header_split (l0 T l1 sig rest : pystr) :
  nosep "," l0 = true -> nosep "," T = true -> nosep "," l1 = true -> nosep "," sig = true ->
  (rest = [] \/ exists r, rest = ","%char :: r) ->
  exists tl, py_split "," (l0 ++ "="%char :: T ++ ","%char :: l1 ++ "="%char :: sig ++ rest)
             = (l0 ++ "="%char :: T) :: (l1 ++ "="%char :: sig) :: tl.
Proof.
  intros H0 HT H1 Hs Hr.
  replace (l0 ++ "="%char :: T ++ ","%char :: l1 ++ "="%char :: sig ++ rest)
    with ((l0 ++ "="%char :: T) ++ ","%char :: (l1 ++ "="%char :: sig ++ rest))
    by (rewrite <- app_assoc; reflexivity).
  rewrite py_split_app by (rewrite nosep_app, nosep_cons, H0, HT; reflexivity).
  destruct Hr as [-> | [r ->]].
  - exists []; rewrite app_nil_r, py_split_nosep; [reflexivity|].
    rewrite nosep_app, nosep_cons, H1, Hs; reflexivity.
  - exists (py_split "," r).
    replace (l1 ++ "="%char :: sig ++ ","%char :: r)
      with ((l1 ++ "="%char :: sig) ++ ","%char :: r) by (rewrite <- app_assoc; reflexivity).
    rewrite py_split_app by (rewrite nosep_app, nosep_cons, H1, Hs; reflexivity).
    reflexivity.
Qed.

Lemma labelled_field (l T : pystr) :
  nosep "=" l = true -> nosep "=" T = true -> py_split "=" (l ++ "="%char :: T) = [l; T].
Proof. intros Hl HT; rewrite py_split_app, py_split_nosep by assumption; reflexivity. Qed.

(** X10. The signature check reads only the text after the first ['=']
    of the first comma field and after the first ['='] of the second:
    with any labels [l0] and [l1] (no [','] or ['='] in them) in place of
    [t] and [v1], and with further comma fields after the signature, a
    correctly signed header with [|t| < 2^53] that is at most 600 s old is
    dispatched. *)
Theorem X10_signature_labels_ignored (L : webhook_lib) (w : Webhook) (S raw : bytes)
  (t : Z) (now : Q) (l0 l1 rest : pystr) :
  secret w = Some S ->
  nosep "," l0 = true -> nosep "=" l0 = true -> nosep "," l1 = true -> nosep "=" l1 = true ->
  (rest = [] \/ exists r, rest = ","%char :: r) -> (Z.abs t < 2 ^ 53)%Z ->
  (now - inject_Z t <= 600)%Q ->
  process_notification L w raw
    (Some (l0 ++ "="%char :: py_str_int t ++ ","%char :: l1 ++ "="%char
           :: b64encode (hmac_sha256 L S (encode (py_str_int t) ++ [Byte.x2e] ++ raw)) ++ rest))
    true now
  = dispatch L w raw.
Proof.
  intros HS H0c H0e H1c H1e Hr Hb Ht.
  set (sig := b64encode (hmac_sha256 L S (encode (py_str_int t) ++ [Byte.x2e] ++ raw))).
  set (h := l0 ++ "="%char :: py_str_int t ++ ","%char :: l1 ++ "="%char :: sig ++ rest).
  assert (HTc : nosep "," (py_str_int t) = true) by (apply py_str_int_nosep; reflexivity).
  assert (HTe : nosep "=" (py_str_int t) = true) by (apply py_str_int_nosep; reflexivity).
  destruct (labelled_header_split l0 (py_str_int t) l1 sig rest H0c HTc H1c
              (b64encode_nosep_comma _) Hr) as [tl Hsp].
  fold h in Hsp.
  assert (Hh : hdr_truthy (Some h) = true) by (unfold h; destruct l0; reflexivity).
  assert (Hrep : replay_check (Some h) now = Ok None).
  { unfold replay_check; rewrite Hh, Hsp; cbn [py_index nth_error bind].
    rewrite labelled_field by assumption; cbn [py_index nth_error bind].
    rewrite py_int_str_int by lia; cbn [bind].
    rewrite float_of_int_exact by exact Hb; cbn [bind]; unfold float_sub.
    rewrite (round_le_600 _ (le_600_window _ _ Ht)), andb_false_r; reflexivity. }
  unfold process_notification, verify; rewrite HS.
  destruct S as [|b S'].
  - cbn [bytes_truthy bind]; rewrite Hrep; reflexivity.
  - cbn [bytes_truthy]; unfold signature_check; rewrite Hh, Hsp; cbn [negb].
    cbn [List.length Nat.ltb Nat.leb py_index nth_error bind].
    rewrite labelled_field by assumption; cbn [py_index nth_error bind].
    rewrite py_split1_app by exact H1e; cbn [py_index nth_error bind].
    unfold sig; rewrite str_eqb_refl; cbn [bind]; rewrite Hrep; reflexivity.
Qed.

Lemma X10_signature_labels_ignored_witness :
  let raw := Samples.sample_raw (lit "SampleNotification") in
  process_notification Samples.sample_lib (Samples.sample_webhook [] None) raw
    (Some (lit "ts" ++ "="%char :: py_str_int 1700000000 ++ ","%char :: lit "sig" ++ "="%char
           :: b64encode (hmac_sha256 Samples.sample_lib Samples.sample_secret
                           (encode (py_str_int 1700000000) ++ [Byte.x2e] ++ raw))
           ++ lit ",v0=old"))
    true (inject_Z 1700000000)
  = dispatch Samples.sample_lib (Samples.sample_webhook [] None) raw.
Proof.
  intros raw; apply X10_signature_labels_ignored; try reflexivity.
  - right; eexists; reflexivity.
  - apply Qle_bool_iff; reflexivity.
Defined.

End WebhookMore.

(* ================================================================== *)
(** * Further properties of the OAuth2 client *)

Module OAuth2More.
Import OAuth2Model PyFacts OAuth2Facts MoreModel WebhookMore.

Ltac destruct_innermost :=
  repeat (match goal with
          | |- context [match ?x with _ => _ end] =>
              lazymatch x with context [match _ with _ => _ end] => fail | _ => destruct x end
          end; simpl).

Lemma verifier_char_quote c : In c verifier_chars -> quote_plus [c] = [c].
Proof.
  unfold verifier_chars, lit; simpl.
  intros H; repeat (destruct H as [<- | H]; [reflexivity|]); contradiction.
Qed.

Lemma quote_plus_verifier s : Forall (fun c => In c verifier_chars) s -> quote_plus s = s.
Proof.
  induction 1 as [|c s Hc _ IH]; [reflexivity|].
  rewrite quote_plus_cons, verifier_char_quote by exact Hc; rewrite IH; reflexivity.
Qed.

Lemma py_split_not_nil sep s : py_split sep s <> [].
Proof. destruct (py_split_head sep s) as [rest H]; rewrite H; discriminate. Qed.

Lemma join_head_cons sep c p ps : join sep ((c :: p) :: ps) = c :: join sep (p :: ps).
Proof. destruct ps; reflexivity. Qed.

(** Joining the pieces of [s.split(c)] with [c] gives [s] back. *)
Lemma join_py_split c s : join [c] (py_split c s) = s.
Proof.
  induction s as [|a s IH]; [reflexivity|]; simpl.
  destruct (ascii_eqb a c) eqn:E.
  - apply ascii_eqb_true in E; subst a.
    rewrite join_cons by apply py_split_not_nil; rewrite IH; reflexivity.
  - destruct (py_split c s) as [|p ps] eqn:P; [exfalso; apply (py_split_not_nil c s P)|].
    rewrite join_head_cons, IH; reflexivity.
Qed.

Lemma AccessToken_init_scope Key L j i d tok :
  AccessToken_init Key L j i d = Ok tok ->
  exists sc, py_getitem j (lit "scope") = Ok sc /\ split_space sc = Ok (scope tok).
Proof.
  unfold AccessToken_init; intros H.
  apply bind_ok_inv in H as (t & _ & H); apply bind_ok_inv in H as (rt & _ & H).
  apply bind_ok_inv in H as (sc & Hsc & H); apply bind_ok_inv in H as (scl & Hscl & H).
  apply bind_ok_inv in H as (ei & _ & H); apply bind_ok_inv in H as (ex & _ & H).
  apply bind_ok_inv in H as (u & _ & H); injection H as <-.
  exists sc; split; assumption.
Qed.

Lemma AccessToken_init_no_id_token Key L j d tok :
  AccessToken_init Key L j None d = Ok tok -> user tok = None.
Proof.
  unfold AccessToken_init; intros H.
  apply bind_ok_inv in H as (t & _ & H); apply bind_ok_inv in H as (rt & _ & H).
  apply bind_ok_inv in H as (sc & _ & H); apply bind_ok_inv in H as (scl & _ & H).
  apply bind_ok_inv in H as (ei & _ & H); apply bind_ok_inv in H as (ex & _ & H).
  apply bind_ok_inv in H as (u & Hu & H); injection H as <-.
  cbn in Hu; injection Hu as <-; reflexivity.
Qed.

Lemma exchange_status_ok Key L resp idt d tok :
  exchange_status Key L resp idt d = Ok tok ->
  exists j, response_json resp = Ok j /\ AccessToken_init Key L j idt d = Ok tok.
Proof.
  unfold exchange_status; intros H.
  destruct (ok resp).
  - apply bind_ok_inv in H as (j & Hj & H); eauto.
  - destruct (status_code resp =? 400)%Z;
      [apply bind_ok_inv in H as (j & _ & H); apply bind_ok_inv in H as (m & _ & H);
       discriminate|].
    destruct (status_code resp =? 401)%Z;
      [apply bind_ok_inv in H as (j & _ & H); apply bind_ok_inv in H as (m & _ & H);
       discriminate|].
    destruct (500 <=? status_code resp)%Z; discriminate.
Qed.

Lemma decode_skip Key L tok aud ks1 r :
  Forall (fun k => jwt_decode L tok k aud = JwtPyJWTError) ks1 ->
  decode_id_token Key L tok aud (ks1 ++ r) = decode_id_token Key L tok aud r.
Proof. induction 1 as [|k ks Hk _ IH]; [reflexivity|]; simpl; rewrite Hk; exact IH. Qed.

Lemma decode_none Key L tok aud ks :
  Forall (fun k => jwt_decode L tok k aud = JwtPyJWTError) ks ->
  decode_id_token Key L tok aud ks = Ok None.
Proof. intros H; rewrite <- (app_nil_r ks), decode_skip by exact H; reflexivity. Qed.

Lemma map_result_Forall {A B} (f : A -> result B) (P : B -> Prop) l bs :
  (forall a b, f a = Ok b -> P b) -> map_result f l = Ok bs -> Forall P bs.
Proof.
  intros Hf; revert bs; induction l as [|a l IH]; simpl; intros bs H.
  - injection H as <-; constructor.
  - apply bind_ok_inv in H as (b & Hb & H); apply bind_ok_inv in H as (bs' & Hbs & H).
    injection H as <-; constructor; [exact (Hf a b Hb) | exact (IH bs' Hbs)].
Qed.

Lemma somes_Forall {A} (P : A -> Prop) l :
  Forall (fun o => match o with Some a => P a | None => True end) l -> Forall P (somes l).
Proof. induction 1 as [|[a|] l Ha _ IH]; simpl; auto. Qed.

Lemma Forall_flat_map {A B} (P : B -> Prop) (f : A -> list B) l :
  Forall (fun a => Forall P (f a)) l -> Forall P (flat_map f l).
Proof. induction 1; simpl; [constructor | apply Forall_app; auto]. Qed.

Lemma experience_of_keyed owner k eid e :
  experience_of owner k eid = Ok e ->
  experience_api_key e = k /\
  match experience_owner e with Some o => owner_keyed k o | None => True end.
Proof.
  unfold experience_of; intros H; apply bind_ok_inv in H as (t & _ & H).
  destruct (json_is_str t (lit "User")).
  - apply bind_ok_inv in H as (oid & _ & H); injection H as <-; split; reflexivity.
  - destruct (json_is_str t (lit "Group")).
    + apply bind_ok_inv in H as (oid & _ & H); injection H as <-; split; reflexivity.
    + injection H as <-; split; [reflexivity | exact I].
Qed.

Lemma account_of_keyed owner k cid o :
  account_of owner k cid = Ok o -> match o with Some a => owner_keyed k a | None => True end.
Proof.
  unfold account_of; intros H.
  destruct (json_is_str cid (lit "U")).
  - apply bind_ok_inv in H as (oid & _ & H); injection H as <-; reflexivity.
  - destruct cid as [| | | [|c r] | |]; try discriminate; [injection H as <-; exact I|].
    destruct (ascii_eqb c "U"); [injection H as <-; reflexivity|].
    destruct (ascii_eqb c "G"); injection H as <-; [reflexivity | exact I].
Qed.

Lemma resource_entries_keyed k resource es os :
  resource_entries k resource = Ok (es, os) ->
  Forall (fun e => experience_api_key e = k /\
                   match experience_owner e with Some o => owner_keyed k o | None => True end) es /\
  Forall (owner_keyed k) os.
Proof.
  unfold resource_entries; intros H.
  apply bind_ok_inv in H as (owner & _ & H); apply bind_ok_inv in H as (res & _ & H).
  apply bind_ok_inv in H as (u & _ & H); apply bind_ok_inv in H as (exps & Hexps & H).
  apply bind_ok_inv in H as (c & _ & H); apply bind_ok_inv in H as (accs & Haccs & H).
  injection H as <- <-; split.
  - destruct (opt_truthy u); [|injection Hexps as <-; constructor].
    apply bind_ok_inv in Hexps as (uni & _ & Hexps); apply bind_ok_inv in Hexps as (ids & _ & Hexps).
    apply bind_ok_inv in Hexps as (idl & _ & Hexps).
    exact (map_result_Forall _ _ _ _ (experience_of_keyed owner k) Hexps).
  - destruct (opt_truthy c); [|injection Haccs as <-; constructor].
    apply bind_ok_inv in Haccs as (cre & _ & Haccs); apply bind_ok_inv in Haccs as (ids & _ & Haccs).
    apply bind_ok_inv in Haccs as (idl & _ & Haccs); apply bind_ok_inv in Haccs as (l & Hl & Haccs).
    injection Haccs as <-; apply somes_Forall.
    exact (map_result_Forall _ _ _ _ (account_of_keyed owner k) Hl).
Qed.

(** X11. [generate_code_verifier(n)] returns [n] characters (none for
    [n <= 0]), each from the 66 letters, digits and [-._~]; [quote_plus]
    leaves the verifier as it is; [generate_code_verifier(None)] raises
    [TypeError]. *)
Theorem X11_code_verifier_alphabet (draw : nat -> nat) :
  generate_code_verifier draw None = Err TypeError /\
  forall n, exists v, generate_code_verifier draw (Some n) = Ok v /\
    List.length v = Z.to_nat n /\ Forall (fun c => In c verifier_chars) v /\ quote_plus v = v.
Proof.
  split; [reflexivity|]; intros n.
  set (v := map (fun i => nth (draw i mod List.length verifier_chars) verifier_chars "a"%char)
              (seq 0 (Z.to_nat n))).
  assert (Hv : Forall (fun c => In c verifier_chars) v).
  { apply Forall_forall; intros c Hc; unfold v in Hc; apply in_map_iff in Hc as (i & <- & _).
    apply nth_In, Nat.mod_upper_bound; discriminate. }
  exists v; split; [reflexivity|]; split; [|split; [exact Hv | apply quote_plus_verifier, Hv]].
  unfold v; rewrite length_map, length_seq; reflexivity.
Qed.

(** X12. The [scope] list of an [AccessToken] joined with spaces gives
    back the [scope] text of the token response; an empty scope text
    gives the list [[""]], not an empty list. *)
Theorem X12_scope_round_trip (Key : Type) (L : oauth_lib Key) (j : json) (i : option json)
  (d : Q) (tok : AccessToken) (s : pystr) :
  AccessToken_init Key L j i d = Ok tok -> py_getitem j (lit "scope") = Ok (JStr s) ->
  join (lit " ") (scope tok) = s /\ (s = [] -> scope tok = [[]]).
Proof.
  intros H Hs; destruct (AccessToken_init_scope Key L j i d tok H) as (sc & Hsc & Hsp).
  rewrite Hs in Hsc; injection Hsc as <-; cbn in Hsp; injection Hsp as <-.
  split; [apply join_py_split | intros ->; reflexivity].
Qed.

Lemma X12_scope_round_trip_witness :
  let j := JObj [(lit "access_token", JStr (lit "at")); (lit "refresh_token", JStr (lit "rt"));
                 (lit "scope", JStr (lit "openid profile")); (lit "expires_in", JNum 900)] in
  let tok := mkAccessToken (JStr (lit "at")) (JStr (lit "rt")) [lit "openid"; lit "profile"]
               (inject_Z 900 + inject_Z (900 * 86400)) None in
  AccessToken_init nat OAuthSamples.sample_lib j None (inject_Z 900) = Ok tok /\
  join (lit " ") (scope tok) = lit "openid profile" /\
  (lit "openid profile" = [] -> scope tok = [[]]).
Proof.
  intros j tok.
  assert (H : AccessToken_init nat OAuthSamples.sample_lib j None (inject_Z 900) = Ok tok)
    by (vm_compute; reflexivity).
  split; [exact H | apply (X12_scope_round_trip nat OAuthSamples.sample_lib j None (inject_Z 900) tok
                             (lit "openid profile") H); reflexivity].
Defined.




(** A token information document whose [exp] is [10**12] (year 33658) is
    refused by [fromtimestamp] with [ValueError]. *)
Lemma token_info_exp_out_of_range :
  let data := JObj [(lit "active", JBool true); (lit "jti", JStr (lit "tok1"));
                    (lit "client_id", JStr (lit "1234")); (lit "sub", JNum 7);
                    (lit "scope", JStr (lit "openid profile")); (lit "exp", JNum (10 ^ 12));
                    (lit "iat", JNum 1000)] in
  AccessTokenInfo_init nat OAuthSamples.sample_lib data = Err ValueError.
Proof. vm_compute; reflexivity. Qed.

(** X14. The cached keys are tried in order: when all keys before [k]
    reject the token with a [PyJWTError], the claims [k] decodes are the
    result whatever keys follow, an [AttributeError] at [k] raises the
    "jwt conflicts with PyJWT" error, and when [k] and all later keys
    reject it too the result is [None] (no error). *)
Theorem X14_decode_key_order (Key : Type) (L : oauth_lib Key) (tok : json) (aud : pystr)
  (ks1 : list Key) (k : Key) (ks2 : list Key) :
  Forall (fun k' => jwt_decode L tok k' aud = JwtPyJWTError) ks1 ->
  (forall c, jwt_decode L tok k aud = JwtClaims c ->
     decode_id_token Key L tok aud (ks1 ++ k :: ks2) = Ok (Some c)) /\
  (jwt_decode L tok k aud = JwtAttributeError ->
     decode_id_token Key L tok aud (ks1 ++ k :: ks2)
     = Err (rblx_opencloudException
              (JStr (lit "jwt conflicts with PyJWT. Please uninstall jwt to fix this issue.")))) /\
  (jwt_decode L tok k aud = JwtPyJWTError ->
     Forall (fun k' => jwt_decode L tok k' aud = JwtPyJWTError) ks2 ->
     decode_id_token Key L tok aud (ks1 ++ k :: ks2) = Ok None).
Proof.
  intros H1; rewrite decode_skip by exact H1; simpl.
  split; [intros c Hc; rewrite Hc; reflexivity|].
  split; [intros Hc; rewrite Hc; reflexivity|].
  intros Hc H2; rewrite Hc; apply decode_none, H2.
Qed.

Lemma X14_decode_key_order_witness :
  decode_id_token nat OAuthSamples.sample_lib (JStr (lit "eyJ")) (lit "1234") ([0; 2] ++ 1 :: [3])%nat
  = Ok (Some (JObj [(lit "sub", JNum 7)])).
Proof.
  apply (proj1 (X14_decode_key_order nat OAuthSamples.sample_lib (JStr (lit "eyJ")) (lit "1234")
                  [0; 2]%nat 1%nat [3]%nat ltac:(repeat constructor))).
  reflexivity.
Defined.

(** X15. A token response carrying an [id_token] that none of the
    fresh cached keys verifies is not an error: [exchange_code] makes no
    certs fetch, keeps its state and ends in the status dispatch without
    claims, and the [AccessToken] it builds has no user. *)
Theorem X15_unverified_id_token (Key : Type) (L : oauth_lib Key) (app : OAuth2App Key)
  (code : pystr) (cv : option pystr) (resp certs : Response) (now dtnow : Q)
  (j : json) (g : option json) (tokv : json) (ks : list Key) (u : Q) :
  response_json resp = Ok j -> py_get j (lit "id_token") = Ok g -> opt_truthy g = true ->
  py_getitem j (lit "id_token") = Ok tokv ->
  openid_certs_cache Key app = Some ks -> ks <> [] ->
  openid_certs_cache_updated Key app = Some u ->
  (now - u <= inject_Z (openid_certs_cache_seconds Key app))%Q ->
  Forall (fun k => jwt_decode L tokv k (py_str_int (id Key app)) = JwtPyJWTError) ks ->
  exchange_code Key L app code cv resp certs now dtnow
  = (app, 0%nat, exchange_status Key L resp None dtnow) /\
  (forall t, exchange_status Key L resp None dtnow = Ok t -> user t = None).
Proof.
  intros Hj Hg Ht Htok Hc Hne Hu Hage Hks; split.
  - apply (exchange_code_unfold Key L app code cv resp certs now dtnow j g app 0%nat None Hj Hg).
    rewrite Ht, (id_token_block_fresh Key L app j certs now ks u Hc Hne Hu Hage), Htok.
    cbn [bind]; rewrite decode_none by exact Hks; reflexivity.
  - intros t H; destruct (exchange_status_ok Key L resp None dtnow t H) as (j' & _ & H').
    exact (AccessToken_init_no_id_token Key L j' dtnow t H').
Qed.

Lemma X15_unverified_id_token_witness :
  let app := set_cache nat OAuthSamples.sample_app (Some [2%nat]) (Some 0) in
  exchange_code nat OAuthSamples.sample_lib app (lit "code") None
    (OAuthSamples.token_response 200 true) (OAuthSamples.certs_response []) 10 0
  = (app, 0%nat, exchange_status nat OAuthSamples.sample_lib (OAuthSamples.token_response 200 true) None 0) /\
  (forall t, exchange_status nat OAuthSamples.sample_lib (OAuthSamples.token_response 200 true) None 0 = Ok t ->
     user t = None).
Proof.
  intros app.
  apply (X15_unverified_id_token nat OAuthSamples.sample_lib app (lit "code") None
           (OAuthSamples.token_response 200 true) (OAuthSamples.certs_response []) 10 0
           (match body_json (OAuthSamples.token_response 200 true) with Some j => j | None => JNull end)
           (Some (JStr (lit "eyJ"))) (JStr (lit "eyJ")) [2%nat] 0);
    try reflexivity.
  - discriminate.
  - apply Qle_bool_iff; reflexivity.
  - repeat constructor.
Defined.

(** X16. A first certs fetch (nothing cached yet) whose key loading
    fails after at least one key leaves those keys cached with no update
    time: the call raises the loading error after one fetch, and from
    then on every [exchange_code] whose response carries an [id_token]
    raises [TypeError] without fetching again and without changing the
    state. *)
Theorem X16_partial_cache_poisoned (Key : Type) (L : oauth_lib Key) (app : OAuth2App Key)
  (code : pystr) (cv : option pystr) (resp certs : Response) (now dtnow : Q)
  (j : json) (cj kv : json) (go : option json) (cs : list json) (acc : list Key) (e : exn) :
  cache_truthy Key (openid_certs_cache Key app) = false ->
  openid_certs_cache_updated Key app = None ->
  response_json resp = Ok j -> py_get j (lit "id_token") = Ok go -> opt_truthy go = true ->
  ok certs = true -> response_json certs = Ok cj -> py_getitem cj (lit "keys") = Ok kv ->
  py_iter kv = Ok cs -> load_certs Key L [] cs = (acc, Some e) -> acc <> [] ->
  exchange_code Key L app code cv resp certs now dtnow
  = (set_cache Key app (Some acc) None, 1%nat, Err e) /\
  (forall code2 cv2 resp2 certs2 now2 dtnow2 j2 g2,
     response_json resp2 = Ok j2 -> py_get j2 (lit "id_token") = Ok g2 -> opt_truthy g2 = true ->
     exchange_code Key L (set_cache Key app (Some acc) None) code2 cv2 resp2 certs2 now2 dtnow2
     = (set_cache Key app (Some acc) None, 0%nat, Err TypeError)).
Proof.
  intros Hc Hu Hj Hg Ht Hok Hcj Hkv Hcs Hl Hne; split.
  - unfold exchange_code; rewrite Hj; cbn [bind]; rewrite Hg; cbn [bind]; rewrite Ht.
    unfold id_token_block; rewrite (needs_fetch_stale Key app now (or_introl Hc)).
    cbn beta iota zeta.
    unfold refresh_certs; rewrite Hok; cbn [negb]; rewrite Hcj; cbn [bind]; rewrite Hkv; cbn [bind].
    rewrite Hcs, Hl, Hu; reflexivity.
  - intros code2 cv2 resp2 certs2 now2 dtnow2 j2 g2 Hj2 Hg2 Ht2.
    unfold exchange_code; rewrite Hj2; cbn [bind]; rewrite Hg2; cbn [bind]; rewrite Ht2.
    unfold id_token_block, needs_fetch; cbn [openid_certs_cache openid_certs_cache_updated set_cache].
    destruct acc as [|k acc]; [contradiction | reflexivity].
Qed.

Lemma X16_partial_cache_poisoned_witness :
  exchange_code nat OAuthSamples.sample_lib OAuthSamples.sample_app (lit "code") None
    (OAuthSamples.token_response 200 true)
    (OAuthSamples.certs_response [OAuthSamples.sample_cert; JNum 0]) 0 0
  = (set_cache nat OAuthSamples.sample_app (Some [1%nat]) None, 1%nat, Err (KeyError (JStr (lit "x")))) /\
  (forall code2 cv2 resp2 certs2 now2 dtnow2 j2 g2,
     response_json resp2 = Ok j2 -> py_get j2 (lit "id_token") = Ok g2 -> opt_truthy g2 = true ->
     exchange_code nat OAuthSamples.sample_lib (set_cache nat OAuthSamples.sample_app (Some [1%nat]) None)
       code2 cv2 resp2 certs2 now2 dtnow2
     = (set_cache nat OAuthSamples.sample_app (Some [1%nat]) None, 0%nat, Err TypeError)).
Proof.
  apply (X16_partial_cache_poisoned nat OAuthSamples.sample_lib OAuthSamples.sample_app (lit "code") None
           (OAuthSamples.token_response 200 true)
           (OAuthSamples.certs_response [OAuthSamples.sample_cert; JNum 0]) 0 0
           (match body_json (OAuthSamples.token_response 200 true) with Some j => j | None => JNull end)
           (JObj [(lit "keys", JArr [OAuthSamples.sample_cert; JNum 0])])
           (JArr [OAuthSamples.sample_cert; JNum 0]) (Some (JStr (lit "eyJ")))
           [OAuthSamples.sample_cert; JNum 0] [1%nat] (KeyError (JStr (lit "x"))));
    try reflexivity.
  discriminate.
Defined.

(** X17. [exchange_code] parses the token endpoint's body before it
    looks at the status: a response without a JSON body raises
    [JSONDecodeError] whatever its status (also 5xx), with no certs fetch
    and no state change, while [refresh_token] and [revoke_token] answer
    a 5xx response with [ServiceUnavailable] whatever its body. *)
Theorem X17_json_before_status (Key : Type) (L : oauth_lib Key) (app : OAuth2App Key)
  (code : pystr) (cv : option pystr) (resp certs : Response) (now dtnow : Q) (rt t : pystr) :
  body_json resp = None ->
  exchange_code Key L app code cv resp certs now dtnow = (app, 0%nat, Err JSONDecodeError) /\
  ((500 <= status_code resp < 600)%Z ->
     refresh_token Key L app rt resp dtnow
     = Err (ServiceUnavailable (JStr (lit "The service is unavailable or has encountered an error."))) /\
     revoke_token Key app t resp
     = Err (ServiceUnavailable (JStr (lit "The service is unavailable or has encountered an error.")))).
Proof.
  intros Hb; split; [unfold exchange_code, response_json; rewrite Hb; reflexivity|].
  intros Hs; unfold refresh_token, revoke_token; rewrite ok_false by lia; cbn [negb].
  rewrite (proj2 (Z.eqb_neq _ _)) by lia; rewrite (proj2 (Z.leb_le _ _)) by lia.
  split; reflexivity.
Qed.

Lemma X17_json_before_status_witness :
  exchange_code nat OAuthSamples.sample_lib OAuthSamples.sample_app (lit "code") None
    (mkResponse 503 None) (OAuthSamples.certs_response []) 0 0
  = (OAuthSamples.sample_app, 0%nat, Err JSONDecodeError) /\
  ((500 <= status_code (mkResponse 503 None) < 600)%Z ->
     refresh_token nat OAuthSamples.sample_lib OAuthSamples.sample_app (lit "rt") (mkResponse 503 None) 0
     = Err (ServiceUnavailable (JStr (lit "The service is unavailable or has encountered an error."))) /\
     revoke_token nat OAuthSamples.sample_app (lit "at") (mkResponse 503 None)
     = Err (ServiceUnavailable (JStr (lit "The service is unavailable or has encountered an error.")))).
Proof. apply X17_json_before_status; reflexivity. Defined.

(** X18. One [exchange_code] call makes at most one certs fetch; when
    the token response has no truthy [id_token] it makes none, keeps the
    state and ends in the status dispatch without claims. *)
Theorem X18_exchange_fetch_bound (Key : Type) (L : oauth_lib Key) (app : OAuth2App Key)
  (code : pystr) (cv : option pystr) (resp certs : Response) (now dtnow : Q) :
  (let '(_, nf, _) := exchange_code Key L app code cv resp certs now dtnow in (nf <= 1)%nat) /\
  (forall j g, response_json resp = Ok j -> py_get j (lit "id_token") = Ok g ->
     opt_truthy g = false ->
     exchange_code Key L app code cv resp certs now dtnow
     = (app, 0%nat, exchange_status Key L resp None dtnow)).
Proof.
  split.
  - unfold exchange_code, id_token_block, refresh_certs, bind.
    destruct_innermost; lia.
  - intros j g Hj Hg Ht.
    apply (exchange_code_unfold Key L app code cv resp certs now dtnow j g app 0%nat None Hj Hg).
    rewrite Ht; reflexivity.
Qed.

Lemma X18_exchange_fetch_bound_witness :
  exchange_code nat OAuthSamples.sample_lib OAuthSamples.sample_app (lit "code") None
    (OAuthSamples.token_response 200 false) (OAuthSamples.certs_response []) 0 0
  = (OAuthSamples.sample_app, 0%nat,
     exchange_status nat OAuthSamples.sample_lib (OAuthSamples.token_response 200 false) None 0).
Proof.
  apply (proj2 (X18_exchange_fetch_bound nat OAuthSamples.sample_lib OAuthSamples.sample_app
                  (lit "code") None (OAuthSamples.token_response 200 false)
                  (OAuthSamples.certs_response []) 0 0)
           (match body_json (OAuthSamples.token_response 200 false) with Some j => j | None => JNull end)
           None); reflexivity.
Defined.

(** X19. [revoke_token] returns [None] for an ok response; it raises
    [InvalidKey] with a fixed message (the body is not read) for 400,
    [ServiceUnavailable] for 500..599 and the generic
    ["Unexpected HTTP <status>"] for 401..499; it never raises
    [InvalidCode]. *)
Theorem X19_revoke_status (Key : Type) (app : OAuth2App Key) (t : pystr) (resp : Response) :
  (ok resp = true -> revoke_token Key app t resp = Ok tt) /\
  (status_code resp = 400%Z ->
     revoke_token Key app t resp
     = Err (InvalidKey (JStr (lit "The code, client id, client secret, or redirect uri is invalid.")))) /\
  ((500 <= status_code resp < 600)%Z ->
     revoke_token Key app t resp
     = Err (ServiceUnavailable (JStr (lit "The service is unavailable or has encountered an error.")))) /\
  ((401 <= status_code resp < 500)%Z ->
     revoke_token Key app t resp
     = Err (rblx_opencloudException (JStr (lit "Unexpected HTTP " ++ py_str_int (status_code resp))))) /\
  (forall m, revoke_token Key app t resp <> Err (InvalidCode m)).
Proof.
  unfold revoke_token; split; [|split; [|split; [|split]]].
  - intros H; rewrite H; reflexivity.
  - intros H; rewrite ok_false by lia; rewrite H; reflexivity.
  - intros H; rewrite ok_false by lia; cbn [negb].
    rewrite (proj2 (Z.eqb_neq _ _)) by lia; rewrite (proj2 (Z.leb_le _ _)) by lia; reflexivity.
  - intros H; rewrite ok_false by lia; cbn [negb].
    rewrite (proj2 (Z.eqb_neq _ _)) by lia; rewrite (proj2 (Z.leb_gt _ _)) by lia; reflexivity.
  - intros m; destruct (ok resp); [discriminate|].
    destruct (status_code resp =? 400)%Z; [discriminate|].
    destruct (500 <=? status_code resp)%Z; discriminate.
Qed.

Lemma X19_revoke_status_witness :
  revoke_token nat OAuthSamples.sample_app (lit "at") (OAuthSamples.error_response 400 (lit "invalid_request"))
  = Err (InvalidKey (JStr (lit "The code, client id, client secret, or redirect uri is invalid."))).
Proof. apply (X19_revoke_status nat OAuthSamples.sample_app (lit "at") _); reflexivity. Defined.

Lemma resource_entries_keyed_pair k r p :
  resource_entries k r = Ok p ->
  Forall (fun e => experience_api_key e = k /\
                   match experience_owner e with Some o => owner_keyed k o | None => True end) (fst p) /\
  Forall (owner_keyed k) (snd p).
Proof. destruct p as [es os]; apply resource_entries_keyed. Qed.

(** X20. Every experience [fetch_resources] returns, every owner it
    attaches to one and every account it returns carries the api key
    ["Bearer <token>"]. *)
Theorem X20_resources_keyed (Key : Type) (L : oauth_lib Key) (tok : json) (server : Z * json)
  (res : Resources) :
  fetch_resources Key L tok server = Ok res ->
  Forall (fun e => experience_api_key e = Some (lit "Bearer " ++ py_format Key L tok) /\
                   match experience_owner e with
                   | Some o => owner_keyed (Some (lit "Bearer " ++ py_format Key L tok)) o
                   | None => True end) (experiences res) /\
  Forall (owner_keyed (Some (lit "Bearer " ++ py_format Key L tok))) (accounts res).
Proof.
  unfold fetch_resources, send_request; destruct server as [status data]; cbn [bind].
  destruct (status =? 401)%Z; [discriminate|]; intros H.
  apply bind_ok_inv in H as (infos & _ & H); apply bind_ok_inv in H as (items & _ & H).
  apply bind_ok_inv in H as (per & Hper & H); injection H as <-; cbn [experiences accounts].
  set (k := Some (lit "Bearer " ++ py_format Key L tok)) in *.
  pose proof (map_result_Forall _ _ _ _ (resource_entries_keyed_pair k) Hper) as HF.
  split; apply Forall_flat_map; eapply Forall_impl; try exact HF; intros p [H1 H2]; assumption.
Qed.

Lemma X20_resources_keyed_witness :
  let data := JObj [(lit "resource_infos", JArr [JObj
                [(lit "owner", JObj [(lit "id", JNum 9); (lit "type", JStr (lit "User"))]);
                 (lit "resources", JObj [(lit "universe", JObj [(lit "ids", JArr [JStr (lit "77")])]);
                                         (lit "creator", JObj [(lit "ids", JArr [JStr (lit "U"); JStr (lit "G5")])])])]])] in
  exists res, fetch_resources nat OAuthSamples.sample_lib (JStr (lit "at")) (200%Z, data) = Ok res /\
  Forall (fun e => experience_api_key e = Some (lit "Bearer " ++ py_format nat OAuthSamples.sample_lib (JStr (lit "at"))) /\
                   match experience_owner e with
                   | Some o => owner_keyed (Some (lit "Bearer " ++ py_format nat OAuthSamples.sample_lib (JStr (lit "at")))) o
                   | None => True end) (experiences res) /\
  Forall (owner_keyed (Some (lit "Bearer " ++ py_format nat OAuthSamples.sample_lib (JStr (lit "at"))))) (accounts res).
Proof.
  intros data.
  destruct (fetch_resources nat OAuthSamples.sample_lib (JStr (lit "at")) (200%Z, data)) as [res|e] eqn:H;
    [|vm_compute in H; discriminate H].
  exists res; split; [reflexivity | exact (X20_resources_keyed nat OAuthSamples.sample_lib _ _ res H)].
Defined.

(** X21. The [repr] of a [PartialAccessToken] or of an [AccessToken]
    with a text token shows only the first 15 characters of the token:
    tokens that agree on them give the same [repr] (for an
    [AccessToken], whatever its refresh token, scope and expiry, given
    the same user). *)
Theorem X21_token_repr_prefix (format : json -> pystr) (slice_other : json -> result json)
  (str_user : User -> pystr) :
  (forall s s', firstn 15 s = firstn 15 s' ->
     PartialAccessToken_repr format slice_other (JStr s)
     = PartialAccessToken_repr format slice_other (JStr s')) /\
  (forall a a' s s', token a = JStr s -> token a' = JStr s' -> firstn 15 s = firstn 15 s' ->
     user a = user a' ->
     AccessToken_repr format slice_other str_user a = AccessToken_repr format slice_other str_user a').
Proof.
  split.
  - intros s s' H; unfold PartialAccessToken_repr; cbn [token_slice bind]; rewrite H; reflexivity.
  - intros a a' s s' Ha Ha' H Hu; unfold AccessToken_repr; rewrite Ha, Ha', Hu.
    cbn [token_slice bind]; rewrite H; reflexivity.
Qed.

Lemma X21_token_repr_prefix_witness :
  PartialAccessToken_repr Samples.json_text (fun v => Ok v) (JStr (lit "abcdefghijklmnoSECRET1"))
  = PartialAccessToken_repr Samples.json_text (fun v => Ok v) (JStr (lit "abcdefghijklmnoOTHER")).
Proof.
  apply (proj1 (X21_token_repr_prefix Samples.json_text (fun v => Ok v) (fun u => Samples.json_text (user_id u)))).
  reflexivity.
Defined.

End OAuth2More.
